(** * FF_OSD: the sync state machine and frame orchestrator of [src/main.c]

    A shallow embedding of the interrupt handlers [IRQ_vsync] and
    [IRQ_csync], of [slave_arr_update] and [set_polarity], and of the
    parts of the main loop that wait for the display-critical window,
    recover from lost sync and compute the height of the next frame.

    C objects are modelled as the code has them: [int] variables are
    integers wrapped to 32 bits, [uint16_t] variables are wrapped to 16
    bits, memory-mapped registers are fields of one record, and the values
    a handler reads from the hardware (the current time, the level of the
    sync pin) are arguments of the handler. *)

From Stdlib Require Import ZArith List Lia Bool.
Import ListNotations.
Open Scope Z_scope.

(** ** Machine integers *)

Definition uint16 (z : Z) : Z := z mod 2 ^ 16.
Definition uint32 (z : Z) : Z := z mod 2 ^ 32.
Definition sint32 (z : Z) : Z := (z + 2 ^ 31) mod 2 ^ 32 - 2 ^ 31.

Definition uint16_range (z : Z) : Prop := 0 <= z < 2 ^ 16.
Definition sint32_range (z : Z) : Prop := - 2 ^ 31 <= z < 2 ^ 31.

(** [min_t(uint16_t, a, b)]: both operands are converted to the type first. *)
Definition min_t_uint16 (a b : Z) : Z :=
  let x := uint16 a in
  let y := uint16 b in
  if x <? y then x else y.

(** ** Constants of main.c *)

Definition HLINE_EOF : Z := -1.
Definition HLINE_VBL : Z := 0.
Definition HLINE_SOF : Z := 1.
Definition MAX_DISPLAY_HEIGHT : Z := 52.
Definition pin_csync : Z := 8.
Definition pin_vsync : Z := 14.

(** [m(bitnr)] is the mask with the single bit [bitnr] set. *)
Definition m (bitnr : Z) : Z := Z.shiftl 1 bitnr.

(** ** Configuration and display descriptors

    The declarations of [struct config] and [struct display] are in headers
    that are not part of the sources; the fields that main.c reads are kept,
    as integers.  The configuration fields are 16-bit unsigned values. *)

Record config := mkConfig {
  polarity : Z;
  h_off : Z;
  v_off : Z
}.

Definition config_wf (cfg : config) : Prop :=
  uint16_range (polarity cfg) /\ uint16_range (h_off cfg) /\
  uint16_range (v_off cfg).

Record display := mkDisplay {
  rows : Z;
  cols : Z;
  on : Z;
  heights : Z
}.

(** ** The state shared by the handlers and the main loop *)

Record state := mkState {
  hline : Z;             (* static int hline *)
  frame : Z;             (* static int frame *)
  display_height : Z;    (* static uint16_t display_height *)
  p : Z;                 (* static time_t p, local to IRQ_csync *)
  exti_pr : Z;
  exti_ftsr : Z;
  exti_rtsr : Z;
  tim1_smcr : Z;
  tim1_ccer : Z;
  tim1_ccr3 : Z;
  tim1_ccr4 : Z;
  tim2_arr : Z;
  tim2_ccr1 : Z;
  tim3_arr : Z;
  dma_display_cmar : Z
}.

Definition set_hline (v : Z) (s : state) : state :=
  mkState v (frame s) (display_height s) (p s) (exti_pr s) (exti_ftsr s)
    (exti_rtsr s) (tim1_smcr s) (tim1_ccer s) (tim1_ccr3 s) (tim1_ccr4 s)
    (tim2_arr s) (tim2_ccr1 s) (tim3_arr s) (dma_display_cmar s).
Definition set_frame (v : Z) (s : state) : state :=
  mkState (hline s) v (display_height s) (p s) (exti_pr s) (exti_ftsr s)
    (exti_rtsr s) (tim1_smcr s) (tim1_ccer s) (tim1_ccr3 s) (tim1_ccr4 s)
    (tim2_arr s) (tim2_ccr1 s) (tim3_arr s) (dma_display_cmar s).
Definition set_display_height (v : Z) (s : state) : state :=
  mkState (hline s) (frame s) v (p s) (exti_pr s) (exti_ftsr s)
    (exti_rtsr s) (tim1_smcr s) (tim1_ccer s) (tim1_ccr3 s) (tim1_ccr4 s)
    (tim2_arr s) (tim2_ccr1 s) (tim3_arr s) (dma_display_cmar s).
Definition set_p (v : Z) (s : state) : state :=
  mkState (hline s) (frame s) (display_height s) v (exti_pr s) (exti_ftsr s)
    (exti_rtsr s) (tim1_smcr s) (tim1_ccer s) (tim1_ccr3 s) (tim1_ccr4 s)
    (tim2_arr s) (tim2_ccr1 s) (tim3_arr s) (dma_display_cmar s).
Definition set_exti_pr (v : Z) (s : state) : state :=
  mkState (hline s) (frame s) (display_height s) (p s) v (exti_ftsr s)
    (exti_rtsr s) (tim1_smcr s) (tim1_ccer s) (tim1_ccr3 s) (tim1_ccr4 s)
    (tim2_arr s) (tim2_ccr1 s) (tim3_arr s) (dma_display_cmar s).
Definition set_exti_ftsr (v : Z) (s : state) : state :=
  mkState (hline s) (frame s) (display_height s) (p s) (exti_pr s) v
    (exti_rtsr s) (tim1_smcr s) (tim1_ccer s) (tim1_ccr3 s) (tim1_ccr4 s)
    (tim2_arr s) (tim2_ccr1 s) (tim3_arr s) (dma_display_cmar s).
Definition set_exti_rtsr (v : Z) (s : state) : state :=
  mkState (hline s) (frame s) (display_height s) (p s) (exti_pr s)
    (exti_ftsr s) v (tim1_smcr s) (tim1_ccer s) (tim1_ccr3 s) (tim1_ccr4 s)
    (tim2_arr s) (tim2_ccr1 s) (tim3_arr s) (dma_display_cmar s).
Definition set_tim1_smcr (v : Z) (s : state) : state :=
  mkState (hline s) (frame s) (display_height s) (p s) (exti_pr s)
    (exti_ftsr s) (exti_rtsr s) v (tim1_ccer s) (tim1_ccr3 s) (tim1_ccr4 s)
    (tim2_arr s) (tim2_ccr1 s) (tim3_arr s) (dma_display_cmar s).
Definition set_tim1_ccer (v : Z) (s : state) : state :=
  mkState (hline s) (frame s) (display_height s) (p s) (exti_pr s)
    (exti_ftsr s) (exti_rtsr s) (tim1_smcr s) v (tim1_ccr3 s) (tim1_ccr4 s)
    (tim2_arr s) (tim2_ccr1 s) (tim3_arr s) (dma_display_cmar s).
Definition set_tim1_ccr3 (v : Z) (s : state) : state :=
  mkState (hline s) (frame s) (display_height s) (p s) (exti_pr s)
    (exti_ftsr s) (exti_rtsr s) (tim1_smcr s) (tim1_ccer s) v (tim1_ccr4 s)
    (tim2_arr s) (tim2_ccr1 s) (tim3_arr s) (dma_display_cmar s).
Definition set_tim1_ccr4 (v : Z) (s : state) : state :=
  mkState (hline s) (frame s) (display_height s) (p s) (exti_pr s)
    (exti_ftsr s) (exti_rtsr s) (tim1_smcr s) (tim1_ccer s) (tim1_ccr3 s) v
    (tim2_arr s) (tim2_ccr1 s) (tim3_arr s) (dma_display_cmar s).
Definition set_tim2_arr (v : Z) (s : state) : state :=
  mkState (hline s) (frame s) (display_height s) (p s) (exti_pr s)
    (exti_ftsr s) (exti_rtsr s) (tim1_smcr s) (tim1_ccer s) (tim1_ccr3 s)
    (tim1_ccr4 s) v (tim2_ccr1 s) (tim3_arr s) (dma_display_cmar s).
Definition set_tim2_ccr1 (v : Z) (s : state) : state :=
  mkState (hline s) (frame s) (display_height s) (p s) (exti_pr s)
    (exti_ftsr s) (exti_rtsr s) (tim1_smcr s) (tim1_ccer s) (tim1_ccr3 s)
    (tim1_ccr4 s) (tim2_arr s) v (tim3_arr s) (dma_display_cmar s).
Definition set_tim3_arr (v : Z) (s : state) : state :=
  mkState (hline s) (frame s) (display_height s) (p s) (exti_pr s)
    (exti_ftsr s) (exti_rtsr s) (tim1_smcr s) (tim1_ccer s) (tim1_ccr3 s)
    (tim1_ccr4 s) (tim2_arr s) (tim2_ccr1 s) v (dma_display_cmar s).
Definition set_dma_display_cmar (v : Z) (s : state) : state :=
  mkState (hline s) (frame s) (display_height s) (p s) (exti_pr s)
    (exti_ftsr s) (exti_rtsr s) (tim1_smcr s) (tim1_ccer s) (tim1_ccr3 s)
    (tim1_ccr4 s) (tim2_arr s) (tim2_ccr1 s) (tim3_arr s) v.

(** The register declarations are in a header that is not part of the
    sources.  The timers TIM1, TIM2 and TIM3 of the STM32F103 are 16-bit
    timers: a value stored to their reload and compare registers keeps its
    low 16 bits. *)
Definition reg16 (v : Z) : Z := uint16 v.

(** An interrupt request: the line that fired and, for the sync line, the
    values its handler reads from the hardware when it runs ([time_now()]
    and the level of the sync pin). *)
Inductive irq :=
| Csync (t : Z) (level : Z)
| Vsync.

(** Messages the main loop sends to the console. *)
Inductive printk_msg := Sync_lost | Sync_found.

(** The processor: the shared state, the global interrupt mask and the
    requests held while the mask is set. *)
Record cpu := mkCpu {
  hw : state;
  primask : bool;
  pended : list irq
}.

(** The main loop: the processor and the local variables of [main]. *)
Record mainloop := mkMainloop {
  core : cpu;
  frame_time : Z;        (* time_t frame_time *)
  lost_sync : bool;      (* bool_t lost_sync *)
  console : list printk_msg
}.

(** ** The platform

    Constants of the platform headers, which are not part of the sources:
    the tick rate of the time base and of the system clock, the register
    bit fields used by the handlers, and the address of the pixel buffer.
    The firmware is verified for every platform. *)

Class Platform := {
  TIME_MHZ : Z;
  SYSCLK_MHZ : Z;
  TIM_CCER_CC1P : Z;
  TIM_SMCR_MSM : Z;
  TIM_SMCR_TS : Z -> Z;
  TIM_SMCR_SMS : Z -> Z;
  display_dat : Z
}.

(** ** Concrete instances

    The platform constants of the STM32F103 at 72 MHz, and the
    configurations and states the examples below start from. *)

Definition stm32 : Platform := {|
  TIME_MHZ := 9;
  SYSCLK_MHZ := 72;
  TIM_CCER_CC1P := 2;
  TIM_SMCR_MSM := 128;
  TIM_SMCR_TS := fun x => Z.shiftl x 4;
  TIM_SMCR_SMS := fun x => x;
  display_dat := 536870912
|}.

(** Active-low sync, [h_off = 2], [v_off = 3]. *)
Definition scenario_config : config := mkConfig 0 2 3.

(** A state with the given line counter and height, the frame counter at
    0, the last pulse start at tick 100, falling edges selected and every
    other register cleared. *)
Definition example_state (line height : Z) : state :=
  mkState line 0 height 100 0 16640 0 0 0 0 0 0 0 0 0.

(** A main loop that last saw a frame at tick 0, with the machine on
    active line 7 of a frame whose sync has stopped. *)
Definition stalled_mainloop : mainloop :=
  mkMainloop (mkCpu (example_state 7 10) false []) 0 false [].

(** Four rows of text, the first two of double height: the display asks
    for 58 lines. *)
Definition tall_display : display := mkDisplay 4 40 1 3.

(** ** The overlay box

    The registers of the interrupts that frame the overlay box, beside the
    state of the sync machine. *)
Record osd := mkOsd {
  sync : state;
  tim1_cr1 : Z;
  tim1_sr : Z;
  tim2_sr : Z;
  dma1_ifcr : Z;
  dma_display_ccr : Z;
  dma_display_cndtr : Z
}.

(** Bit fields of the DMA and timer headers, which are not part of the
    sources. *)
Class OsdRegs := {
  DMA_IFCR_CGIF : Z -> Z;
  TIM_CR1_CEN : Z
}.

Definition stm32_osd : OsdRegs := {|
  DMA_IFCR_CGIF := fun ch => Z.shiftl 1 (4 * (ch - 1));
  TIM_CR1_CEN := 1
|}.

(** The overlay registers at rest around [example_state]. *)
Definition example_osd (line height : Z) : osd :=
  mkOsd (example_state line height) 0 0 0 0 0 0.

(** ** Buttons

    The button bits of a header that is not part of the sources. *)
Class Buttons := {
  B_LEFT : Z;
  B_RIGHT : Z;
  B_SELECT : Z;
  B_PROCESSED : Z
}.

Definition stm32_buttons : Buttons := {|
  B_LEFT := 1;
  B_RIGHT := 2;
  B_SELECT := 4;
  B_PROCESSED := 8
|}.

Definition uint8 (z : Z) : Z := z mod 2 ^ 8.

(** The kinds of rotary encoder and their tables of transitions: two bits
    for each pair of a previous and a current position. *)
Inductive rotary_type_t := ROT_none | ROT_full | ROT_half | ROT_quarter.

Definition rotary_transitions (ty : rotary_type_t) : Z :=
  match ty with
  | ROT_none => 0x00000000
  | ROT_full => 0x20000100
  | ROT_half => 0x24000018
  | ROT_quarter => 0x24428118
  end.

Definition rotary_type : rotary_type_t := ROT_full.

(** The static state of [get_buttons]: the shift register [_b] of the
    select switch and the last two positions of the encoder. *)
Record encoder := mkEncoder {
  _b : Z;        (* static uint16_t _b *)
  rotary : Z     (* static uint8_t rotary *)
}.

(** The state of the button timer: the encoder, the latched button bits
    ([static volatile uint8_t buttons]) and the deadline of the timer. *)
Record button_timer_state := mkButtonTimer {
  enc : encoder;
  buttons : Z;
  deadline : Z
}.

(** An emulated Gotek button: [struct gotek_button]. *)
Record gotek_button := mkGotekButton {
  pressed : bool;
  press_time : Z       (* time_t t *)
}.

(** The state of the Gotek button emulation: the three buttons, the flag
    [gotek_active] and the output levels of port A. *)
Record gotek := mkGotek {
  gotek_active : bool;
  gl : gotek_button;
  gr : gotek_button;
  gs : gotek_button;
  gpioa_odr : Z
}.

(** What one round of the main loop meets: the time readings of the
    sync-loss check and of the frame-ready branch, the display selected
    for the next frame, and the requests of the sync lines.  Interrupts are
    enabled throughout the loop, so a request can be taken between any two
    of its statements; there is a list of requests for each place where
    this makes a difference to the state the loop and the sync handlers
    share. *)
Record round := mkRound {
  r_top : list irq;           (* before the first test of the wait *)
  r_during : list (list irq); (* during each delay_ms(1) of the wait *)
  r_before_check : list irq;  (* after the wait, before the sync-loss check *)
  r_chk : Z;                  (* time_now() in the condition *)
  r_stamp : Z;                (* time_now() stored to frame_time *)
  r_masked1 : list irq;       (* masked, before tim1->smcr = 0 *)
  r_masked2 : list irq;       (* masked, before hline = HLINE_EOF *)
  r_masked3 : list irq;       (* masked, before IRQ_global_enable() *)
  r_before_frame : list irq;  (* keyboard notifier, before if (frame) *)
  r_frame : Z;                (* time_now() stored to frame_time *)
  r_display : display;        (* cur_display *)
  r_found : list irq;         (* after if (frame), before frame = 0 *)
  r_render : list irq;        (* choice of the display, height, render_line *)
  r_ccr3 : list irq;          (* after tim1->ccr3 = ... *)
  r_ccr4 : list irq;          (* after tim1->ccr4 = ... *)
  r_rest : list irq           (* keys, buttons and lcd_process() *)
}.

(** ** Examples for the buttons, the main loop and the rasterizer *)

(** Sixteen samples with the select pin low. *)
Definition sixteen_low : list (Z * Z) := repeat (0, 0) 16.

(** An encoder whose shift register is full of ones. *)
Definition idle_encoder : encoder := mkEncoder 65535 0.

(** A round of the main loop at tick 900001, with no request and the tall
    display selected. *)
Definition quiet_round : round :=
  mkRound [] [] [] 900001 900005 [] [] [] [] 900010 tall_display
    [] [] [] [] [].

(** The requests of a whole frame of the scenario: a pulse of 15
    microseconds, one of 4 microseconds and twelve more sync edges. *)
Definition scenario_frame : list irq :=
  [Csync 901000 0; Csync 901135 1; Csync 902000 0; Csync 902036 1] ++
  repeat (Csync 903000 0) 12.

(** A round that meets a whole frame before its wait, and a sync edge at
    each other place. *)
Definition busy_round : round :=
  mkRound scenario_frame [[Csync 904000 0]] [Csync 904001 1] 904002 904003
    [Vsync] [Csync 904004 0] [Csync 904005 1] [Csync 904006 0]
    904010 tall_display
    [Csync 904011 1] [Csync 904012 0] [Csync 904013 1] [Vsync]
    [Csync 904014 0].

(** A font that shows the low byte of the index, and one that differs
    from it outside the 768 bytes of the table. *)
Definition index_font (i : Z) : Z := i mod 256.
Definition other_font (i : Z) : Z := if i <? 768 then i mod 256 else 0.

(** The text "Hi". *)
Definition hi_text : list Z := [72; 105].

Section Firmware.

Context {pf : Platform}.

(** Modelled from the spec: [time_us], [time_ms] and [time_diff] are macros
    of a header that is not part of the sources.  Time stamps count ticks of
    the time base, a duration in micro- or milliseconds is the number of
    ticks it lasts, and [time_diff x y] is the time elapsed from [x] to
    [y]; [sysclk_us] counts ticks of the system clock in the same way. *)
Definition time_us (x : Z) : Z := x * TIME_MHZ.
Definition time_ms (x : Z) : Z := x * 1000 * TIME_MHZ.
Definition time_diff (x y : Z) : Z := y - x.
Definition sysclk_us (x : Z) : Z := x * SYSCLK_MHZ.

(** ** slave_arr_update and set_polarity *)

Definition slave_arr_update (cfg : config) (s : state) : state :=
  let hstart := uint32 (h_off cfg * 20) in
  let s := set_tim2_arr (reg16 (uint32 (hstart - 1))) s in
  let s := set_tim3_arr (reg16 (uint32 (hstart - 49))) s in
  set_tim2_ccr1 (reg16 (uint32 (hstart - sysclk_us 1))) s.

Definition sync_pins : Z := Z.lor (m pin_csync) (m pin_vsync).

Definition set_polarity (cfg : config) (s : state) : state :=
  if polarity cfg =? 0 then
    let s := set_exti_rtsr (Z.land (exti_rtsr s) (Z.lnot sync_pins)) s in
    let s := set_exti_ftsr (Z.lor (exti_ftsr s) sync_pins) s in
    set_tim1_ccer (Z.land (tim1_ccer s) (Z.lnot TIM_CCER_CC1P)) s
  else
    let s := set_exti_ftsr (Z.land (exti_ftsr s) (Z.lnot sync_pins)) s in
    let s := set_exti_rtsr (Z.lor (exti_rtsr s) sync_pins) s in
    set_tim1_ccer (Z.lor (tim1_ccer s) TIM_CCER_CC1P) s.

(** The edge selection that listens, on both sync pins, to the edge that
    starts a sync pulse and to no other: the falling edge for active-low
    sync ([polarity = 0]), the rising edge otherwise. *)
Definition start_edge_only (cfg : config) (s : state) : Prop :=
  if polarity cfg =? 0
  then Z.land (exti_ftsr s) sync_pins = sync_pins /\
       Z.land (exti_rtsr s) sync_pins = 0
  else Z.land (exti_rtsr s) sync_pins = sync_pins /\
       Z.land (exti_ftsr s) sync_pins = 0.

(** ** The interrupt handlers *)

Definition IRQ_vsync (s : state) : state :=
  let s := set_exti_pr (m pin_vsync) s in
  let s := set_tim1_smcr 0 s in
  set_hline HLINE_VBL s.

(** The statements under the label [eof] of [IRQ_csync]. *)
Definition eof (s : state) : state :=
  let s := set_tim1_smcr 0 s in
  let s := set_hline HLINE_EOF s in
  set_frame (sint32 (frame s + 1)) s.

Definition IRQ_csync (cfg : config) (t level : Z) (s : state) : state :=
  let s := set_exti_pr (m pin_csync) s in
  if hline s <=? 0 then
    let s := set_exti_ftsr (Z.lor (exti_ftsr s) sync_pins) s in
    let s := set_exti_rtsr (Z.lor (exti_rtsr s) sync_pins) s in
    if level =? polarity cfg then
      set_p t s
    else if time_diff (p s) t >? time_us 10 then
      set_hline HLINE_VBL s
    else if hline s =? HLINE_VBL then
      if display_height s =? 0 then eof s
      else
        let s := set_hline HLINE_SOF s in
        let s := slave_arr_update cfg s in
        set_polarity cfg s
    else s
  else
    let s := set_hline (sint32 (hline s + 1)) s in
    if hline s <? v_off cfg then s
    else if hline s >=? v_off cfg + display_height s then eof s
    else
      let s := set_tim1_smcr
                 (Z.lor TIM_SMCR_MSM
                    (Z.lor (TIM_SMCR_TS 5) (TIM_SMCR_SMS 4))) s in
      if hline s =? v_off cfg then set_dma_display_cmar display_dat s
      else s.

Definition handle (cfg : config) (e : irq) (s : state) : state :=
  match e with
  | Csync t level => IRQ_csync cfg t level s
  | Vsync => IRQ_vsync s
  end.

(** The handlers run to completion, one request after the other. *)
Definition run (cfg : config) (es : list irq) (s : state) : state :=
  fold_left (fun s e => handle cfg e s) es s.

(** The states the machine goes through, one after each request. *)
Fixpoint trace (cfg : config) (es : list irq) (s : state) : list state :=
  match es with
  | [] => []
  | e :: es' => handle cfg e s :: trace cfg es' (handle cfg e s)
  end.

(** A sync pulse that starts at time [t] and lasts [w] ticks raises two
    requests while the machine watches both edges: at its start the pin
    reads the active level, at its end the opposite one. *)
Definition pulse (cfg : config) (t w : Z) : list irq :=
  [Csync t (polarity cfg); Csync (t + w) (1 - polarity cfg)].

(** The requests raised by a sequence of edges of the sync line, each with
    the time and the pin level its handler reads. *)
Definition csync_edges (l : list (Z * Z)) : list irq :=
  map (fun e => Csync (fst e) (snd e)) l.

(** ** Interrupt masking

    The processor takes a request at once unless interrupts are globally
    masked; a request raised while they are masked is held, and is taken
    when the mask is lifted. *)

Definition raise (cfg : config) (e : irq) (c : cpu) : cpu :=
  if primask c then mkCpu (hw c) true (pended c ++ [e])
  else mkCpu (handle cfg e (hw c)) false (pended c).

Definition raise_all (cfg : config) (es : list irq) (c : cpu) : cpu :=
  fold_left (fun c e => raise cfg e c) es c.

Definition IRQ_global_disable (c : cpu) : cpu :=
  mkCpu (hw c) true (pended c).

Definition IRQ_global_enable (cfg : config) (c : cpu) : cpu :=
  mkCpu (run cfg (pended c) (hw c)) false [].

(** A store of the main loop to a shared variable or register. *)
Definition store (f : state -> state) (c : cpu) : cpu :=
  mkCpu (f (hw c)) (primask c) (pended c).

(** ** The main loop *)

(** The wait for the end of the display-critical period: up to [n] rounds
    (five in [main]), each one a test of [hline] and a [delay_ms(1)] during
    which the requests of [during] are raised.  The result counts the
    delays that were performed. *)
Fixpoint display_wait (cfg : config) (n : nat) (during : list (list irq))
    (c : cpu) : nat * cpu :=
  match n with
  | O => (O, c)
  | S n' =>
      if hline (hw c) <? v_off cfg - 3 then (O, c)
      else
        let r := display_wait cfg n' (tl during)
                   (raise_all cfg (hd [] during) c) in
        (S (fst r), snd r)
  end.

(** The block of the sync-loss check that runs with interrupts masked, up
    to (and without) [IRQ_global_enable]; [a1], [a2] and [a3] are the
    requests raised before, between and after its two stores. *)
Definition sync_reset_masked (cfg : config) (a1 a2 a3 : list irq) (c : cpu)
    : cpu :=
  let c := IRQ_global_disable c in
  let c := raise_all cfg a1 c in
  let c := store (set_tim1_smcr 0) c in
  let c := raise_all cfg a2 c in
  let c := store (set_hline HLINE_EOF) c in
  raise_all cfg a3 c.

(** The sync-loss check; [t_chk] and [t_stamp] are the two readings of
    [time_now()], in the condition and in the assignment to [frame_time]. *)
Definition sync_check (cfg : config) (t_chk t_stamp : Z)
    (a1 a2 a3 : list irq) (ml : mainloop) : mainloop :=
  if time_diff (frame_time ml) t_chk >? time_ms 100 then
    let con := if lost_sync ml then console ml
               else console ml ++ [Sync_lost] in
    let c := sync_reset_masked cfg a1 a2 a3 (core ml) in
    mkMainloop (IRQ_global_enable cfg c) t_stamp true con
  else ml.

(** The loop over the rows of the display that adds 8 lines for each
    double-height row: [n] rounds are left and [i] is the loop index. *)
Fixpoint height_rows (n : nat) (i : Z) (d : display) (height : Z) : Z :=
  match n with
  | O => height
  | S n' =>
      let height :=
        if Z.land (heights d) (Z.shiftl 1 i) =? 0 then height
        else uint16 (height + 8) in
      height_rows n' (i + 1) d height
  end.

(** The height of the next frame, as the main loop computes it. *)
Definition next_height (d : display) : Z :=
  let height := uint16 (rows d * 10 + 2) in
  let height := height_rows (Z.to_nat (rows d)) 0 d height in
  min_t_uint16 height MAX_DISPLAY_HEIGHT.

(** The commit of the geometry of the next frame (the pixel buffer filled
    by [render_line] is not part of the state). *)
Definition commit_display (d : display) (c : cpu) : cpu :=
  let height := next_height d in
  if on d =? 0 then store (set_display_height 0) c
  else
    let c := store (set_tim1_ccr3 (reg16 (8 * 8 * cols d + 80))) c in
    let c := store (fun s =>
                      set_tim1_ccr4 (reg16 (tim1_ccr3 s - sysclk_us 1)) s) c in
    store (set_display_height height) c.

(** The frame-ready branch; [t_frame] is the reading of [time_now()] and
    [cur_display] the display selected for the next frame. *)
Definition frame_check (t_frame : Z) (cur_display : display)
    (ml : mainloop) : mainloop :=
  if frame (hw (core ml)) =? 0 then ml
  else
    let con := if lost_sync ml then console ml ++ [Sync_found]
               else console ml in
    let c := store (set_frame 0) (core ml) in
    mkMainloop (commit_display cur_display c) t_frame false con.

(** ** Specification-level definitions *)

(** The number of double-height rows among the first [n] rows, counted
    from row [i]. *)
Fixpoint double_rows (n : nat) (i : Z) (mask : Z) : Z :=
  match n with
  | O => 0
  | S n' => (if Z.testbit mask i then 1 else 0) + double_rows n' (i + 1) mask
  end.

(** The height a display asks for: ten lines per row, two more, and eight
    for each double-height row. *)
Definition requested_height (d : display) : Z :=
  rows d * 10 + 2 + 8 * double_rows (Z.to_nat (rows d)) 0 (heights d).

(** A display the loop over the rows is defined for: the shift [1<<i] of
    an [int] needs [i < 31]. *)
Definition display_wf (d : display) : Prop :=
  0 <= rows d <= 31.

(** The number of sync edges after the start of a frame that bring the
    machine to the end of the frame. *)
Definition frame_edges (cfg : config) (height : Z) : Z :=
  Z.max 1 (v_off cfg + height - 1).

(** The values of [hline] the handlers can leave behind. *)
Definition hline_ok (s : state) : Prop :=
  -1 <= hline s < 2 ^ 31 - 1.

Definition state_wf (s : state) : Prop :=
  hline_ok s /\ uint16_range (display_height s).

(** A train of sync pulses, each given by its start time and its width. *)
Definition pulses (cfg : config) (l : list (Z * Z)) : list irq :=
  flat_map (fun tw => pulse cfg (fst tw) (snd tw)) l.

(** ** Rounds of the main loop *)

(** Requests of the sync lines taken by the main loop between two of its
    statements. *)
Definition interrupted (cfg : config) (es : list irq) (ml : mainloop)
    : mainloop :=
  mkMainloop (raise_all cfg es (core ml)) (frame_time ml) (lost_sync ml)
    (console ml).

(** The commit of the next frame's geometry with the requests taken after
    each of the two stores to the compare registers. *)
Definition commit_display_irqs (cfg : config) (d : display)
    (i3 i4 : list irq) (c : cpu) : cpu :=
  let height := next_height d in
  if on d =? 0 then store (set_display_height 0) c
  else
    let c := store (set_tim1_ccr3 (reg16 (8 * 8 * cols d + 80))) c in
    let c := raise_all cfg i3 c in
    let c := store (fun s =>
                      set_tim1_ccr4 (reg16 (tim1_ccr3 s - sysclk_us 1)) s) c in
    let c := raise_all cfg i4 c in
    store (set_display_height height) c.

(** The frame-ready branch with the requests taken inside it: [i1] after
    the test of [frame], [i2] after [frame = 0] (while the display is
    chosen and rendered), [i3] and [i4] inside the commit. *)
Definition frame_branch (cfg : config) (t_frame : Z) (cur_display : display)
    (i1 i2 i3 i4 : list irq) (ml : mainloop) : mainloop :=
  if frame (hw (core ml)) =? 0 then ml
  else
    let con := if lost_sync ml then console ml ++ [Sync_found]
               else console ml in
    let c := raise_all cfg i1 (core ml) in
    let c := store (set_frame 0) c in
    let c := raise_all cfg i2 c in
    mkMainloop (commit_display_irqs cfg cur_display i3 i4 c) t_frame false con.

(** One round of the main loop, as far as the sync machine is concerned:
    the wait, the sync-loss check and the frame-ready branch, with the
    requests of the sync lines taken wherever the round says.  The code
    between them (canary, keyboard notifier, keys, buttons, LCD) touches
    none of this state.  The overlay interrupts are not among the requests
    of a round: they write [tim1->smcr], [dma_display] and status
    registers, none of which the loop or the sync handlers read. *)
Definition main_round (cfg : config) (r : round) (ml : mainloop)
    : mainloop :=
  let ml := interrupted cfg (r_top r) ml in
  let w := display_wait cfg 5 (r_during r) (core ml) in
  let ml := mkMainloop (snd w) (frame_time ml) (lost_sync ml) (console ml) in
  let ml := interrupted cfg (r_before_check r) ml in
  let ml := sync_check cfg (r_chk r) (r_stamp r)
              (r_masked1 r) (r_masked2 r) (r_masked3 r) ml in
  let ml := interrupted cfg (r_before_frame r) ml in
  let ml := frame_branch cfg (r_frame r) (r_display r)
              (r_found r) (r_render r) (r_ccr3 r) (r_ccr4 r) ml in
  interrupted cfg (r_rest r) ml.

Definition main_loop (cfg : config) (rs : list round) (ml : mainloop)
    : mainloop :=
  fold_left (fun ml r => main_round cfg r ml) rs ml.

(** The console logs that pair up: each "Sync lost" is followed by one
    "Sync found" before the next "Sync lost"; the flag tells whether the
    log ends with an open loss. *)
Inductive log_state : bool -> list printk_msg -> Prop :=
| log_empty : log_state false []
| log_lost l : log_state false l -> log_state true (l ++ [Sync_lost])
| log_found l : log_state true l -> log_state false (l ++ [Sync_found]).

(** The geometry the buffers are sized for. *)
Definition geometry_ok (s : state) : Prop :=
  hline_ok s /\ 0 <= display_height s <= MAX_DISPLAY_HEIGHT.

(** ** The interrupts of the overlay box *)

Context {regs : OsdRegs}.

Definition tim1_ch3_dma_ch : Z := 6.

(** [sizeof(display_dat[0])]: a row of [40/2+1] 16-bit words. *)
Definition display_dat_row_words : Z := 40 / 2 + 1.
Definition sizeof_display_dat_row : Z := display_dat_row_words * 2.

(** A handler of the sync machine run on the overlay state. *)
Definition on_sync (f : state -> state) (o : osd) : osd :=
  mkOsd (f (sync o)) (tim1_cr1 o) (tim1_sr o) (tim2_sr o) (dma1_ifcr o)
    (dma_display_ccr o) (dma_display_cndtr o).

Definition IRQ_osd_pre_start (o : osd) : osd :=
  let o := on_sync (set_tim1_smcr
                      (Z.lor (TIM_SMCR_TS 1) (TIM_SMCR_SMS 6))) o in
  mkOsd (sync o) (tim1_cr1 o) (tim1_sr o) 0 (dma1_ifcr o)
    (dma_display_ccr o) (dma_display_cndtr o).

Definition IRQ_osd_pre_end (o : osd) : osd :=
  mkOsd (sync o) (tim1_cr1 o) 0 (tim2_sr o) (dma1_ifcr o)
    (dma_display_ccr o) (dma_display_cndtr o).

(** [cols] is [cur_display->cols]. *)
Definition IRQ_osd_end (cols : Z) (o : osd) : osd :=
  mkOsd
    (set_dma_display_cmar
       (uint32 (dma_display_cmar (sync o) + sizeof_display_dat_row)) (sync o))
    (Z.land (tim1_cr1 o) (Z.lnot TIM_CR1_CEN))
    (tim1_sr o) (tim2_sr o)
    (DMA_IFCR_CGIF tim1_ch3_dma_ch)
    0
    (uint32 (Z.quot cols 2 + 1)).

(** One scanline, as the comments of main.c describe the timer chain: the
    sync edge is handled; if it leaves the master timer armed (slave-mode
    control not 0) the box is drawn on this line, and its three interrupts
    follow in their order, all before the next sync edge.  The result also
    tells where the pixel DMA of this line reads from, if the box is
    drawn. *)
Definition scanline (cfg : config) (cols : Z) (e : Z * Z) (o : osd)
    : option Z * osd :=
  let o := on_sync (IRQ_csync cfg (fst e) (snd e)) o in
  if tim1_smcr (sync o) =? 0 then (None, o)
  else (Some (dma_display_cmar (sync o)),
        IRQ_osd_end cols (IRQ_osd_pre_end (IRQ_osd_pre_start o))).

(** The scanlines of a list of sync edges: the DMA sources line by line,
    and the final state. *)
Fixpoint scanlines (cfg : config) (cols : Z) (l : list (Z * Z)) (o : osd)
    : list (option Z) * osd :=
  match l with
  | [] => ([], o)
  | e :: l' =>
      let r := scanline cfg cols e o in
      let rs := scanlines cfg cols l' (snd r) in
      (fst r :: fst rs, snd rs)
  end.

(** What arrives from the video signal, line by line: a sync edge with
    the scanline it starts (and the overlay interrupts of that line, as in
    [scanline]), or a vertical sync between two scanlines. *)
Inductive scan_event :=
| Scan_line (t : Z) (level : Z)
| Scan_vsync.

Definition scan_step (cfg : config) (cols : Z) (e : scan_event) (o : osd)
    : osd :=
  match e with
  | Scan_line t level => snd (scanline cfg cols (t, level) o)
  | Scan_vsync => on_sync IRQ_vsync o
  end.

(** The states after each event of a list. *)
Fixpoint scan_trace (cfg : config) (cols : Z) (es : list scan_event)
    (o : osd) : list osd :=
  match es with
  | [] => []
  | e :: es' =>
      scan_step cfg cols e o ::
      scan_trace cfg cols es' (scan_step cfg cols e o)
  end.

(** The address of row [j] of [display_dat]. *)
Definition display_dat_row (j : nat) : Z :=
  display_dat + sizeof_display_dat_row * Z.of_nat j.

(** ** The buttons of the rotary encoder *)

Context {bt : Buttons}.

(** [sel] is the level of the select pin as [gpio_read_pin(gpioa, 2)]
    reads it, [idr] the input data register of port A as read for the two
    encoder pins. *)
Definition get_buttons (sel idr : Z) (e : encoder) : Z * encoder :=
  let b := 0 in
  let _b' := uint16 (Z.shiftl (_b e) 1) in
  let _b' := uint16 (Z.lor _b' sel) in
  let b := if _b' =? 0 then uint8 (Z.lor b B_SELECT) else b in
  let rotary' :=
    uint8 (Z.land (Z.lor (Z.shiftl (rotary e) 2) (Z.land idr 3)) 15) in
  let b :=
    uint8 (Z.lor b
             (Z.land (Z.shiftr (rotary_transitions rotary_type)
                        (Z.shiftl rotary' 1)) 3)) in
  (b, mkEncoder _b' rotary').

(** The calls of [get_buttons] on a sequence of samples: the result of
    the last call (0 when there is none) and the final state. *)
Definition get_buttons_run (l : list (Z * Z)) (e : encoder) : Z * encoder :=
  fold_left (fun r x => get_buttons (fst x) (snd x) (snd r)) l (0, e).

(** The select samples read as a binary number, the last one lowest. *)
Definition samples_value (l : list (Z * Z)) : Z :=
  fold_left (fun acc x => 2 * acc + fst x) l 0.

(** [ff_osd_i2c_protocol] is the flag set at boot; [sel] and [idr] are
    read as in [get_buttons]. *)
Definition button_timer_fn (ff_osd_i2c_protocol : bool) (sel idr : Z)
    (bs : button_timer_state) : button_timer_state :=
  let b := uint8 B_PROCESSED in
  let r :=
    if ff_osd_i2c_protocol then (b, enc bs)
    else
      let g := get_buttons sel idr (enc bs) in
      (uint8 (Z.lor b (fst g)), snd g) in
  mkButtonTimer (snd r) (uint8 (Z.lor (buttons bs) (fst r)))
    (deadline bs + time_ms 5).

(** The timer firing once for each sample of [l]. *)
Definition button_timer_run (ff_osd_i2c_protocol : bool) (l : list (Z * Z))
    (bs : button_timer_state) : button_timer_state :=
  fold_left (fun bs x => button_timer_fn ff_osd_i2c_protocol (fst x) (snd x) bs)
    l bs.

(** ** The emulated Gotek buttons *)

(** [gpio_write_pin(gpioa, pin, level)] on the output levels of the
    port. *)
Definition gpio_write_pin (pin : Z) (level : bool) (odr : Z) : Z :=
  if level then Z.lor odr (m pin) else Z.land odr (Z.lnot (m pin)).

Definition LOW : bool := false.
Definition HIGH : bool := true.

(** [keys] is the snapshot of the keyboard, [active] the flag
    [gotek_active], [now] the reading of [time_now()]; the button and the
    output levels are passed and returned. *)
Definition emulate_gotek_button (keys keycode : Z) (active : bool)
    (now : Z) (pin : Z) (button : gotek_button) (odr : Z)
    : gotek_button * Z :=
  let pressed' := negb (Z.land keys keycode =? 0) && active in
  if negb (xorb pressed' (pressed button)) then (button, odr)
  else if pressed' then
    (mkGotekButton true now, gpio_write_pin pin LOW odr)
  else if time_diff (press_time button) now >? time_ms 200 then
    (mkGotekButton false (press_time button), gpio_write_pin pin HIGH odr)
  else (button, odr).

(** [now1], [now2] and [now3] are the readings of [time_now()] of the
    three calls. *)
Definition emulate_gotek_buttons (config_active : bool) (keys : Z)
    (now1 now2 now3 : Z) (g : gotek) : gotek :=
  let active :=
    if config_active then false
    else if negb (gotek_active g) && (keys =? 0) then true
    else gotek_active g in
  let l := emulate_gotek_button keys B_LEFT active now1 3
             (gl g) (gpioa_odr g) in
  let r := emulate_gotek_button keys B_RIGHT active now2 4
             (gr g) (snd l) in
  let s := emulate_gotek_button keys B_SELECT active now3 5
             (gs g) (snd r) in
  mkGotek active (fst l) (fst r) (fst s) (snd s).

(** What a round of the emulation reads: [config_active], the keys and
    the three time readings. *)
Definition gotek_round : Type := bool * Z * (Z * Z * Z).

Definition emulate_gotek_rounds (l : list gotek_round) (g : gotek) : gotek :=
  fold_left
    (fun g x =>
       emulate_gotek_buttons (fst (fst x)) (snd (fst x))
         (fst (fst (snd x))) (snd (fst (snd x))) (snd (snd x)) g)
    l g.

(** The calls of [emulate_gotek_button] for one button over a sequence of
    key snapshots, activity flags and time readings. *)
Definition emulate_gotek_button_run (keycode pin : Z)
    (l : list (Z * bool * Z)) (bo : gotek_button * Z) : gotek_button * Z :=
  fold_left
    (fun bo x =>
       emulate_gotek_button (fst (fst x)) keycode (snd (fst x)) (snd x) pin
         (fst bo) (snd bo))
    l bo.

(** ** The rasterizer *)

(** The number of pixel lines of a text row: [nr] in [render_line]. *)
Definition row_lines (d : display) (row : Z) : Z :=
  if Z.land (heights d) (Z.shiftl 1 row) =? 0 then 8 else 16.

(** The loop of [render_line] that works out the text row: [n] rows are
    left, [row] is the loop index and [y] the line still to go.  [None] is
    a [return] (a blank line), [Some (row, y)] the [break]. *)
Fixpoint text_row (n : nat) (row y : Z) (d : display) : option (Z * Z) :=
  match n with
  | O => None
  | S n' =>
      let nr := row_lines d row in
      if y <? 0 then None
      else if y <? nr then Some (row, y)
      else text_row n' (row + 1) (y - (nr + 2)) d
  end.

(** [d[i] |= v] on a row of 16-bit words; a word outside the row is not
    modelled. *)
Fixpoint or_at (i : nat) (v : Z) (dl : list Z) : list Z :=
  match dl, i with
  | [], _ => []
  | w :: dl', O => uint16 (Z.lor w v) :: dl'
  | w :: dl', S i' => w :: or_at i' v dl'
  end.

(** The index into the font of the pixel line [y] of the character [c]:
    characters outside 0x20..0x7f are drawn as spaces. *)
Definition glyph_index (c y : Z) : Z :=
  let c := if (c <? 0x20) || (c >? 0x7f) then 0x20 else c in
  let c := uint8 (c - 0x20) in
  Z.shiftl c 3 + y.

(** The loop of [render_line] over the columns: [n] columns are left, [x]
    is the loop index, [t] the text of the row and [font] the table of
    font.h. *)
Fixpoint render_cols (font : Z -> Z) (n : nat) (x : Z) (t : list Z) (y : Z)
    (dl : list Z) : list Z :=
  match n with
  | O => dl
  | S n' =>
      let c := uint8 (nth (Z.to_nat x) t 0) in
      let v := Z.shiftl (uint16 (font (glyph_index c y)))
                 (if Z.land x 1 =? 0 then 8 else 0) in
      render_cols font n' (x + 1) t y (or_at (Z.to_nat (x / 2)) v dl)
  end.

(** The row of [display_dat] that [render_line(y, display)] leaves;
    [text] is [display->text]. *)
Definition render_line (font : Z -> Z) (y : Z) (d : display)
    (text : list (list Z)) : list Z :=
  let dl := repeat 0 (Z.to_nat display_dat_row_words) in
  let y := y - 2 in
  match text_row (Z.to_nat (rows d)) 0 y d with
  | None => dl
  | Some (row, y) =>
      let y := if Z.land (heights d) (Z.shiftl 1 row) =? 0 then y
               else Z.quot y 2 in
      render_cols font (Z.to_nat (cols d)) 0 (nth (Z.to_nat row) text []) y dl
  end.

(** The lines of [n] text rows from row [row] on, each with the two blank
    lines below it. *)
Fixpoint rows_height (n : nat) (row : Z) (d : display) : Z :=
  match n with
  | O => 0
  | S n' => row_lines d row + 2 + rows_height n' (row + 1) d
  end.

(** The byte of the font that column [x] of the text [t] shows on pixel
    line [y]. *)
Definition glyph (font : Z -> Z) (t : list Z) (y x : Z) : Z :=
  font (glyph_index (uint8 (nth (Z.to_nat x) t 0)) y).

(** ** Tactics *)

(** Case analysis on the tests of a handler. *)
Ltac branches :=
  repeat match goal with
         | |- context [if ?b then _ else _] => destruct b eqn:?
         end.

Ltac simpl_state :=
  cbn [hline frame display_height p exti_pr exti_ftsr exti_rtsr tim1_smcr
       tim1_ccer tim1_ccr3 tim1_ccr4 tim2_arr tim2_ccr1 tim3_arr
       dma_display_cmar set_hline set_frame set_display_height set_p
       set_exti_pr set_exti_ftsr set_exti_rtsr set_tim1_smcr set_tim1_ccer
       set_tim1_ccr3 set_tim1_ccr4 set_tim2_arr set_tim2_ccr1 set_tim3_arr
       set_dma_display_cmar] in *.

Ltac handler_cases :=
  unfold IRQ_csync, IRQ_vsync, eof, set_polarity, slave_arr_update;
  simpl_state; branches; simpl_state.

(** * Properties *)

(** ** Machine integers *)

Lemma sint32_small z : sint32_range z -> sint32 z = z.
Proof.
  unfold sint32_range, sint32. intros H.
  rewrite Z.mod_small by lia. lia.
Qed.

Lemma uint16_small z : uint16_range z -> uint16 z = z.
Proof. unfold uint16_range, uint16. intros H. now apply Z.mod_small. Qed.

Lemma uint16_uint32 z : uint16 (uint32 z) = uint16 z.
Proof.
  unfold uint16, uint32.
  apply Z.mod_mod_divide.
  exists (2 ^ 16). reflexivity.
Qed.

(** ** The vertical-sync handler *)

(** C9: whatever the state, the vertical-sync handler leaves the machine in
    VerticalBlank ([hline = 0]) with the slave-mode control register of the
    master timer cleared; it takes no pulse width, and it touches neither
    the frame counter nor the height. *)
Theorem C9_vsync_forces_vertical_blank : forall s : state,
  hline (IRQ_vsync s) = HLINE_VBL /\
  tim1_smcr (IRQ_vsync s) = 0 /\
  frame (IRQ_vsync s) = frame s /\
  display_height (IRQ_vsync s) = display_height s.
Proof. intros s. repeat split. Qed.

(** ** The sync handler with the overlay disabled *)

(** In EndOfFrame the end of a short pulse changes neither the state of
    the machine nor the frame counter. *)
Lemma short_edge_at_eof (cfg : config) (t level : Z) (s : state) :
  hline s = HLINE_EOF ->
  level <> polarity cfg ->
  time_diff (p s) t <= time_us 10 ->
  hline (IRQ_csync cfg t level s) = HLINE_EOF /\
  frame (IRQ_csync cfg t level s) = frame s.
Proof.
  intros Hl Hlev Hw. unfold HLINE_EOF in *.
  handler_cases; unfold HLINE_VBL in *; try lia;
    split; assumption || reflexivity.
Qed.

(** C4: with a height of 0, a short pulse (at most 10 microseconds) that
    ends while the machine is in VerticalBlank takes the end-of-frame path:
    [hline] becomes EndOfFrame, the slave-mode control register of the
    master timer is cleared and the frame counter is incremented; the slave
    timers are not reprogrammed.  The short pulses that follow, up to the
    next vertical blank, signal nothing more. *)
Theorem C4_zero_height_short_pulse_signals_frame :
  forall (cfg : config) (t level : Z) (s : state),
  display_height s = 0 ->
  hline s = HLINE_VBL ->
  level <> polarity cfg ->
  time_diff (p s) t <= time_us 10 ->
  hline (IRQ_csync cfg t level s) = HLINE_EOF /\
  tim1_smcr (IRQ_csync cfg t level s) = 0 /\
  frame (IRQ_csync cfg t level s) = sint32 (frame s + 1) /\
  tim2_arr (IRQ_csync cfg t level s) = tim2_arr s /\
  tim3_arr (IRQ_csync cfg t level s) = tim3_arr s /\
  (forall t' level' : Z,
     level' <> polarity cfg ->
     time_diff (p (IRQ_csync cfg t level s)) t' <= time_us 10 ->
     hline (IRQ_csync cfg t' level' (IRQ_csync cfg t level s)) = HLINE_EOF /\
     frame (IRQ_csync cfg t' level' (IRQ_csync cfg t level s)) =
       frame (IRQ_csync cfg t level s)).
Proof.
  intros cfg t level s Hh Hl Hlev Hw.
  assert (H : hline (IRQ_csync cfg t level s) = HLINE_EOF /\
              tim1_smcr (IRQ_csync cfg t level s) = 0 /\
              frame (IRQ_csync cfg t level s) = sint32 (frame s + 1) /\
              tim2_arr (IRQ_csync cfg t level s) = tim2_arr s /\
              tim3_arr (IRQ_csync cfg t level s) = tim3_arr s).
  { unfold HLINE_VBL in *.
    handler_cases; unfold HLINE_VBL in *; try lia; repeat split. }
  destruct H as (H1 & H2 & H3 & H4 & H5).
  repeat (split; [assumption|]).
  intros t' level' Hlev' Hw'. now apply short_edge_at_eof.
Qed.

(** With a height of 0 a request never leaves the states EndOfFrame and
    VerticalBlank. *)
Lemma handle_zero_height (cfg : config) (e : irq) (s : state) :
  display_height s = 0 -> hline s <= 0 ->
  display_height (handle cfg e s) = 0 /\ hline (handle cfg e s) <= 0.
Proof.
  intros Hh Hl. destruct e as [t level|]; cbn [handle].
  - handler_cases; unfold HLINE_VBL, HLINE_EOF, HLINE_SOF in *;
      split; lia.
  - split; [exact Hh | cbn; unfold HLINE_VBL; lia].
Qed.

(** C3: with a height of 0, from EndOfFrame or VerticalBlank, no sequence
    of sync requests (pulse edges of any width and polarity, vertical-sync
    events) ever brings the machine to an active line: [hline] stays at or
    below 0 after every request. *)
Theorem C3_zero_height_never_active :
  forall (cfg : config) (es : list irq) (s : state),
  display_height s = 0 ->
  hline s <= 0 ->
  Forall (fun s' => hline s' <= 0) (trace cfg es s).
Proof.
  intros cfg es. induction es as [|e es IH]; intros s Hh Hl; cbn [trace].
  - constructor.
  - destruct (handle_zero_height cfg e s Hh Hl) as [Hh' Hl'].
    constructor; [exact Hl' | apply IH; assumption].
Qed.

(** ** Long pulses *)

Lemma lor_twice (a b : Z) : Z.lor (Z.lor a b) b = Z.lor a b.
Proof. now rewrite <- Z.lor_assoc, Z.lor_diag. Qed.

(** The end of a long pulse, seen from EndOfFrame or VerticalBlank. *)
Lemma long_edge_state (cfg : config) (t level : Z) (s : state) :
  hline s <= 0 -> level <> polarity cfg ->
  time_diff (p s) t > time_us 10 ->
  IRQ_csync cfg t level s =
  set_hline HLINE_VBL
    (set_exti_rtsr (Z.lor (exti_rtsr s) sync_pins)
       (set_exti_ftsr (Z.lor (exti_ftsr s) sync_pins)
          (set_exti_pr (m pin_csync) s))).
Proof.
  intros Hl Hlev Hw. handler_cases; try lia; reflexivity.
Qed.

(** A whole long pulse, seen from EndOfFrame or VerticalBlank. *)
Lemma long_pulse_blank (cfg : config) (t w : Z) (s : state) :
  hline s <= 0 -> w > time_us 10 ->
  Forall (fun s' => hline s' <= 0 /\ frame s' = frame s)
    (trace cfg (pulse cfg t w) s) /\
  hline (run cfg (pulse cfg t w) s) = HLINE_VBL /\
  frame (run cfg (pulse cfg t w) s) = frame s /\
  display_height (run cfg (pulse cfg t w) s) = display_height s.
Proof.
  intros Hl Hw.
  assert (H1 : IRQ_csync cfg t (polarity cfg) s =
               set_p t
                 (set_exti_rtsr (Z.lor (exti_rtsr s) sync_pins)
                    (set_exti_ftsr (Z.lor (exti_ftsr s) sync_pins)
                       (set_exti_pr (m pin_csync) s)))).
  { handler_cases; try lia; reflexivity. }
  unfold pulse, run. cbn [trace fold_left handle]. rewrite H1.
  rewrite long_edge_state; simpl_state; unfold time_diff, HLINE_VBL; try lia.
  repeat constructor; simpl_state; lia.
Qed.

Lemma trace_app (cfg : config) (es1 es2 : list irq) (s : state) :
  trace cfg (es1 ++ es2) s = trace cfg es1 s ++ trace cfg es2 (run cfg es1 s).
Proof.
  revert s. induction es1 as [|e es1 IH]; intros s; cbn; [reflexivity|].
  now rewrite IH.
Qed.

Lemma long_pulses_blank (cfg : config) (l : list (Z * Z)) (s : state) :
  hline s <= 0 ->
  Forall (fun tw => snd tw > time_us 10) l ->
  Forall (fun s' => hline s' <= 0 /\ frame s' = frame s)
    (trace cfg (pulses cfg l) s).
Proof.
  revert s.
  induction l as [|[t w] l IH]; intros s Hl Hall; cbn [pulses flat_map].
  - constructor.
  - inversion Hall as [|x l' Hw Hall']; subst. cbn [snd fst] in *.
    destruct (long_pulse_blank cfg t w s Hl Hw) as (Htr & Hh & Hf & _).
    rewrite trace_app. apply Forall_app. split; [exact Htr|].
    rewrite <- Hf. apply IH; [rewrite Hh; unfold HLINE_VBL; lia | exact Hall'].
Qed.

(** C5: from EndOfFrame or VerticalBlank, the end of a long pulse (more
    than 10 microseconds) sets the state to VerticalBlank; classifying it
    again changes nothing, and however often it is repeated, and whatever
    train of long pulses follows, [hline] never rises above 0 and the frame
    counter is never incremented. *)
Theorem C5_long_pulse_idempotent :
  forall (cfg : config) (t level : Z) (s : state),
  hline s <= 0 ->
  level <> polarity cfg ->
  time_diff (p s) t > time_us 10 ->
  hline (IRQ_csync cfg t level s) = HLINE_VBL /\
  frame (IRQ_csync cfg t level s) = frame s /\
  IRQ_csync cfg t level (IRQ_csync cfg t level s) = IRQ_csync cfg t level s /\
  (forall n : nat,
     hline (Nat.iter n (IRQ_csync cfg t level) s) <= 0 /\
     frame (Nat.iter n (IRQ_csync cfg t level) s) = frame s) /\
  (forall l : list (Z * Z),
     Forall (fun tw => snd tw > time_us 10) l ->
     Forall (fun s' => hline s' <= 0 /\ frame s' = frame s)
       (trace cfg (pulses cfg l) (IRQ_csync cfg t level s))).
Proof.
  intros cfg t level s Hl Hlev Hw.
  pose proof (long_edge_state cfg t level s Hl Hlev Hw) as E.
  assert (Hh : hline (IRQ_csync cfg t level s) = HLINE_VBL)
    by (rewrite E; reflexivity).
  assert (Hf : frame (IRQ_csync cfg t level s) = frame s)
    by (rewrite E; reflexivity).
  assert (Hid : IRQ_csync cfg t level (IRQ_csync cfg t level s) =
                IRQ_csync cfg t level s).
  { rewrite (long_edge_state cfg t level (IRQ_csync cfg t level s)).
    - rewrite E. simpl_state. now rewrite !lor_twice.
    - rewrite Hh. unfold HLINE_VBL. lia.
    - exact Hlev.
    - rewrite E. simpl_state. exact Hw. }
  assert (Hiter : forall n : nat,
            Nat.iter (S n) (IRQ_csync cfg t level) s =
            IRQ_csync cfg t level s).
  { induction n as [|n IHn]; [reflexivity|].
    change (Nat.iter (S (S n)) (IRQ_csync cfg t level) s)
      with (IRQ_csync cfg t level (Nat.iter (S n) (IRQ_csync cfg t level) s)).
    now rewrite IHn. }
  split; [exact Hh|]. split; [exact Hf|]. split; [exact Hid|]. split.
  - intros [|n]; [cbn [Nat.iter]; split; [exact Hl | reflexivity]|].
    rewrite Hiter, Hh, Hf. unfold HLINE_VBL. split; [lia | reflexivity].
  - intros l Hall. rewrite <- Hf.
    apply long_pulses_blank; [rewrite Hh; unfold HLINE_VBL; lia | exact Hall].
Qed.

(** ** Active lines *)

(** A sync edge on an active line that stays short of the end of the box
    moves to the next line and signals nothing. *)
Lemma active_edge_next (cfg : config) (t level : Z) (s : state) :
  1 <= hline s < 2 ^ 31 - 1 ->
  hline s + 1 < v_off cfg + display_height s ->
  hline (IRQ_csync cfg t level s) = hline s + 1 /\
  frame (IRQ_csync cfg t level s) = frame s /\
  display_height (IRQ_csync cfg t level s) = display_height s.
Proof.
  intros Hh Hlt.
  assert (E : sint32 (hline s + 1) = hline s + 1)
    by (apply sint32_small; unfold sint32_range; lia).
  handler_cases; rewrite ?E in *; try lia; repeat split; lia.
Qed.

(** A sync edge on an active line that reaches the end of the box ends the
    frame: the trigger of the master timer is disabled and the frame is
    signalled. *)
Lemma active_edge_eof (cfg : config) (t level : Z) (s : state) :
  1 <= hline s < 2 ^ 31 - 1 ->
  v_off cfg <= hline s + 1 ->
  v_off cfg + display_height s <= hline s + 1 ->
  hline (IRQ_csync cfg t level s) = HLINE_EOF /\
  frame (IRQ_csync cfg t level s) = sint32 (frame s + 1) /\
  tim1_smcr (IRQ_csync cfg t level s) = 0 /\
  display_height (IRQ_csync cfg t level s) = display_height s.
Proof.
  intros Hh Hv Hge.
  assert (E : sint32 (hline s + 1) = hline s + 1)
    by (apply sint32_small; unfold sint32_range; lia).
  handler_cases; rewrite ?E in *; try lia; repeat split; lia.
Qed.

Lemma run_app (cfg : config) (es1 es2 : list irq) (s : state) :
  run cfg (es1 ++ es2) s = run cfg es2 (run cfg es1 s).
Proof. unfold run. apply fold_left_app. Qed.

(** Edges that stay short of the end of the box count lines. *)
Lemma active_run (cfg : config) (l : list (Z * Z)) :
  forall s : state,
  1 <= hline s ->
  hline s + Z.of_nat (length l) < v_off cfg + display_height s ->
  hline s + Z.of_nat (length l) < 2 ^ 31 - 1 ->
  hline (run cfg (csync_edges l) s) = hline s + Z.of_nat (length l) /\
  frame (run cfg (csync_edges l) s) = frame s /\
  display_height (run cfg (csync_edges l) s) = display_height s.
Proof.
  induction l as [|[t level] l IH]; intros s H1 Hlt Hmax.
  - cbn. repeat split; lia.
  - cbn [length csync_edges map fst snd] in *.
    change (run cfg (Csync t level :: map (fun e => Csync (fst e) (snd e)) l) s)
      with (run cfg (csync_edges l) (IRQ_csync cfg t level s)).
    destruct (active_edge_next cfg t level s) as (Eh & Ef & Ed);
      [lia | lia |].
    destruct (IH (IRQ_csync cfg t level s)) as (Eh' & Ef' & Ed');
      [rewrite Eh; lia | rewrite Eh, Ed; lia | rewrite Eh; lia |].
    rewrite Eh', Ef', Ed', Eh, Ef, Ed. repeat split; lia.
Qed.

(** The cycle from the start of a frame to its end: fewer than
    [frame_edges] edges leave the machine on an active line with nothing
    signalled, and the edge that completes the count ends the frame and
    signals it once. *)
Lemma frame_cycle (cfg : config) (l : list (Z * Z)) (s : state) :
  config_wf cfg ->
  hline s = HLINE_SOF ->
  uint16_range (display_height s) ->
  (Z.of_nat (length l) < frame_edges cfg (display_height s) ->
   hline (run cfg (csync_edges l) s) = HLINE_SOF + Z.of_nat (length l) /\
   frame (run cfg (csync_edges l) s) = frame s) /\
  (Z.of_nat (length l) = frame_edges cfg (display_height s) ->
   hline (run cfg (csync_edges l) s) = HLINE_EOF /\
   frame (run cfg (csync_edges l) s) = sint32 (frame s + 1) /\
   tim1_smcr (run cfg (csync_edges l) s) = 0).
Proof.
  intros (_ & _ & Hv) Hs Hd.
  unfold uint16_range, frame_edges, HLINE_SOF in *. split.
  - intros Hlen.
    destruct l as [|e l]; [split; [cbn; lia | reflexivity]|].
    destruct (active_run cfg (e :: l) s) as (Eh & Ef & _);
      cbn [length] in *; [lia | lia | lia |].
    rewrite Eh, Ef, Hs. split; reflexivity.
  - intros Hlen.
    destruct (exists_last (l := l)) as (l1 & [t level] & ->).
    { intros ->. cbn [length] in Hlen. lia. }
    rewrite length_app in Hlen. cbn [length] in Hlen.
    unfold csync_edges. rewrite map_app, run_app. cbn [map fst snd].
    fold (csync_edges l1).
    assert (A : hline (run cfg (csync_edges l1) s) =
                hline s + Z.of_nat (length l1) /\
                frame (run cfg (csync_edges l1) s) = frame s /\
                display_height (run cfg (csync_edges l1) s) =
                display_height s).
    { destruct l1 as [|e l1]; [cbn; repeat split; lia|].
      apply active_run; cbn [length] in *; lia. }
    destruct A as (Eh & Ef & Ed).
    change (run cfg [Csync t level] (run cfg (csync_edges l1) s))
      with (IRQ_csync cfg t level (run cfg (csync_edges l1) s)).
    destruct (active_edge_eof cfg t level (run cfg (csync_edges l1) s))
      as (Eh' & Ef' & Es' & _);
      [rewrite Eh; lia | rewrite Eh; lia | rewrite Eh, Ed; lia |].
    rewrite Eh', Ef', Es', Ef. repeat split.
Qed.

(** C2 (amended): for every height [H] with [0 < H <= 52], the number of
    sync edges after the start of the frame that it takes to reach
    EndOfFrame is [max 1 (v_off + H - 1)] (the lines above the box are
    counted too), which is [H] exactly when [v_off = 1], or [v_off = 0] and
    [H = 1]; with fewer edges the machine is still on an active line and
    the frame counter is unchanged, and the edge that completes the count
    increments it exactly once. *)
Theorem C2_frame_cycle_length :
  forall (cfg : config) (l : list (Z * Z)) (s : state),
  config_wf cfg ->
  hline s = HLINE_SOF ->
  0 < display_height s <= MAX_DISPLAY_HEIGHT ->
  sint32_range (frame s + 1) ->
  (frame_edges cfg (display_height s) = display_height s <->
   v_off cfg = 1 \/ (v_off cfg = 0 /\ display_height s = 1)) /\
  (Z.of_nat (length l) < frame_edges cfg (display_height s) ->
   0 < hline (run cfg (csync_edges l) s) /\
   hline (run cfg (csync_edges l) s) = HLINE_SOF + Z.of_nat (length l) /\
   frame (run cfg (csync_edges l) s) = frame s) /\
  (Z.of_nat (length l) = frame_edges cfg (display_height s) ->
   hline (run cfg (csync_edges l) s) = HLINE_EOF /\
   frame (run cfg (csync_edges l) s) = frame s + 1).
Proof.
  intros cfg l s Hc Hs Hd Hf. unfold MAX_DISPLAY_HEIGHT in Hd.
  destruct (frame_cycle cfg l s Hc Hs) as (Hlt & Heq).
  { unfold uint16_range. lia. }
  split; [|split].
  - destruct Hc as (_ & _ & Hv). unfold uint16_range, frame_edges in *. lia.
  - intros Hlen. destruct (Hlt Hlen) as (Eh & Ef).
    rewrite Eh, Ef. unfold HLINE_SOF. repeat split; lia.
  - intros Hlen. destruct (Heq Hlen) as (Eh & Ef & _).
    rewrite Eh, Ef. split; [reflexivity | now apply sint32_small].
Qed.

(** ** Start of frame *)

(** A short pulse seen in VerticalBlank with a nonzero height starts the
    frame: the machine enters the first active line, the slave timers are
    programmed for the horizontal offset and the edge selection follows the
    polarity. *)
Lemma short_pulse_sof (cfg : config) (t w : Z) (s : state) :
  hline s = HLINE_VBL ->
  display_height s <> 0 ->
  w <= time_us 10 ->
  hline (run cfg (pulse cfg t w) s) = HLINE_SOF /\
  frame (run cfg (pulse cfg t w) s) = frame s /\
  display_height (run cfg (pulse cfg t w) s) = display_height s /\
  tim2_arr (run cfg (pulse cfg t w) s) =
    reg16 (uint32 (uint32 (h_off cfg * 20) - 1)) /\
  tim3_arr (run cfg (pulse cfg t w) s) =
    reg16 (uint32 (uint32 (h_off cfg * 20) - 49)).
Proof.
  intros Hl Hd Hw. unfold HLINE_VBL in Hl.
  assert (H1 : IRQ_csync cfg t (polarity cfg) s =
               set_p t
                 (set_exti_rtsr (Z.lor (exti_rtsr s) sync_pins)
                    (set_exti_ftsr (Z.lor (exti_ftsr s) sync_pins)
                       (set_exti_pr (m pin_csync) s)))).
  { handler_cases; try lia; reflexivity. }
  unfold pulse, run. cbn [fold_left handle]. rewrite H1.
  handler_cases; unfold time_diff, HLINE_VBL, HLINE_SOF in *;
    try lia; repeat split.
Qed.

(** Short pulses seen in EndOfFrame leave the machine there and signal
    nothing. *)
Lemma short_pulse_eof (cfg : config) (t w : Z) (s : state) :
  hline s = HLINE_EOF -> w <= time_us 10 ->
  Forall (fun s' => hline s' = HLINE_EOF /\ frame s' = frame s)
    (trace cfg (pulse cfg t w) s) /\
  hline (run cfg (pulse cfg t w) s) = HLINE_EOF /\
  frame (run cfg (pulse cfg t w) s) = frame s.
Proof.
  intros Hl Hw. unfold HLINE_EOF in *.
  assert (H1 : IRQ_csync cfg t (polarity cfg) s =
               set_p t
                 (set_exti_rtsr (Z.lor (exti_rtsr s) sync_pins)
                    (set_exti_ftsr (Z.lor (exti_ftsr s) sync_pins)
                       (set_exti_pr (m pin_csync) s)))).
  { handler_cases; try lia; reflexivity. }
  destruct (short_edge_at_eof cfg (t + w) (1 - polarity cfg)
              (IRQ_csync cfg t (polarity cfg) s)) as (E1 & E2).
  { rewrite H1. simpl_state. exact Hl. }
  { lia. }
  { rewrite H1. simpl_state. unfold time_diff. lia. }
  assert (Ef : frame (IRQ_csync cfg t (polarity cfg) s) = frame s)
    by (rewrite H1; reflexivity).
  assert (Eh : hline (IRQ_csync cfg t (polarity cfg) s) = -1)
    by (rewrite H1; exact Hl).
  unfold pulse, run. cbn [trace fold_left handle].
  unfold HLINE_EOF in *. rewrite E1, E2, Ef.
  split; [|split; reflexivity].
  constructor; [split; assumption|].
  constructor; [|constructor].
  rewrite E1, E2, Ef. split; reflexivity.
Qed.

Lemma short_pulses_eof (cfg : config) (l : list (Z * Z)) (s : state) :
  hline s = HLINE_EOF ->
  Forall (fun tw => snd tw <= time_us 10) l ->
  Forall (fun s' => hline s' = HLINE_EOF /\ frame s' = frame s)
    (trace cfg (pulses cfg l) s).
Proof.
  revert s.
  induction l as [|[t w] l IH]; intros s Hl Hall; cbn [pulses flat_map].
  - constructor.
  - inversion Hall as [|x l' Hw Hall']; subst. cbn [snd fst] in *.
    destruct (short_pulse_eof cfg t w s Hl Hw) as (Htr & Hh & Hf).
    rewrite trace_app. apply Forall_app. split; [exact Htr|].
    rewrite <- Hf. apply IH; [exact Hh | exact Hall'].
Qed.

(** C1: the end-to-end scenario.  Active-low polarity, [h_off = 2],
    [v_off = 3], height 10, starting in EndOfFrame with the frame counter
    at 0.  A low pulse of 15 microseconds enters VerticalBlank, a low pulse
    of 4 microseconds enters the first active line, and of the 12 sync
    edges that follow the first 11 leave the frame counter at 0 while the
    12th (the 13th edge after the vertical blank) sets it to 1 and leaves
    the machine in EndOfFrame, where the short pulses that follow keep it,
    with the frame counter at 1. *)
Theorem C1_end_to_end_scenario :
  forall (s : state) (t1 t2 : Z) (l : list (Z * Z)),
  0 < TIME_MHZ ->
  hline s = HLINE_EOF ->
  frame s = 0 ->
  display_height s = 10 ->
  length l = 12%nat ->
  let cfg := mkConfig 0 2 3 in
  let s1 := run cfg (pulse cfg t1 (time_us 15)) s in
  let s2 := run cfg (pulse cfg t2 (time_us 4)) s1 in
  (hline s1 = HLINE_VBL /\ frame s1 = 0) /\
  (hline s2 = HLINE_SOF /\ frame s2 = 0) /\
  (forall k : nat, (k < 12)%nat ->
     hline (run cfg (csync_edges (firstn k l)) s2) = 1 + Z.of_nat k /\
     frame (run cfg (csync_edges (firstn k l)) s2) = 0) /\
  hline (run cfg (csync_edges l) s2) = HLINE_EOF /\
  frame (run cfg (csync_edges l) s2) = 1 /\
  (forall after : list (Z * Z),
     Forall (fun tw => snd tw <= time_us 10) after ->
     Forall (fun s' => hline s' = HLINE_EOF /\ frame s' = 1)
       (trace cfg (pulses cfg after) (run cfg (csync_edges l) s2))).
Proof.
  intros s t1 t2 l HT Hl Hf Hd Hlen cfg s1 s2.
  assert (Hc : config_wf cfg)
    by (unfold config_wf, uint16_range, cfg; cbn; lia).
  destruct (long_pulse_blank cfg t1 (time_us 15) s) as (_ & Eh1 & Ef1 & Ed1).
  { rewrite Hl. unfold HLINE_EOF. lia. }
  { unfold time_us. lia. }
  fold s1 in Eh1, Ef1, Ed1. rewrite Hd in Ed1.
  destruct (short_pulse_sof cfg t2 (time_us 4) s1) as (Eh2 & Ef2 & Ed2 & _).
  { exact Eh1. }
  { rewrite Ed1. lia. }
  { unfold time_us. lia. }
  fold s2 in Eh2, Ef2, Ed2.
  assert (Hn : frame_edges cfg (display_height s2) = 12)
    by (rewrite Ed2, Ed1; reflexivity).
  split; [split; [exact Eh1 | congruence]|].
  split; [split; [exact Eh2 | congruence]|].
  split; [|].
  - intros k Hk.
    destruct (frame_cycle cfg (firstn k l) s2 Hc Eh2) as (Hlt & _).
    { rewrite Ed2, Ed1. unfold uint16_range. lia. }
    rewrite length_firstn, Hlen, Hn in Hlt.
    destruct Hlt as (Eh & Ef); [lia|].
    rewrite Eh, Ef. unfold HLINE_SOF. split; [lia | congruence].
  - destruct (frame_cycle cfg l s2 Hc Eh2) as (_ & Heq).
    { rewrite Ed2, Ed1. unfold uint16_range. lia. }
    rewrite Hlen, Hn in Heq. destruct Heq as (Eh & Ef & _); [reflexivity|].
    assert (Ef3 : frame (run cfg (csync_edges l) s2) = 1)
      by (rewrite Ef, Ef2, Ef1, Hf; reflexivity).
    split; [exact Eh|]. split; [exact Ef3|].
    intros after Hall. rewrite <- Ef3.
    apply short_pulses_eof; assumption.
Qed.

(** ** Invariants of the handlers *)

(** The handlers keep [hline] between EndOfFrame and the end of the box,
    and leave the height alone. *)
Lemma handle_state_wf (cfg : config) (e : irq) (s : state) :
  config_wf cfg -> state_wf s -> state_wf (handle cfg e s).
Proof.
  unfold config_wf, state_wf, hline_ok, uint16_range.
  intros (_ & _ & Hv) (Hh & Hd). destruct e as [t level|]; cbn [handle].
  - assert (E : 0 < hline s -> sint32 (hline s + 1) = hline s + 1)
      by (intros; apply sint32_small; unfold sint32_range; lia).
    handler_cases;
      unfold HLINE_VBL, HLINE_EOF, HLINE_SOF in *;
      try (rewrite E in * by lia); lia.
  - unfold IRQ_vsync, HLINE_VBL. simpl_state. lia.
Qed.



(** ** The display-critical wait *)



(** ** The height of the next frame *)

Lemma land_bit (a i : Z) :
  0 <= i -> Z.land a (Z.shiftl 1 i) = if Z.testbit a i then 2 ^ i else 0.
Proof.
  intros Hi. rewrite Z.shiftl_1_l. apply Z.bits_inj'. intros n Hn.
  rewrite Z.land_spec, Z.pow2_bits_eqb by exact Hi.
  destruct (Z.eqb_spec i n) as [->|Hne].
  - destruct (Z.testbit a n) eqn:E; cbn.
    + now rewrite Z.pow2_bits_true.
    + now rewrite Z.bits_0.
  - rewrite andb_false_r. destruct (Z.testbit a i).
    + now rewrite Z.pow2_bits_false.
    + now rewrite Z.bits_0.
Qed.

Lemma land_bit_test (a i : Z) :
  0 <= i -> (Z.land a (Z.shiftl 1 i) =? 0) = negb (Z.testbit a i).
Proof.
  intros Hi. rewrite land_bit by exact Hi. destruct (Z.testbit a i); cbn.
  - apply Z.eqb_neq. pose proof (Z.pow_pos_nonneg 2 i). lia.
  - reflexivity.
Qed.

Lemma double_rows_bounds (n : nat) :
  forall (i mask : Z), 0 <= double_rows n i mask <= Z.of_nat n.
Proof.
  induction n as [|n IH]; intros i mask; cbn [double_rows]; [lia|].
  specialize (IH (i + 1) mask). destruct (Z.testbit mask i); lia.
Qed.

(** The loop adds 8 for each double-height row, as long as the sum fits the
    16 bits of [height]. *)
Lemma height_rows_sum (d : display) (n : nat) :
  forall (i height : Z),
  0 <= i -> 0 <= height -> height + 8 * Z.of_nat n < 2 ^ 16 ->
  height_rows n i d height = height + 8 * double_rows n i (heights d).
Proof.
  induction n as [|n IH]; intros i height Hi Hh Hb;
    cbn [height_rows double_rows]; [lia|].
  rewrite land_bit_test by exact Hi.
  destruct (Z.testbit (heights d) i); cbn [negb].
  - rewrite uint16_small by (unfold uint16_range; lia).
    rewrite IH by lia. lia.
  - rewrite IH by lia. lia.
Qed.

(** The main loop computes the requested height and clamps it. *)
Lemma next_height_clamped (d : display) :
  display_wf d ->
  next_height d = Z.min (requested_height d) MAX_DISPLAY_HEIGHT.
Proof.
  intros Hr. unfold display_wf in Hr. unfold next_height, requested_height.
  rewrite (uint16_small (rows d * 10 + 2)) by (unfold uint16_range; lia).
  rewrite height_rows_sum by (rewrite ?Z2Nat.id; lia).
  pose proof (double_rows_bounds (Z.to_nat (rows d)) 0 (heights d)) as Hb.
  rewrite Z2Nat.id in Hb by lia.
  unfold min_t_uint16, MAX_DISPLAY_HEIGHT.
  rewrite !uint16_small by (unfold uint16_range; lia).
  destruct (Z.ltb_spec (rows d * 10 + 2 +
                        8 * double_rows (Z.to_nat (rows d)) 0 (heights d)) 52);
    lia.
Qed.

Lemma commit_display_height (d : display) (c : cpu) :
  display_height (hw (commit_display d c)) =
  if on d =? 0 then 0 else next_height d.
Proof. unfold commit_display. destruct (on d =? 0); reflexivity. Qed.

(** C7: the height of the next frame is ten lines per row plus two, plus
    eight for each double-height row among the first [R] rows, clamped to
    52.  The frame-ready branch commits this value as [display_height] for
    a display that is on (and 0 for one that is off), so a requested height
    of 52 or more gives [display_height = 52], and a frame started with the
    committed height ends after the number of edges that belongs to 52
    lines, not to the requested height. *)
Theorem C7_height_is_clamped :
  forall (cfg : config) (d : display) (t : Z) (ml : mainloop)
         (l : list (Z * Z)) (s : state),
  display_wf d ->
  next_height d = Z.min (requested_height d) MAX_DISPLAY_HEIGHT /\
  (frame (hw (core ml)) <> 0 ->
   display_height (hw (core (frame_check t d ml))) =
   if on d =? 0 then 0 else Z.min (requested_height d) MAX_DISPLAY_HEIGHT) /\
  (frame (hw (core ml)) <> 0 -> on d <> 0 ->
   MAX_DISPLAY_HEIGHT <= requested_height d ->
   display_height (hw (core (frame_check t d ml))) = MAX_DISPLAY_HEIGHT /\
   (config_wf cfg ->
    hline s = HLINE_SOF ->
    display_height s = display_height (hw (core (frame_check t d ml))) ->
    (Z.of_nat (length l) < frame_edges cfg MAX_DISPLAY_HEIGHT ->
     0 < hline (run cfg (csync_edges l) s)) /\
    (Z.of_nat (length l) = frame_edges cfg MAX_DISPLAY_HEIGHT ->
     hline (run cfg (csync_edges l) s) = HLINE_EOF /\
     frame (run cfg (csync_edges l) s) = sint32 (frame s + 1)))).
Proof.
  intros cfg d t ml l s Hd.
  pose proof (next_height_clamped d Hd) as Hn.
  assert (Hfc : frame (hw (core ml)) <> 0 ->
                display_height (hw (core (frame_check t d ml))) =
                if on d =? 0 then 0
                else Z.min (requested_height d) MAX_DISPLAY_HEIGHT).
  { intros Hf. unfold frame_check.
    destruct (Z.eqb_spec (frame (hw (core ml))) 0) as [E|_]; [contradiction|].
    cbn [core]. rewrite commit_display_height, Hn. reflexivity. }
  split; [exact Hn|]. split; [exact Hfc|].
  intros Hf Hon Hreq.
  assert (E : display_height (hw (core (frame_check t d ml))) =
              MAX_DISPLAY_HEIGHT).
  { rewrite (Hfc Hf).
    destruct (Z.eqb_spec (on d) 0) as [E0|_]; [contradiction|].
    apply Z.min_r. exact Hreq. }
  split; [exact E|].
  intros Hc Hs Hh. rewrite E in Hh.
  destruct (frame_cycle cfg l s Hc Hs) as (Hlt & Heq).
  { rewrite Hh. unfold uint16_range, MAX_DISPLAY_HEIGHT. lia. }
  rewrite Hh in Hlt, Heq. split.
  - intros Hlen. destruct (Hlt Hlen) as (Eh & _).
    rewrite Eh. unfold HLINE_SOF. lia.
  - intros Hlen. destruct (Heq Hlen) as (Eh & Ef & _). now split.
Qed.

(** ** Sync-loss recovery *)

(** While interrupts are masked no handler runs: the requests are held. *)
Lemma raise_all_masked (cfg : config) (es : list irq) :
  forall c : cpu,
  primask c = true ->
  raise_all cfg es c = mkCpu (hw c) true (pended c ++ es).
Proof.
  induction es as [|e es IH]; intros c Hm; cbn [raise_all fold_left].
  - rewrite app_nil_r. destruct c; cbn in *; now subst.
  - fold (raise_all cfg es (raise cfg e c)).
    unfold raise at 1. rewrite Hm. rewrite IH by reflexivity.
    cbn [hw pended]. now rewrite <- app_assoc.
Qed.

(** The masked block performs its two stores back to back, whatever
    requests are raised meanwhile. *)
Lemma sync_reset_masked_atomic (cfg : config) (a1 a2 a3 : list irq) (c : cpu) :
  sync_reset_masked cfg a1 a2 a3 c =
  mkCpu (set_hline HLINE_EOF (set_tim1_smcr 0 (hw c))) true
    (pended c ++ a1 ++ a2 ++ a3).
Proof.
  unfold sync_reset_masked, IRQ_global_disable, store.
  rewrite (raise_all_masked cfg a1) by reflexivity. cbn [hw primask pended].
  rewrite (raise_all_masked cfg a2) by reflexivity. cbn [hw primask pended].
  rewrite (raise_all_masked cfg a3) by reflexivity. cbn [hw primask pended].
  now rewrite <- !app_assoc.
Qed.

(** C6: the sync-loss check does nothing until more than 100 ms have
    elapsed since [frame_time]; then it masks the interrupts, and with no
    handler running in between clears the slave-mode control register of
    the master timer and sets [hline] to EndOfFrame, lifts the mask,
    records the loss and stamps [frame_time] anew.  As long as no frame is
    seen by the frame-ready branch, the next check does nothing until more
    than 100 ms have elapsed since that stamp, and then resets and stamps
    again; a frame seen by the frame-ready branch stamps [frame_time] and
    clears the loss. *)
Theorem C6_sync_loss_recovery :
  forall (cfg : config) (t_chk t_stamp : Z) (a1 a2 a3 : list irq)
         (ml : mainloop),
  (time_diff (frame_time ml) t_chk <= time_ms 100 ->
   sync_check cfg t_chk t_stamp a1 a2 a3 ml = ml) /\
  (forall (t_frame : Z) (d : display),
     frame (hw (core ml)) <> 0 ->
     frame_time (frame_check t_frame d ml) = t_frame /\
     lost_sync (frame_check t_frame d ml) = false /\
     frame (hw (core (frame_check t_frame d ml))) = 0) /\
  (time_diff (frame_time ml) t_chk > time_ms 100 ->
   let masked := sync_reset_masked cfg a1 a2 a3 (core ml) in
   let ml' := sync_check cfg t_chk t_stamp a1 a2 a3 ml in
   primask masked = true /\
   hw masked = set_hline HLINE_EOF (set_tim1_smcr 0 (hw (core ml))) /\
   tim1_smcr (hw masked) = 0 /\
   hline (hw masked) = HLINE_EOF /\
   core ml' = IRQ_global_enable cfg masked /\
   primask (core ml') = false /\
   (pended (core ml) = [] -> a1 = [] -> a2 = [] -> a3 = [] ->
    tim1_smcr (hw (core ml')) = 0 /\ hline (hw (core ml')) = HLINE_EOF) /\
   frame_time ml' = t_stamp /\
   lost_sync ml' = true /\
   (forall (t_frame : Z) (d : display) (t_chk' t_stamp' : Z)
           (b1 b2 b3 : list irq),
      frame (hw (core ml')) = 0 ->
      let ml'' := sync_check cfg t_chk' t_stamp' b1 b2 b3
                    (frame_check t_frame d ml') in
      (time_diff t_stamp t_chk' <= time_ms 100 -> ml'' = ml') /\
      (time_diff t_stamp t_chk' > time_ms 100 ->
       frame_time ml'' = t_stamp' /\
       hw (sync_reset_masked cfg b1 b2 b3 (core ml')) =
         set_hline HLINE_EOF (set_tim1_smcr 0 (hw (core ml'))) /\
       core ml'' =
         IRQ_global_enable cfg (sync_reset_masked cfg b1 b2 b3 (core ml'))))).
Proof.
  intros cfg t_chk t_stamp a1 a2 a3 ml. split; [|split].
  - intros Hle. unfold sync_check.
    destruct (Z.gtb_spec (time_diff (frame_time ml) t_chk) (time_ms 100));
      [lia | reflexivity].
  - intros t_frame d Hfr. unfold frame_check.
    destruct (Z.eqb_spec (frame (hw (core ml))) 0) as [E|_]; [contradiction|].
    cbn [frame_time lost_sync core]. split; [reflexivity|].
    split; [reflexivity|].
    unfold commit_display, store.
    destruct (on d =? 0); reflexivity.
  - intros Hgt masked ml'.
    assert (Em : masked =
                 mkCpu (set_hline HLINE_EOF (set_tim1_smcr 0 (hw (core ml))))
                   true (pended (core ml) ++ a1 ++ a2 ++ a3))
      by apply sync_reset_masked_atomic.
    assert (El : ml' =
                 mkMainloop (IRQ_global_enable cfg masked) t_stamp true
                   (if lost_sync ml then console ml
                    else console ml ++ [Sync_lost])).
    { unfold ml', sync_check.
      destruct (Z.gtb_spec (time_diff (frame_time ml) t_chk) (time_ms 100));
        [reflexivity | lia]. }
    split; [rewrite Em; reflexivity|].
    split; [rewrite Em; reflexivity|].
    split; [rewrite Em; reflexivity|].
    split; [rewrite Em; reflexivity|].
    split; [rewrite El; reflexivity|].
    split; [rewrite El; reflexivity|].
    split.
    { intros Hp -> -> ->. rewrite El, Em, Hp. cbn. split; reflexivity. }
    split; [rewrite El; reflexivity|].
    split; [rewrite El; reflexivity|].
    intros t_frame d t_chk' t_stamp' b1 b2 b3 Hfr ml''.
    assert (Efc : frame_check t_frame d ml' = ml').
    { unfold frame_check. rewrite Hfr. reflexivity. }
    assert (Eft : frame_time ml' = t_stamp) by (rewrite El; reflexivity).
    unfold ml''. rewrite Efc. clear ml''.
    assert (Es : sync_check cfg t_chk' t_stamp' b1 b2 b3 ml' =
                 if time_diff t_stamp t_chk' >? time_ms 100 then
                   mkMainloop
                     (IRQ_global_enable cfg
                        (sync_reset_masked cfg b1 b2 b3 (core ml')))
                     t_stamp' true
                     (if lost_sync ml' then console ml'
                      else console ml' ++ [Sync_lost])
                 else ml').
    { unfold sync_check at 1. rewrite Eft. reflexivity. }
    rewrite Es.
    destruct (Z.gtb_spec (time_diff t_stamp t_chk') (time_ms 100)).
    + split; [lia|]. intros _. cbn [frame_time core].
      split; [reflexivity|]. split; [|reflexivity].
      rewrite sync_reset_masked_atomic. reflexivity.
    + split; [reflexivity | lia].
Qed.

(** ** The reload values of the slave timers *)

Lemma uint16_sub_uint32 (a k : Z) : uint16 (uint32 a - k) = uint16 (a - k).
Proof.
  unfold uint16, uint32.
  rewrite Zminus_mod, Z.mod_mod_divide by (exists (2 ^ 16); reflexivity).
  now rewrite <- Zminus_mod.
Qed.

(** Whatever the offset, the two reload values are [20 * h_off - 1] and
    [20 * h_off - 49], reduced to the 16 bits of the registers. *)
Lemma slave_arr_update_values (cfg : config) (s : state) :
  tim2_arr (slave_arr_update cfg s) = uint16 (20 * h_off cfg - 1) /\
  tim3_arr (slave_arr_update cfg s) = uint16 (20 * h_off cfg - 49).
Proof.
  unfold slave_arr_update, reg16. simpl_state.
  rewrite !uint16_uint32, !uint16_sub_uint32.
  rewrite (Z.mul_comm (h_off cfg) 20). split; reflexivity.
Qed.

(** From an offset of 3 units on (and while the reload fits 16 bits), the
    output-enable timer is reloaded 48 cycles below the pixel-stream
    timer. *)
Lemma slave_arr_update_order (cfg : config) (s : state) :
  3 <= h_off cfg <= 3276 ->
  tim3_arr (slave_arr_update cfg s) + 48 = tim2_arr (slave_arr_update cfg s).
Proof.
  intros H. destruct (slave_arr_update_values cfg s) as (E2 & E3).
  rewrite E2, E3. unfold uint16.
  rewrite !Z.mod_small by lia. lia.
Qed.

(** C8: at [h_off = 2] the subtraction [hstart - 49] wraps below zero:
    the pixel-stream timer is reloaded with 39 and the output-enable timer
    with 65527, so the output-enable timer overflows after the pixel-stream
    timer, not 48 cycles before it. *)
Theorem C8_slave_reload_wraps_at_small_offset :
  forall s : state,
  tim2_arr (slave_arr_update (mkConfig 0 2 3) s) = 39 /\
  tim3_arr (slave_arr_update (mkConfig 0 2 3) s) = 65527 /\
  tim2_arr (slave_arr_update (mkConfig 0 2 3) s) <
    tim3_arr (slave_arr_update (mkConfig 0 2 3) s).
Proof.
  intros s. destruct (slave_arr_update_values (mkConfig 0 2 3) s) as (E2 & E3).
  rewrite E2, E3. cbn. repeat split.
Qed.

(** * Further properties of the handlers *)

(** ** Edge selection *)

Lemma land_lor_same (a b : Z) : Z.land (Z.lor a b) b = b.
Proof.
  apply Z.bits_inj'. intros n Hn. rewrite Z.land_spec, Z.lor_spec.
  destruct (Z.testbit a n), (Z.testbit b n); reflexivity.
Qed.

Lemma land_clear_same (a b : Z) : Z.land (Z.land a (Z.lnot b)) b = 0.
Proof.
  rewrite <- Z.land_assoc, (Z.land_comm (Z.lnot b)), Z.land_lnot_diag.
  apply Z.land_0_r.
Qed.

Lemma land_lor_other (a b : Z) :
  Z.land (Z.lor a b) (Z.lnot b) = Z.land a (Z.lnot b).
Proof.
  rewrite Z.land_lor_distr_l, Z.land_lnot_diag. apply Z.lor_0_r.
Qed.

Lemma land_clear_other (a b : Z) :
  Z.land (Z.land a (Z.lnot b)) (Z.lnot b) = Z.land a (Z.lnot b).
Proof. now rewrite <- Z.land_assoc, Z.land_diag. Qed.

Lemma lor_clear_same (a b : Z) : Z.lor (Z.land a (Z.lnot b)) b = Z.lor a b.
Proof.
  apply Z.bits_inj'. intros n Hn.
  rewrite !Z.lor_spec, Z.land_spec, Z.lnot_spec by exact Hn.
  destruct (Z.testbit a n), (Z.testbit b n); reflexivity.
Qed.

(** The sync pins selected for rising and for falling edges. *)
Lemma set_polarity_edges (cfg : config) (s : state) :
  exti_rtsr (set_polarity cfg s) =
    (if polarity cfg =? 0 then Z.land (exti_rtsr s) (Z.lnot sync_pins)
     else Z.lor (exti_rtsr s) sync_pins) /\
  exti_ftsr (set_polarity cfg s) =
    (if polarity cfg =? 0 then Z.lor (exti_ftsr s) sync_pins
     else Z.land (exti_ftsr s) (Z.lnot sync_pins)) /\
  tim1_ccer (set_polarity cfg s) =
    (if polarity cfg =? 0 then Z.land (tim1_ccer s) (Z.lnot TIM_CCER_CC1P)
     else Z.lor (tim1_ccer s) TIM_CCER_CC1P).
Proof. unfold set_polarity. destruct (polarity cfg =? 0); repeat split. Qed.

Lemma set_polarity_selected (cfg : config) (s : state) :
  if polarity cfg =? 0
  then Z.land (exti_ftsr (set_polarity cfg s)) sync_pins = sync_pins /\
       Z.land (exti_rtsr (set_polarity cfg s)) sync_pins = 0
  else Z.land (exti_rtsr (set_polarity cfg s)) sync_pins = sync_pins /\
       Z.land (exti_ftsr (set_polarity cfg s)) sync_pins = 0.
Proof.
  destruct (set_polarity_edges cfg s) as (Er & Ef & _). rewrite Er, Ef.
  destruct (polarity cfg =? 0);
    rewrite land_lor_same, land_clear_same; split; reflexivity.
Qed.

(** set_polarity selects the edge that starts a sync pulse, and only that
    one, on both sync pins (the falling edge for active-low sync, the
    rising edge otherwise); it leaves the edge selection of every other pin
    alone; and it does not depend on the polarity set before: the last
    call wins, on the edge selection and on the capture polarity of the
    master timer. *)
Theorem set_polarity_selects_start_edge :
  forall (cfg cfg0 : config) (s : state),
  (if polarity cfg =? 0
   then Z.land (exti_ftsr (set_polarity cfg s)) sync_pins = sync_pins /\
        Z.land (exti_rtsr (set_polarity cfg s)) sync_pins = 0
   else Z.land (exti_rtsr (set_polarity cfg s)) sync_pins = sync_pins /\
        Z.land (exti_ftsr (set_polarity cfg s)) sync_pins = 0) /\
  Z.land (exti_ftsr (set_polarity cfg s)) (Z.lnot sync_pins) =
    Z.land (exti_ftsr s) (Z.lnot sync_pins) /\
  Z.land (exti_rtsr (set_polarity cfg s)) (Z.lnot sync_pins) =
    Z.land (exti_rtsr s) (Z.lnot sync_pins) /\
  exti_ftsr (set_polarity cfg (set_polarity cfg0 s)) =
    exti_ftsr (set_polarity cfg s) /\
  exti_rtsr (set_polarity cfg (set_polarity cfg0 s)) =
    exti_rtsr (set_polarity cfg s) /\
  tim1_ccer (set_polarity cfg (set_polarity cfg0 s)) =
    tim1_ccer (set_polarity cfg s).
Proof.
  intros cfg cfg0 s. split; [apply set_polarity_selected|].
  destruct (set_polarity_edges cfg s) as (Er & Ef & Ec).
  destruct (set_polarity_edges cfg (set_polarity cfg0 s)) as (Er' & Ef' & Ec').
  destruct (set_polarity_edges cfg0 s) as (Er0 & Ef0 & Ec0).
  rewrite Er', Ef', Ec', Er0, Ef0, Ec0, Er, Ef, Ec.
  destruct (polarity cfg =? 0), (polarity cfg0 =? 0);
    rewrite ?land_lor_same, ?land_clear_same, ?land_lor_other,
      ?land_clear_other, ?lor_clear_same, ?lor_twice;
    repeat split; reflexivity.
Qed.

(** ** Entering the frame *)

(** The state after the end of a short pulse that starts the frame. *)
Lemma short_edge_sof_state (cfg : config) (t level : Z) (s : state) :
  hline s = HLINE_VBL -> display_height s <> 0 ->
  level <> polarity cfg -> time_diff (p s) t <= time_us 10 ->
  IRQ_csync cfg t level s =
  set_polarity cfg
    (slave_arr_update cfg
       (set_hline HLINE_SOF
          (set_exti_rtsr (Z.lor (exti_rtsr s) sync_pins)
             (set_exti_ftsr (Z.lor (exti_ftsr s) sync_pins)
                (set_exti_pr (m pin_csync) s))))).
Proof.
  intros Hl Hd Hlev Hw. unfold HLINE_VBL in Hl.
  unfold IRQ_csync. simpl_state.
  destruct (Z.leb_spec (hline s) 0); [|lia].
  destruct (Z.eqb_spec level (polarity cfg)); [contradiction|].
  destruct (Z.gtb_spec (time_diff (p s) t) (time_us 10)); [lia|].
  destruct (Z.eqb_spec (hline s) HLINE_VBL); [|unfold HLINE_VBL in *; lia].
  destruct (Z.eqb_spec (display_height s) 0); [contradiction|].
  reflexivity.
Qed.

(** The edge selection after a short pulse that starts the frame. *)
Lemma short_pulse_selects (cfg : config) (t w : Z) (s : state) :
  hline s = HLINE_VBL ->
  display_height s <> 0 ->
  w <= time_us 10 ->
  start_edge_only cfg (run cfg (pulse cfg t w) s).
Proof.
  intros Hl Hd Hw.
  set (s2 := IRQ_csync cfg t (polarity cfg) s).
  assert (E2 : hline s2 = HLINE_VBL /\ display_height s2 <> 0 /\ p s2 = t).
  { unfold s2, HLINE_VBL in *. handler_cases; try lia; repeat split;
      assumption. }
  destruct E2 as (Eh & Ed & Ep).
  assert (E : run cfg (pulse cfg t w) s =
              IRQ_csync cfg (t + w) (1 - polarity cfg) s2) by reflexivity.
  rewrite E, short_edge_sof_state;
    [| exact Eh | exact Ed | lia | rewrite Ep; unfold time_diff; lia].
  apply set_polarity_selected.
Qed.

(** For both polarity settings (0, active low, and 1, active high: the
    levels a pin reads) and a nonzero height, from every state with
    [hline <= 0] (EndOfFrame, VerticalBlank) a long pulse followed by a
    short pulse brings the machine to the first active line without
    signalling a frame, and so does a vertical-sync request followed by a
    short pulse (separate sync).  On either path the machine then listens
    to the start edge of the sync pulses only. *)
Theorem start_of_frame_both_polarities :
  forall (cfg : config) (t1 w1 t2 w2 : Z) (s : state),
  polarity cfg = 0 \/ polarity cfg = 1 ->
  hline s <= 0 ->
  display_height s <> 0 ->
  w1 > time_us 10 ->
  w2 <= time_us 10 ->
  (hline (run cfg (pulse cfg t1 w1 ++ pulse cfg t2 w2) s) = HLINE_SOF /\
   frame (run cfg (pulse cfg t1 w1 ++ pulse cfg t2 w2) s) = frame s /\
   start_edge_only cfg (run cfg (pulse cfg t1 w1 ++ pulse cfg t2 w2) s)) /\
  (hline (run cfg (Vsync :: pulse cfg t2 w2) s) = HLINE_SOF /\
   frame (run cfg (Vsync :: pulse cfg t2 w2) s) = frame s /\
   start_edge_only cfg (run cfg (Vsync :: pulse cfg t2 w2) s)).
Proof.
  intros cfg t1 w1 t2 w2 s _ Hl Hd Hw1 Hw2.
  destruct (long_pulse_blank cfg t1 w1 s Hl Hw1) as (_ & Eh1 & Ef1 & Ed1).
  assert (Hd1 : display_height (run cfg (pulse cfg t1 w1) s) <> 0)
    by (rewrite Ed1; exact Hd).
  destruct (short_pulse_sof cfg t2 w2 _ Eh1 Hd1 Hw2) as (Eh2 & Ef2 & _).
  rewrite run_app. split.
  - split; [exact Eh2|]. split; [congruence|].
    now apply short_pulse_selects.
  - change (run cfg (Vsync :: pulse cfg t2 w2) s)
      with (run cfg (pulse cfg t2 w2) (IRQ_vsync s)).
    destruct (short_pulse_sof cfg t2 w2 (IRQ_vsync s)) as (Eh & Ef & _);
      [reflexivity | exact Hd | exact Hw2 |].
    split; [exact Eh|]. split; [exact Ef|].
    apply short_pulse_selects; [reflexivity | exact Hd | exact Hw2].
Qed.

(** ** What a request can change *)

Lemma handle_display_height (cfg : config) (e : irq) (s : state) :
  display_height (handle cfg e s) = display_height s.
Proof.
  destruct e as [t level|]; cbn [handle]; [|reflexivity].
  handler_cases; reflexivity.
Qed.

(** A request changes the frame counter only by signalling one frame, and
    it signals a frame only while it enters EndOfFrame with the trigger of
    the master timer disabled; the vertical-sync handler never signals a
    frame, and no handler touches the height or the compare registers that
    the main loop owns. *)
Theorem frame_signalled_only_at_end_of_frame :
  forall (cfg : config) (e : irq) (s : state),
  (frame (handle cfg e s) = frame s \/
   (frame (handle cfg e s) = sint32 (frame s + 1) /\
    hline (handle cfg e s) = HLINE_EOF /\
    tim1_smcr (handle cfg e s) = 0 /\
    exists t level, e = Csync t level)) /\
  display_height (handle cfg e s) = display_height s /\
  tim1_ccr3 (handle cfg e s) = tim1_ccr3 s /\
  tim1_ccr4 (handle cfg e s) = tim1_ccr4 s.
Proof.
  intros cfg e s. destruct e as [t level|]; cbn [handle].
  - handler_cases; (split; [|repeat split]);
      solve [ left; reflexivity
            | right; repeat split; exists t, level; reflexivity ].
  - split; [left; reflexivity | repeat split].
Qed.

(** A request of the sync machine keeps the trigger of the master timer
    disabled outside a frame. *)
Lemma handle_trigger_off (cfg : config) (e : irq) (s : state) :
  state_wf s ->
  (hline s <= 0 -> tim1_smcr s = 0) ->
  hline (handle cfg e s) <= 0 -> tim1_smcr (handle cfg e s) = 0.
Proof.
  intros Hw Hs. destruct Hw as ((_ & Hh) & _).
  assert (E : 0 < hline s -> sint32 (hline s + 1) = hline s + 1)
    by (intros; apply sint32_small; unfold sint32_range; lia).
  destruct e as [t level|]; cbn [handle].
  - handler_cases; unfold HLINE_VBL, HLINE_EOF, HLINE_SOF in *;
      try (rewrite E in * by lia);
      intros; try reflexivity; try lia; apply Hs; lia.
  - intros _. reflexivity.
Qed.

(** The overlay interrupts of a scanline leave the line counter and the
    height alone. *)
Lemma scanline_sync (cfg : config) (cols : Z) (e : Z * Z) (o : osd) :
  hline (sync (snd (scanline cfg cols e o))) =
    hline (IRQ_csync cfg (fst e) (snd e) (sync o)) /\
  display_height (sync (snd (scanline cfg cols e o))) =
    display_height (IRQ_csync cfg (fst e) (snd e) (sync o)) /\
  (tim1_smcr (IRQ_csync cfg (fst e) (snd e) (sync o)) = 0 ->
   tim1_smcr (sync (snd (scanline cfg cols e o))) = 0).
Proof.
  unfold scanline, on_sync. cbn [sync].
  destruct (Z.eqb_spec (tim1_smcr (IRQ_csync cfg (fst e) (snd e) (sync o))) 0)
    as [E|E]; cbn [snd sync].
  - repeat split. intros _. exact E.
  - repeat split. intros E'. contradiction.
Qed.

(** Outside a frame the trigger of the master timer is disabled, as long
    as the overlay interrupts of a line are taken before the next sync
    event: if [tim1->smcr] is 0 whenever [hline <= 0], this remains so
    after every sequence of scanlines (the sync edge and, on a line with
    the timer armed, the three overlay interrupts in their order) and of
    vertical syncs between them.  The order matters: a vertical sync taken
    before a pending IRQ_osd_pre_start leaves the machine in VerticalBlank
    with the trigger enabled. *)
Theorem trigger_disabled_outside_frame :
  forall (cfg : config) (cols : Z) (es : list scan_event) (o : osd),
  config_wf cfg ->
  state_wf (sync o) ->
  (hline (sync o) <= 0 -> tim1_smcr (sync o) = 0) ->
  Forall (fun o' => hline (sync o') <= 0 -> tim1_smcr (sync o') = 0)
    (scan_trace cfg cols es o) /\
  (forall o' : osd,
     hline (sync (IRQ_osd_pre_start (on_sync IRQ_vsync o'))) = HLINE_VBL /\
     tim1_smcr (sync (IRQ_osd_pre_start (on_sync IRQ_vsync o'))) =
       Z.lor (TIM_SMCR_TS 1) (TIM_SMCR_SMS 6)).
Proof.
  intros cfg cols es o Hc Hw Hs. split; [|intros o'; split; reflexivity].
  revert o Hw Hs. induction es as [|e es IH]; intros o Hw Hs; cbn [scan_trace].
  - constructor.
  - assert (H : state_wf (sync (scan_step cfg cols e o)) /\
                (hline (sync (scan_step cfg cols e o)) <= 0 ->
                 tim1_smcr (sync (scan_step cfg cols e o)) = 0)).
    { clear IH. destruct e as [t level|]; cbn [scan_step].
      - destruct (scanline_sync cfg cols (t, level) o) as (Eh & Ed & Es).
        cbn [fst snd] in *.
        pose proof (handle_state_wf cfg (Csync t level) (sync o) Hc Hw) as Hw'.
        pose proof (handle_trigger_off cfg (Csync t level) (sync o) Hw Hs)
          as Hs'.
        cbn [handle] in *. split.
        + unfold state_wf, hline_ok in *. rewrite Eh, Ed. exact Hw'.
        + intros Hl. apply Es, Hs'. rewrite <- Eh. exact Hl.
      - split.
        + exact (handle_state_wf cfg Vsync (sync o) Hc Hw).
        + intros _. reflexivity. }
    destruct H as (Hw' & Hs').
    constructor; [exact Hs'|]. apply IH; assumption.
Qed.

(** The line counter never runs past the box: from a state with
    [-1 <= hline <= max 1 (v_off + display_height - 1)], every sequence of
    requests keeps [hline] in this range, so that on a line of the box the
    row index [hline - v_off] is below the height. *)
Theorem hline_stays_within_box :
  forall (cfg : config) (es : list irq) (s : state),
  config_wf cfg ->
  uint16_range (display_height s) ->
  -1 <= hline s <= frame_edges cfg (display_height s) ->
  Forall (fun s' =>
            -1 <= hline s' <= frame_edges cfg (display_height s) /\
            (v_off cfg <= hline s' -> 1 < hline s' ->
             hline s' - v_off cfg < display_height s))
    (trace cfg es s).
Proof.
  intros cfg es. induction es as [|e es IH]; intros s Hc Hd Hh; cbn [trace].
  - constructor.
  - assert (Ed : display_height (handle cfg e s) = display_height s)
      by apply handle_display_height.
    assert (H : -1 <= hline (handle cfg e s) <=
                frame_edges cfg (display_height s) /\
                (v_off cfg <= hline (handle cfg e s) ->
                 1 < hline (handle cfg e s) ->
                 hline (handle cfg e s) - v_off cfg < display_height s)).
    { clear IH Ed. destruct Hc as (_ & _ & Hv).
      unfold uint16_range, frame_edges in *.
      assert (E : 0 < hline s -> sint32 (hline s + 1) = hline s + 1)
        by (intros; apply sint32_small; unfold sint32_range; lia).
      destruct e as [t level|]; cbn [handle].
      - handler_cases; unfold HLINE_VBL, HLINE_EOF, HLINE_SOF in *;
          try (rewrite E in * by lia); lia.
      - unfold IRQ_vsync, HLINE_VBL. simpl_state. lia. }
    constructor; [exact H|].
    rewrite <- Ed. apply IH; rewrite ?Ed; try assumption. apply H.
Qed.

(** ** The compare registers *)

(** For an offset of at least 3 units whose reload fits 16 bits, and a
    clock of at most [20 * h_off] ticks per microsecond, the timers are
    programmed in this order after the sync edge: the compare interrupt of
    TIM2 one microsecond before the start of the box, the overflow of TIM3
    (output enable) 48 ticks before the overflow of TIM2 (pixel data). *)
Theorem slave_timers_in_order :
  forall (cfg : config) (s : state),
  3 <= h_off cfg <= 3276 ->
  0 <= sysclk_us 1 <= 20 * h_off cfg ->
  tim2_arr (slave_arr_update cfg s) = 20 * h_off cfg - 1 /\
  tim3_arr (slave_arr_update cfg s) = 20 * h_off cfg - 49 /\
  tim2_ccr1 (slave_arr_update cfg s) = 20 * h_off cfg - sysclk_us 1 /\
  hline (slave_arr_update cfg s) = hline s /\
  tim1_smcr (slave_arr_update cfg s) = tim1_smcr s.
Proof.
  intros cfg s Hh Hs.
  destruct (slave_arr_update_values cfg s) as (E2 & E3).
  rewrite E2, E3. unfold slave_arr_update, reg16. simpl_state.
  rewrite uint16_uint32, uint16_sub_uint32.
  unfold uint16. rewrite !Z.mod_small by lia.
  repeat split; lia.
Qed.

(** For a display that is on, of at most 1022 columns, and a clock of at
    most 80 ticks per microsecond, the frame-ready commit sets the
    end-of-box compare to [64 * cols + 80] ticks and the pre-end compare
    exactly one microsecond before it; for a display that is off it leaves
    both alone and sets the height to 0.  It never touches the line
    counter or the frame counter. *)
Theorem commit_display_compare :
  forall (d : display) (c : cpu),
  0 <= cols d <= 1022 ->
  0 <= sysclk_us 1 <= 80 ->
  (on d <> 0 ->
   tim1_ccr3 (hw (commit_display d c)) = 64 * cols d + 80 /\
   tim1_ccr4 (hw (commit_display d c)) + sysclk_us 1 =
     tim1_ccr3 (hw (commit_display d c))) /\
  (on d = 0 ->
   tim1_ccr3 (hw (commit_display d c)) = tim1_ccr3 (hw c) /\
   tim1_ccr4 (hw (commit_display d c)) = tim1_ccr4 (hw c) /\
   display_height (hw (commit_display d c)) = 0) /\
  hline (hw (commit_display d c)) = hline (hw c) /\
  frame (hw (commit_display d c)) = frame (hw c).
Proof.
  intros d c Hc Hs. unfold commit_display, store, reg16.
  destruct (Z.eqb_spec (on d) 0) as [E|E]; cbn [hw]; simpl_state.
  - repeat split; intros; try contradiction; reflexivity.
  - assert (E3 : uint16 (8 * 8 * cols d + 80) = 64 * cols d + 80)
      by (unfold uint16; rewrite Z.mod_small; lia).
    rewrite E3.
    assert (E4 : uint16 (64 * cols d + 80 - sysclk_us 1) =
                 64 * cols d + 80 - sysclk_us 1)
      by (unfold uint16; rewrite Z.mod_small; lia).
    rewrite E4. repeat split; intros; try contradiction; lia.
Qed.

(** ** The display-critical wait, in general *)

(** The wait performs at most [n] delays (five milliseconds in [main]),
    and when it performs fewer it ends with [hline < v_off - 3], the
    machine being at least three lines short of the box; it starts no
    delay at all when that is so at its beginning. *)
Theorem display_wait_bounded :
  forall (cfg : config) (n : nat) (during : list (list irq)) (c : cpu),
  (fst (display_wait cfg n during c) <= n)%nat /\
  ((fst (display_wait cfg n during c) < n)%nat ->
   hline (hw (snd (display_wait cfg n during c))) < v_off cfg - 3) /\
  (hline (hw c) < v_off cfg - 3 ->
   display_wait cfg n during c = (O, c)).
Proof.
  intros cfg n. induction n as [|n IH]; intros during c; cbn [display_wait].
  - cbn. repeat split; try lia. 
  - destruct (Z.ltb_spec (hline (hw c)) (v_off cfg - 3)) as [Hlt|Hge].
    + cbn [fst snd]. repeat split; try lia. 
    + destruct (IH (tl during) (raise_all cfg (hd [] during) c))
        as (H1 & H2 & _).
      cbn [fst snd]. split; [lia|]. split; [intros; apply H2; lia | lia].
Qed.

(** * The main loop *)

Lemma run_state_wf (cfg : config) (es : list irq) :
  forall s : state, config_wf cfg -> state_wf s -> state_wf (run cfg es s).
Proof.
  induction es as [|e es IH]; intros s Hc Hs; [exact Hs|].
  change (run cfg (e :: es) s) with (run cfg es (handle cfg e s)).
  apply IH; [exact Hc | now apply handle_state_wf].
Qed.

Lemma run_display_height (cfg : config) (es : list irq) :
  forall s : state, display_height (run cfg es s) = display_height s.
Proof.
  induction es as [|e es IH]; intros s; [reflexivity|].
  change (run cfg (e :: es) s) with (run cfg es (handle cfg e s)).
  now rewrite IH, handle_display_height.
Qed.

Lemma geometry_state_wf (s : state) : geometry_ok s -> state_wf s.
Proof.
  unfold geometry_ok, state_wf, uint16_range, MAX_DISPLAY_HEIGHT.
  intros (Hh & Hd). split; [exact Hh | lia].
Qed.

Lemma run_geometry (cfg : config) (es : list irq) (s : state) :
  config_wf cfg -> geometry_ok s -> geometry_ok (run cfg es s).
Proof.
  intros Hc Hg. pose proof (geometry_state_wf s Hg) as Hw.
  destruct (run_state_wf cfg es s Hc Hw) as (Hh & _).
  split; [exact Hh|]. rewrite run_display_height. apply Hg.
Qed.

Lemma raise_all_geometry (cfg : config) (es : list irq) :
  forall c : cpu,
  config_wf cfg -> geometry_ok (hw c) -> geometry_ok (hw (raise_all cfg es c)).
Proof.
  induction es as [|e es IH]; intros c Hc Hg; [exact Hg|].
  change (raise_all cfg (e :: es) c) with (raise_all cfg es (raise cfg e c)).
  apply IH; [exact Hc|]. unfold raise.
  destruct (primask c); cbn [hw]; [exact Hg|].
  change (handle cfg e (hw c)) with (run cfg [e] (hw c)).
  now apply run_geometry.
Qed.

Lemma display_wait_geometry (cfg : config) (n : nat) :
  forall (during : list (list irq)) (c : cpu),
  config_wf cfg -> geometry_ok (hw c) ->
  geometry_ok (hw (snd (display_wait cfg n during c))).
Proof.
  induction n as [|n IH]; intros during c Hc Hg; cbn [display_wait];
    [exact Hg|].
  destruct (hline (hw c) <? v_off cfg - 3); cbn [snd]; [exact Hg|].
  apply IH; [exact Hc | now apply raise_all_geometry].
Qed.

(** The height the main loop computes never exceeds the capacity of the
    pixel buffer, whatever the display. *)
Lemma next_height_range (d : display) :
  0 <= next_height d <= MAX_DISPLAY_HEIGHT.
Proof.
  unfold next_height, min_t_uint16, MAX_DISPLAY_HEIGHT.
  set (h := height_rows _ _ _ _).
  assert (E : uint16 52 = 52) by reflexivity. rewrite E.
  pose proof (Z.mod_pos_bound h (2 ^ 16) eq_refl) as Hb. fold (uint16 h) in Hb.
  destruct (Z.ltb_spec (uint16 h) 52); lia.
Qed.

Lemma sync_check_geometry (cfg : config) (t1 t2 : Z) (a1 a2 a3 : list irq)
    (ml : mainloop) :
  config_wf cfg -> geometry_ok (hw (core ml)) ->
  geometry_ok (hw (core (sync_check cfg t1 t2 a1 a2 a3 ml))).
Proof.
  intros Hc Hg. unfold sync_check.
  destruct (time_diff (frame_time ml) t1 >? time_ms 100); [|exact Hg].
  cbn [core]. rewrite sync_reset_masked_atomic.
  unfold IRQ_global_enable. cbn [hw pended].
  apply run_geometry; [exact Hc|].
  destruct Hg as (_ & Hd). split; [|exact Hd].
  unfold hline_ok, HLINE_EOF. simpl_state. lia.
Qed.

(** The sync handlers read nothing of what the overlay interrupts write:
    whatever the trigger setting and the DMA source, a request leaves the
    same line counter, frame counter and height. *)
Lemma sync_handlers_ignore_overlay (cfg : config) (e : irq) (v a : Z)
    (s : state) :
  hline (handle cfg e (set_dma_display_cmar a (set_tim1_smcr v s))) =
    hline (handle cfg e s) /\
  frame (handle cfg e (set_dma_display_cmar a (set_tim1_smcr v s))) =
    frame (handle cfg e s) /\
  display_height (handle cfg e (set_dma_display_cmar a (set_tim1_smcr v s))) =
    display_height (handle cfg e s).
Proof.
  destruct e as [t level|]; cbn [handle].
  - handler_cases; repeat split; reflexivity.
  - repeat split.
Qed.

Lemma store_geometry (f : state -> state) (c : cpu) :
  (forall s, hline (f s) = hline s) ->
  (forall s, display_height (f s) = display_height s) ->
  geometry_ok (hw c) -> geometry_ok (hw (store f c)).
Proof.
  intros Hh Hd (Gh & Gd). unfold store, geometry_ok, hline_ok in *.
  cbn [hw]. rewrite Hh, Hd. split; assumption.
Qed.

Lemma store_height_geometry (v : Z) (c : cpu) :
  0 <= v <= MAX_DISPLAY_HEIGHT ->
  geometry_ok (hw c) -> geometry_ok (hw (store (set_display_height v) c)).
Proof.
  intros Hv (Gh & _). unfold store, geometry_ok, hline_ok in *. cbn [hw].
  split; [exact Gh | exact Hv].
Qed.

Lemma commit_display_irqs_geometry (cfg : config) (d : display)
    (i3 i4 : list irq) (c : cpu) :
  config_wf cfg -> geometry_ok (hw c) ->
  geometry_ok (hw (commit_display_irqs cfg d i3 i4 c)).
Proof.
  intros Hc Hg. unfold commit_display_irqs.
  pose proof (next_height_range d) as Hn.
  destruct (on d =? 0).
  - apply store_height_geometry; [unfold MAX_DISPLAY_HEIGHT; lia | exact Hg].
  - apply store_height_geometry; [exact Hn|].
    apply raise_all_geometry; [exact Hc|].
    apply store_geometry; [reflexivity | reflexivity |].
    apply raise_all_geometry; [exact Hc|].
    apply store_geometry; [reflexivity | reflexivity | exact Hg].
Qed.

Lemma frame_branch_geometry (cfg : config) (t : Z) (d : display)
    (i1 i2 i3 i4 : list irq) (ml : mainloop) :
  config_wf cfg -> geometry_ok (hw (core ml)) ->
  geometry_ok (hw (core (frame_branch cfg t d i1 i2 i3 i4 ml))).
Proof.
  intros Hc Hg. unfold frame_branch.
  destruct (frame (hw (core ml)) =? 0); [exact Hg|]. cbn [core].
  apply commit_display_irqs_geometry; [exact Hc|].
  apply raise_all_geometry; [exact Hc|].
  apply store_geometry; [reflexivity | reflexivity |].
  apply raise_all_geometry; [exact Hc | exact Hg].
Qed.

(** With no request inside it the frame-ready branch is [frame_check]. *)
Lemma frame_branch_quiet (cfg : config) (t : Z) (d : display) (ml : mainloop) :
  frame_branch cfg t d [] [] [] [] ml = frame_check t d ml.
Proof. reflexivity. Qed.

(** The heights and line counts the buffers are sized for are an invariant
    of the main loop and the sync handlers together: whatever requests of
    the sync lines arrive and wherever in the round they are taken,
    whatever the time readings, and whatever displays are selected
    (well-formed or not), after any number of rounds of the main loop the
    height is at most 52 and [hline] is in the range the handlers keep. *)
Theorem main_loop_keeps_geometry :
  forall (cfg : config) (rs : list round) (ml : mainloop),
  config_wf cfg ->
  geometry_ok (hw (core ml)) ->
  geometry_ok (hw (core (main_loop cfg rs ml))).
Proof.
  intros cfg rs. induction rs as [|r rs IH]; intros ml Hc Hg; [exact Hg|].
  change (main_loop cfg (r :: rs) ml)
    with (main_loop cfg rs (main_round cfg r ml)).
  apply IH; [exact Hc|]. unfold main_round, interrupted. cbn [core].
  apply raise_all_geometry; [exact Hc|].
  apply frame_branch_geometry; [exact Hc|]. cbn [core].
  apply raise_all_geometry; [exact Hc|].
  apply sync_check_geometry; [exact Hc|]. cbn [core].
  apply raise_all_geometry; [exact Hc|].
  apply display_wait_geometry; [exact Hc|].
  apply raise_all_geometry; [exact Hc | exact Hg].
Qed.

Lemma sync_check_log (cfg : config) (t1 t2 : Z) (a1 a2 a3 : list irq)
    (ml : mainloop) :
  log_state (lost_sync ml) (console ml) ->
  log_state (lost_sync (sync_check cfg t1 t2 a1 a2 a3 ml))
    (console (sync_check cfg t1 t2 a1 a2 a3 ml)).
Proof.
  intros Hl. unfold sync_check.
  destruct (time_diff (frame_time ml) t1 >? time_ms 100); [|exact Hl].
  cbn [lost_sync console].
  destruct (lost_sync ml); [exact Hl | now constructor].
Qed.

Lemma frame_branch_log (cfg : config) (t : Z) (d : display)
    (i1 i2 i3 i4 : list irq) (ml : mainloop) :
  log_state (lost_sync ml) (console ml) ->
  log_state (lost_sync (frame_branch cfg t d i1 i2 i3 i4 ml))
    (console (frame_branch cfg t d i1 i2 i3 i4 ml)).
Proof.
  intros Hl. unfold frame_branch.
  destruct (frame (hw (core ml)) =? 0); [exact Hl|].
  cbn [lost_sync console].
  destruct (lost_sync ml); [now constructor | exact Hl].
Qed.

(** The console log pairs up: over any number of rounds of the main loop,
    with the requests of the sync lines taken anywhere in the round,
    "Sync lost" is printed once per loss (not at each forced reset) and
    "Sync found" once per recovery, in alternation, and [lost_sync] tells
    whether the log ends with an open loss. *)
Theorem main_loop_log_alternates :
  forall (cfg : config) (rs : list round) (ml : mainloop),
  log_state (lost_sync ml) (console ml) ->
  log_state (lost_sync (main_loop cfg rs ml)) (console (main_loop cfg rs ml)).
Proof.
  intros cfg rs. induction rs as [|r rs IH]; intros ml Hl; [exact Hl|].
  change (main_loop cfg (r :: rs) ml)
    with (main_loop cfg rs (main_round cfg r ml)).
  apply IH. unfold main_round, interrupted. cbn [lost_sync console].
  apply frame_branch_log. cbn [lost_sync console].
  apply sync_check_log. exact Hl.
Qed.

(** * The overlay box *)

(** What a sync edge on an active line does to the trigger of the master
    timer and to the source of the pixel DMA. *)
Lemma active_edge_regs (cfg : config) (t level : Z) (s : state) :
  1 <= hline s < 2 ^ 31 - 1 ->
  (hline s + 1 < v_off cfg ->
   tim1_smcr (IRQ_csync cfg t level s) = tim1_smcr s /\
   dma_display_cmar (IRQ_csync cfg t level s) = dma_display_cmar s) /\
  (v_off cfg <= hline s + 1 < v_off cfg + display_height s ->
   tim1_smcr (IRQ_csync cfg t level s) =
     Z.lor TIM_SMCR_MSM (Z.lor (TIM_SMCR_TS 5) (TIM_SMCR_SMS 4)) /\
   dma_display_cmar (IRQ_csync cfg t level s) =
     if hline s + 1 =? v_off cfg then display_dat else dma_display_cmar s).
Proof.
  intros Hh.
  assert (E : sint32 (hline s + 1) = hline s + 1)
    by (apply sint32_small; unfold sint32_range; lia).
  split; intros Hr; handler_cases; rewrite ?E in *; try lia;
    split; reflexivity.
Qed.

Lemma scanline_above_box (cfg : config) (cols : Z) (e : Z * Z) (o : osd) :
  1 <= hline (sync o) < 2 ^ 31 - 1 ->
  hline (sync o) + 1 < v_off cfg ->
  hline (sync o) + 1 < v_off cfg + display_height (sync o) ->
  tim1_smcr (sync o) = 0 ->
  fst (scanline cfg cols e o) = None /\
  hline (sync (snd (scanline cfg cols e o))) = hline (sync o) + 1 /\
  display_height (sync (snd (scanline cfg cols e o))) =
    display_height (sync o) /\
  tim1_smcr (sync (snd (scanline cfg cols e o))) = 0 /\
  frame (sync (snd (scanline cfg cols e o))) = frame (sync o).
Proof.
  intros Hh Hv Hb Hs.
  destruct (active_edge_next cfg (fst e) (snd e) (sync o) Hh Hb)
    as (Eh & Ef & Ed).
  destruct (active_edge_regs cfg (fst e) (snd e) (sync o) Hh) as (Er & _).
  destruct (Er Hv) as (Es & _). rewrite Hs in Es.
  unfold scanline, on_sync. cbn [sync]. rewrite Es. cbn [Z.eqb fst snd sync].
  repeat split; assumption.
Qed.

Lemma scanline_in_box (cfg : config) (cols : Z) (e : Z * Z) (o : osd) :
  1 <= hline (sync o) < 2 ^ 31 - 1 ->
  v_off cfg <= hline (sync o) + 1 < v_off cfg + display_height (sync o) ->
  Z.lor TIM_SMCR_MSM (Z.lor (TIM_SMCR_TS 5) (TIM_SMCR_SMS 4)) <> 0 ->
  fst (scanline cfg cols e o) =
    Some (if hline (sync o) + 1 =? v_off cfg then display_dat
          else dma_display_cmar (sync o)) /\
  hline (sync (snd (scanline cfg cols e o))) = hline (sync o) + 1 /\
  display_height (sync (snd (scanline cfg cols e o))) =
    display_height (sync o) /\
  dma_display_cmar (sync (snd (scanline cfg cols e o))) =
    uint32 ((if hline (sync o) + 1 =? v_off cfg then display_dat
             else dma_display_cmar (sync o)) + sizeof_display_dat_row) /\
  dma_display_cndtr (snd (scanline cfg cols e o)) =
    uint32 (Z.quot cols 2 + 1) /\
  frame (sync (snd (scanline cfg cols e o))) = frame (sync o).
Proof.
  intros Hh Hb Ha.
  destruct (active_edge_next cfg (fst e) (snd e) (sync o) Hh) as (Eh & Ef & Ed);
    [lia|].
  destruct (active_edge_regs cfg (fst e) (snd e) (sync o) Hh) as (_ & Er).
  destruct (Er Hb) as (Es & Ec).
  unfold scanline, on_sync. cbn [sync]. rewrite Es.
  destruct (Z.eqb_spec
              (Z.lor TIM_SMCR_MSM (Z.lor (TIM_SMCR_TS 5) (TIM_SMCR_SMS 4))) 0);
    [contradiction|].
  cbn [fst snd]. rewrite Ec.
  unfold IRQ_osd_end, IRQ_osd_pre_end, IRQ_osd_pre_start, on_sync.
  cbn [sync dma_display_cndtr]. simpl_state. rewrite Ec.
  repeat split; assumption.
Qed.

Lemma scanline_below_box (cfg : config) (cols : Z) (e : Z * Z) (o : osd) :
  1 <= hline (sync o) < 2 ^ 31 - 1 ->
  v_off cfg <= hline (sync o) + 1 ->
  v_off cfg + display_height (sync o) <= hline (sync o) + 1 ->
  fst (scanline cfg cols e o) = None /\
  hline (sync (snd (scanline cfg cols e o))) = HLINE_EOF /\
  frame (sync (snd (scanline cfg cols e o))) = sint32 (frame (sync o) + 1).
Proof.
  intros Hh Hv Hb.
  destruct (active_edge_eof cfg (fst e) (snd e) (sync o) Hh Hv Hb)
    as (Eh & Ef & Es & _).
  unfold scanline, on_sync. cbn [sync]. rewrite Es. cbn [Z.eqb fst snd sync].
  repeat split; assumption.
Qed.

Lemma scanlines_app (cfg : config) (cols : Z) (l1 l2 : list (Z * Z)) :
  forall o : osd,
  scanlines cfg cols (l1 ++ l2) o =
  (fst (scanlines cfg cols l1 o) ++
   fst (scanlines cfg cols l2 (snd (scanlines cfg cols l1 o))),
   snd (scanlines cfg cols l2 (snd (scanlines cfg cols l1 o)))).
Proof.
  induction l1 as [|e l1 IH]; intros o; cbn [scanlines app fst snd].
  - now destruct (scanlines cfg cols l2 o).
  - rewrite IH. reflexivity.
Qed.

(** The lines above the box draw nothing. *)
Lemma scanlines_above_box (cfg : config) (cols : Z) (l : list (Z * Z)) :
  forall o : osd,
  1 <= hline (sync o) ->
  hline (sync o) + Z.of_nat (length l) < v_off cfg ->
  v_off cfg + display_height (sync o) < 2 ^ 31 - 1 ->
  0 <= display_height (sync o) ->
  tim1_smcr (sync o) = 0 ->
  fst (scanlines cfg cols l o) = repeat None (length l) /\
  hline (sync (snd (scanlines cfg cols l o))) =
    hline (sync o) + Z.of_nat (length l) /\
  display_height (sync (snd (scanlines cfg cols l o))) =
    display_height (sync o) /\
  tim1_smcr (sync (snd (scanlines cfg cols l o))) = 0 /\
  frame (sync (snd (scanlines cfg cols l o))) = frame (sync o).
Proof.
  induction l as [|e l IH]; intros o Hh Hv Hm Hd Hs;
    cbn [scanlines length repeat fst snd] in *.
  - repeat split; try assumption; lia.
  - destruct (scanline_above_box cfg cols e o) as (E1 & E2 & E3 & E4 & E5);
      [lia | lia | lia | exact Hs |].
    destruct (IH (snd (scanline cfg cols e o))) as (F1 & F2 & F3 & F4 & F5);
      [rewrite E2; lia | rewrite E2; lia | rewrite E3; lia
      | rewrite E3; lia | exact E4 |].
    rewrite E1, F1, F2, F3, F4, F5, E2, E3, E5. repeat split; lia.
Qed.

(** The lines of the box after its first line read consecutive rows. *)
Lemma scanlines_in_box (cfg : config) (cols : Z) (l : list (Z * Z)) :
  forall (o : osd) (j : nat),
  1 <= hline (sync o) ->
  v_off cfg <= hline (sync o) ->
  hline (sync o) + Z.of_nat (length l) < v_off cfg + display_height (sync o) ->
  v_off cfg + display_height (sync o) < 2 ^ 31 - 1 ->
  Z.lor TIM_SMCR_MSM (Z.lor (TIM_SMCR_TS 5) (TIM_SMCR_SMS 4)) <> 0 ->
  0 <= display_dat ->
  display_dat_row (j + length l) < 2 ^ 32 ->
  dma_display_cmar (sync o) = display_dat_row j ->
  fst (scanlines cfg cols l o) =
    map (fun i => Some (display_dat_row i)) (seq j (length l)) /\
  hline (sync (snd (scanlines cfg cols l o))) =
    hline (sync o) + Z.of_nat (length l) /\
  display_height (sync (snd (scanlines cfg cols l o))) =
    display_height (sync o) /\
  frame (sync (snd (scanlines cfg cols l o))) = frame (sync o).
Proof.
  induction l as [|e l IH]; intros o j Hh Hv Hb Hm Ha Hd Hr Hc;
    cbn [scanlines length seq map fst snd] in *.
  - repeat split; lia.
  - destruct (scanline_in_box cfg cols e o) as (E1 & E2 & E3 & E4 & _ & E6);
      [lia | lia | exact Ha |].
    destruct (Z.eqb_spec (hline (sync o) + 1) (v_off cfg)); [lia|].
    assert (E5 : dma_display_cmar (sync (snd (scanline cfg cols e o))) =
                 display_dat_row (S j)).
    { rewrite E4, Hc. unfold display_dat_row, uint32 in *.
      change sizeof_display_dat_row with 42 in *.
      rewrite Z.mod_small; lia. }
    destruct (IH (snd (scanline cfg cols e o)) (S j)) as (F1 & F2 & F3 & F4);
      [rewrite E2; lia | rewrite E2; lia | rewrite E2, E3; lia
      | rewrite E3; lia | exact Ha | exact Hd
      | replace (S j + length l)%nat with (j + S (length l))%nat by lia;
        exact Hr
      | exact E5 |].
    rewrite E1, Hc, F1, F2, F3, F4, E2, E3, E6. repeat split; lia.
Qed.

Lemma split_at {A : Type} (n : nat) (l : list A) :
  (n <= length l)%nat ->
  exists l1 l2, l = l1 ++ l2 /\ length l1 = n.
Proof.
  intros H. exists (firstn n l), (skipn n l). split.
  - symmetry. apply firstn_skipn.
  - rewrite length_firstn. lia.
Qed.

(** With [v_off >= 2] and a height between 1 and 52, a frame that starts
    with the trigger disabled draws the box on the lines [v_off] to
    [v_off + display_height - 1] and on no other: the [v_off - 2] lines
    above draw nothing, the pixel DMA of the box lines reads the rows 0, 1,
    ... of [display_dat] in their order, each from the start of the row,
    and the line after the box ends the frame.  For at most 40 columns the
    word count programmed for a line fits one row. *)
Theorem overlay_reads_rows_in_order :
  forall (cfg : config) (cols : Z) (l : list (Z * Z)) (o : osd),
  config_wf cfg ->
  2 <= v_off cfg ->
  0 < display_height (sync o) <= MAX_DISPLAY_HEIGHT ->
  hline (sync o) = HLINE_SOF ->
  tim1_smcr (sync o) = 0 ->
  Z.lor TIM_SMCR_MSM (Z.lor (TIM_SMCR_TS 5) (TIM_SMCR_SMS 4)) <> 0 ->
  0 <= display_dat ->
  display_dat_row 52 < 2 ^ 32 ->
  Z.of_nat (length l) = frame_edges cfg (display_height (sync o)) ->
  fst (scanlines cfg cols l o) =
    repeat None (Z.to_nat (v_off cfg - 2)) ++
    map (fun j => Some (display_dat_row j))
      (seq 0 (Z.to_nat (display_height (sync o)))) ++
    [None] /\
  hline (sync (snd (scanlines cfg cols l o))) = HLINE_EOF /\
  frame (sync (snd (scanlines cfg cols l o))) = sint32 (frame (sync o) + 1) /\
  (0 <= cols <= 40 ->
   forall o' : osd,
   0 < dma_display_cndtr (IRQ_osd_end cols o') <= display_dat_row_words).
Proof.
  intros cfg cols l o (_ & _ & Hv) Hv2 Hd Hs Hm Ha Hdat Hbuf Hlen.
  unfold uint16_range, MAX_DISPLAY_HEIGHT, frame_edges, HLINE_SOF in *.
  set (dh := display_height (sync o)) in *.
  (* the lines above the box, the first line of the box, its other lines,
     and the line that ends the frame *)
  destruct (split_at (Z.to_nat (v_off cfg - 2)) l) as (l1 & r1 & -> & L1);
    [lia|].
  rewrite length_app in Hlen.
  destruct r1 as [|e1 r1]; [cbn [length] in Hlen; lia|].
  cbn [length] in Hlen.
  destruct (exists_last (l := r1)) as (l2 & e3 & ->).
  { intros ->. cbn [length] in Hlen. lia. }
  rewrite length_app in Hlen. cbn [length] in Hlen.
  assert (L2 : Z.of_nat (length l2) = dh - 1) by lia.
  rewrite scanlines_app.
  destruct (scanlines_above_box cfg cols l1 o) as (A1 & A2 & A3 & A4 & A5);
    [lia | lia | fold dh; lia | fold dh; lia | exact Hm |].
  set (o1 := snd (scanlines cfg cols l1 o)) in *. fold dh in A3.
  change (e1 :: l2 ++ [e3]) with ([e1] ++ l2 ++ [e3]).
  rewrite (scanlines_app cfg cols [e1]), (scanlines_app cfg cols l2).
  cbn [fst snd]. cbn [scanlines fst snd].
  destruct (scanline_in_box cfg cols e1 o1) as (B1 & B2 & B3 & B4 & _ & B6);
    [lia | rewrite A3; lia | exact Ha |].
  set (o2 := snd (scanline cfg cols e1 o1)) in *.
  destruct (Z.eqb_spec (hline (sync o1) + 1) (v_off cfg)); [|lia].
  assert (B5 : dma_display_cmar (sync o2) = display_dat_row 1).
  { rewrite B4. unfold display_dat_row, uint32 in *.
    change sizeof_display_dat_row with 42 in *.
    rewrite Z.mod_small; lia. }
  destruct (scanlines_in_box cfg cols l2 o2 1) as (C1 & C2 & C3 & C4);
    [lia | lia | rewrite B2, B3, A3; lia | rewrite B3, A3; lia | exact Ha
    | exact Hdat
    | unfold display_dat_row in *;
      change sizeof_display_dat_row with 42 in *; lia
    | exact B5 |].
  set (o3 := snd (scanlines cfg cols l2 o2)) in *.
  destruct (scanline_below_box cfg cols e3 o3) as (D1 & D2 & D3);
    [lia | lia | rewrite C2, C3, B2, B3, A3; lia |].
  assert (Ef : frame (sync o3) = frame (sync o)) by congruence.
  rewrite A1, B1, C1, D1, D2, D3, Ef, L1.
  split; [|split; [reflexivity|split; [reflexivity|]]].
  - f_equal.
    replace (Z.to_nat dh) with (S (length l2)) by lia.
    cbn [seq map app]. f_equal. f_equal.
    unfold display_dat_row. cbn [Z.of_nat]. lia.
  - intros Hc o'. unfold IRQ_osd_end. cbn [dma_display_cndtr].
    change display_dat_row_words with 21.
    pose proof (Z.quot_pos cols 2) as Hq.
    assert (Z.quot cols 2 <= 20) by (apply Z.quot_le_upper_bound; lia).
    unfold uint32. rewrite Z.mod_small; lia.
Qed.

(** * The buttons *)

Lemma land_lor_same_l (a b : Z) : Z.land (Z.lor a b) a = a.
Proof.
  apply Z.bits_inj'. intros n Hn. rewrite Z.land_spec, Z.lor_spec.
  destruct (Z.testbit a n), (Z.testbit b n); reflexivity.
Qed.

Lemma lor_disjoint (a b : Z) : Z.land a b = 0 -> Z.lor a b = a + b.
Proof. intros H. pose proof (Z.add_lor_land a b). lia. Qed.

(** One step of the shift register of the select switch. *)
Lemma shift_register_step (b sel : Z) :
  sel = 0 \/ sel = 1 ->
  uint16 (Z.lor (uint16 (Z.shiftl b 1)) sel) = (2 * b + sel) mod 2 ^ 16.
Proof.
  intros Hs. unfold uint16. rewrite Z.shiftl_mul_pow2 by lia.
  change (2 ^ 1) with 2. rewrite (Z.mul_comm b 2).
  assert (E : (2 * b) mod 2 ^ 16 = 2 * (b mod 2 ^ 15)).
  { change (2 ^ 16) with (2 * 2 ^ 15). apply Z.mul_mod_distr_l; lia. }
  pose proof (Z.mod_pos_bound b (2 ^ 15) eq_refl) as Hb.
  rewrite <- (Z.add_mod_idemp_l (2 * b)) by lia. rewrite E.
  rewrite lor_disjoint.
  - reflexivity.
  - destruct Hs as [-> | ->]; [apply Z.land_0_r|].
    change 1 with (Z.ones 1). rewrite Z.land_ones by lia.
    change (2 ^ 1) with 2. rewrite Z.mul_comm. apply Z.mod_mul. lia.
Qed.

Lemma get_buttons_shift (sel idr : Z) (e : encoder) :
  sel = 0 \/ sel = 1 ->
  _b (snd (get_buttons sel idr e)) = (2 * _b e + sel) mod 2 ^ 16.
Proof. intros Hs. cbn [get_buttons snd _b]. now apply shift_register_step. Qed.

(** After the samples of [l], the shift register holds the old bits moved
    up, and the samples below them. *)
Lemma get_buttons_run_shift (l : list (Z * Z)) :
  forall (r : Z * encoder) (acc : Z),
  Forall (fun x => fst x = 0 \/ fst x = 1) l ->
  _b (snd r) mod 2 ^ 16 = acc mod 2 ^ 16 ->
  _b (snd (fold_left (fun r x => get_buttons (fst x) (snd x) (snd r)) l r))
    mod 2 ^ 16 =
  fold_left (fun acc x => 2 * acc + fst x) l acc mod 2 ^ 16.
Proof.
  induction l as [|x l IH]; intros r acc Hall Hr; cbn [fold_left];
    [exact Hr|].
  inversion Hall as [|y l' Hx Hall']; subst.
  apply IH; [exact Hall'|].
  rewrite get_buttons_shift by exact Hx. rewrite Z.mod_mod by lia.
  rewrite <- Z.add_mod_idemp_l, <- Z.mul_mod_idemp_r, Hr by lia.
  rewrite Z.mul_mod_idemp_r, Z.add_mod_idemp_l by lia. reflexivity.
Qed.

Lemma samples_fold_bounds (l : list (Z * Z)) :
  forall acc : Z,
  Forall (fun x => fst x = 0 \/ fst x = 1) l ->
  0 <= acc ->
  acc * 2 ^ Z.of_nat (length l) <=
    fold_left (fun acc x => 2 * acc + fst x) l acc <
    (acc + 1) * 2 ^ Z.of_nat (length l) /\
  (fold_left (fun acc x => 2 * acc + fst x) l acc = 0 <->
   acc = 0 /\ Forall (fun x => fst x = 0) l).
Proof.
  induction l as [|x l IH]; intros acc Hall Hacc; cbn [fold_left length].
  - cbn. split; [lia|]. split.
    + intros ->. split; [reflexivity | constructor].
    + intros (-> & _). reflexivity.
  - inversion Hall as [|y l' Hx Hall']; subst.
    destruct (IH (2 * acc + fst x) Hall') as (Hb & Hz); [lia|].
    rewrite Nat2Z.inj_succ, Z.pow_succ_r by lia.
    assert (Hp : 0 < 2 ^ Z.of_nat (length l))
      by (apply Z.pow_pos_nonneg; lia).
    set (P := 2 ^ Z.of_nat (length l)) in *.
    split; [nia|]. rewrite Hz. split.
    + intros (H0 & Hf). split; [lia|]. constructor; [lia | exact Hf].
    + intros (-> & Hf). inversion Hf; subst. split; [lia | assumption].
Qed.

Lemma samples_fold_linear (l : list (Z * Z)) :
  forall acc : Z,
  fold_left (fun acc x => 2 * acc + fst x) l acc =
  acc * 2 ^ Z.of_nat (length l) + samples_value l.
Proof.
  unfold samples_value.
  induction l as [|x l IH]; intros acc; cbn [fold_left length].
  - cbn. lia.
  - rewrite IH, (IH (2 * 0 + fst x)).
    rewrite Nat2Z.inj_succ, Z.pow_succ_r by lia. lia.
Qed.

(** After 16 samples the shift register holds these samples, and nothing
    of what it held before. *)
Lemma sixteen_samples_fill (l : list (Z * Z)) (e : encoder) :
  length l = 16%nat ->
  Forall (fun x => fst x = 0 \/ fst x = 1) l ->
  _b (snd (get_buttons_run l e)) = samples_value l.
Proof.
  intros Hlen Hall.
  pose proof (get_buttons_run_shift l (0, e) (_b e) Hall eq_refl) as H.
  fold (get_buttons_run l e) in H.
  rewrite samples_fold_linear, Hlen in H.
  change (2 ^ Z.of_nat 16) with (2 ^ 16) in H.
  rewrite Z.add_comm, Z.mod_add in H by lia.
  destruct (samples_fold_bounds l 0 Hall) as (Hb & _); [lia|].
  fold (samples_value l) in Hb. rewrite Hlen in Hb.
  change (2 ^ Z.of_nat 16) with (2 ^ 16) in Hb.
  rewrite (Z.mod_small (samples_value l)) in H by lia.
  rewrite <- H. symmetry. apply Z.mod_small.
  destruct (exists_last (l := l)) as (l0 & x & ->).
  { intros ->. discriminate. }
  unfold get_buttons_run. rewrite fold_left_app. cbn [fold_left snd _b get_buttons].
  apply Z.mod_pos_bound. lia.
Qed.

Lemma uint8_land (z : Z) : uint8 z = Z.land z 255.
Proof. unfold uint8. change 255 with (Z.ones 8). now rewrite Z.land_ones. Qed.

(** Whether a call reports B_SELECT is decided by the shift register it
    leaves. *)
Lemma get_buttons_select (sel idr : Z) (e : encoder) :
  0 < B_SELECT < 2 ^ 8 ->
  Z.land B_SELECT 3 = 0 ->
  Z.land (fst (get_buttons sel idr e)) B_SELECT =
  if _b (snd (get_buttons sel idr e)) =? 0 then B_SELECT else 0.
Proof.
  intros Hr Hd. cbn [get_buttons fst snd _b].
  assert (E : Z.land 255 B_SELECT = B_SELECT).
  { rewrite Z.land_comm, <- uint8_land. unfold uint8.
    apply Z.mod_small. lia. }
  assert (E8 : uint8 B_SELECT = B_SELECT)
    by (unfold uint8; apply Z.mod_small; lia).
  set (x := Z.shiftr _ _).
  destruct (uint16 (Z.lor (uint16 (Z.shiftl (_b e) 1)) sel) =? 0).
  - rewrite Z.lor_0_l, E8, uint8_land, <- Z.land_assoc, E.
    apply land_lor_same_l.
  - rewrite Z.lor_0_l, uint8_land, <- Z.land_assoc, E, <- Z.land_assoc.
    rewrite (Z.land_comm 3), Hd. apply Z.land_0_r.
Qed.

(** The select switch is debounced over 16 samples: whatever the state
    before, after 16 calls that read the select pin as 0 or 1 the last call
    reports B_SELECT exactly when all 16 samples were 0. *)
Theorem select_needs_sixteen_low_samples :
  forall (l : list (Z * Z)) (e : encoder),
  length l = 16%nat ->
  Forall (fun x => fst x = 0 \/ fst x = 1) l ->
  0 < B_SELECT < 2 ^ 8 ->
  Z.land B_SELECT 3 = 0 ->
  (Forall (fun x => fst x = 0) l ->
   Z.land (fst (get_buttons_run l e)) B_SELECT = B_SELECT) /\
  (~ Forall (fun x => fst x = 0) l ->
   Z.land (fst (get_buttons_run l e)) B_SELECT = 0).
Proof.
  intros l e Hlen Hall Hsel Hdisj.
  pose proof (sixteen_samples_fill l e Hlen Hall) as Eb.
  destruct (samples_fold_bounds l 0 Hall) as (_ & Hz); [lia|].
  fold (samples_value l) in Hz.
  destruct (exists_last (l := l)) as (l0 & x & El).
  { intros ->. discriminate. }
  assert (Es : Z.land (fst (get_buttons_run l e)) B_SELECT =
               if _b (snd (get_buttons_run l e)) =? 0 then B_SELECT else 0).
  { rewrite El. unfold get_buttons_run. rewrite fold_left_app.
    cbn [fold_left]. now apply get_buttons_select. }
  rewrite Es, Eb. split.
  - intros Hf. destruct (Z.eqb_spec (samples_value l) 0) as [_|Hne];
      [reflexivity|]. exfalso. apply Hne, Hz. now split.
  - intros Hf. destruct (Z.eqb_spec (samples_value l) 0) as [E0|_];
      [|reflexivity]. exfalso. apply Hf, Hz, E0.
Qed.

(** The two positions the encoder state keeps: the previous one in bits
    2-3 and the current one in bits 0-1. *)
Lemma rotary_next (r i : Z) :
  uint8 (Z.land (Z.lor (Z.shiftl r 2) (Z.land i 3)) 15) =
  4 * (r mod 4) + i mod 4.
Proof.
  assert (Ei : Z.land i 3 = i mod 4)
    by (change 3 with (Z.ones 2); now rewrite Z.land_ones by lia).
  assert (Er : Z.shiftl r 2 = 4 * r)
    by (rewrite Z.shiftl_mul_pow2 by lia; change (2 ^ 2) with 4; lia).
  assert (Ed : Z.land (4 * r) (i mod 4) = 0).
  { rewrite <- Ei, (Z.land_comm i), Z.land_assoc.
    change 3 with (Z.ones 2). rewrite Z.land_ones by lia.
    change (2 ^ 2) with 4. rewrite Z.mul_comm, Z.mod_mul by lia.
    apply Z.land_0_l. }
  rewrite Ei, Er, lor_disjoint by exact Ed.
  change 15 with (Z.ones 4). rewrite Z.land_ones by lia.
  change (2 ^ 4) with (4 * 4).
  pose proof (Z.mod_pos_bound r 4 eq_refl).
  pose proof (Z.mod_pos_bound i 4 eq_refl).
  rewrite <- Z.add_mod_idemp_l, Z.mul_mod_distr_l by lia.
  rewrite Z.mod_small by lia. unfold uint8. apply Z.mod_small. lia.
Qed.

(** The direction bits of the result are those of the table. *)
Lemma get_buttons_direction (sel idr : Z) (e : encoder) :
  0 < B_SELECT < 2 ^ 8 ->
  Z.land B_SELECT 3 = 0 ->
  Z.land (fst (get_buttons sel idr e)) 3 =
  Z.land (Z.shiftr (rotary_transitions rotary_type)
            (Z.shiftl (4 * (rotary e mod 4) + idr mod 4) 1)) 3.
Proof.
  intros Hr Hd. cbn [get_buttons fst]. rewrite rotary_next.
  set (x := Z.shiftr _ _).
  assert (E8 : uint8 B_SELECT = B_SELECT)
    by (unfold uint8; apply Z.mod_small; lia).
  assert (E3 : forall b, Z.land b 3 = 0 ->
               Z.land (uint8 (Z.lor b (Z.land x 3))) 3 = Z.land x 3).
  { intros b Hb. rewrite uint8_land, <- Z.land_assoc.
    change (Z.land 255 3) with 3.
    rewrite Z.land_lor_distr_l, Hb, Z.lor_0_l, <- Z.land_assoc.
    reflexivity. }
  destruct (uint16 (Z.lor (uint16 (Z.shiftl (_b e) 1)) sel) =? 0).
  - rewrite Z.lor_0_l, E8. apply E3, Hd.
  - apply E3. reflexivity.
Qed.

(** The encoder reports a step only on the two transitions that enter a
    detent: from position 1 to position 0 the bit 1, from position 3 to
    position 2 the bit 2.  It never reports both directions at once, and
    it reports nothing when the position has not changed.  The new state
    keeps the previous and the current position. *)
Theorem rotary_reports_detent_steps :
  forall (sel idr : Z) (e : encoder),
  0 < B_SELECT < 2 ^ 8 ->
  Z.land B_SELECT 3 = 0 ->
  (Z.land (fst (get_buttons sel idr e)) 3 = 1 <->
   rotary e mod 4 = 1 /\ idr mod 4 = 0) /\
  (Z.land (fst (get_buttons sel idr e)) 3 = 2 <->
   rotary e mod 4 = 3 /\ idr mod 4 = 2) /\
  (Z.land (fst (get_buttons sel idr e)) 3 = 0 \/
   Z.land (fst (get_buttons sel idr e)) 3 = 1 \/
   Z.land (fst (get_buttons sel idr e)) 3 = 2) /\
  (rotary e mod 4 = idr mod 4 ->
   Z.land (fst (get_buttons sel idr e)) 3 = 0) /\
  rotary (snd (get_buttons sel idr e)) = 4 * (rotary e mod 4) + idr mod 4.
Proof.
  intros sel idr e Hr Hd.
  rewrite (get_buttons_direction sel idr e Hr Hd).
  assert (En : rotary (snd (get_buttons sel idr e)) =
               4 * (rotary e mod 4) + idr mod 4)
    by (cbn [get_buttons snd rotary]; apply rotary_next).
  rewrite En. clear En.
  pose proof (Z.mod_pos_bound (rotary e) 4 eq_refl) as H1.
  pose proof (Z.mod_pos_bound idr 4 eq_refl) as H2.
  generalize dependent (rotary e mod 4). intros r H1.
  generalize dependent (idr mod 4). intros i H2.
  assert (Hr4 : r = 0 \/ r = 1 \/ r = 2 \/ r = 3) by lia.
  assert (Hi4 : i = 0 \/ i = 1 \/ i = 2 \/ i = 3) by lia.
  destruct Hr4 as [-> | [-> | [-> | ->]]];
    destruct Hi4 as [-> | [-> | [-> | ->]]];
    vm_compute; repeat split; intros; try discriminate; intuition congruence.
Qed.

(** * The emulated Gotek buttons *)

Lemma testbit_m (pin q : Z) :
  0 <= pin -> 0 <= q -> Z.testbit (m pin) q = (pin =? q).
Proof.
  intros Hp Hq. unfold m. rewrite Z.shiftl_1_l. now apply Z.pow2_bits_eqb.
Qed.

Lemma gpio_write_pin_bits (pin q : Z) (level : bool) (odr : Z) :
  0 <= pin -> 0 <= q ->
  Z.testbit (gpio_write_pin pin level odr) q =
  if pin =? q then level else Z.testbit odr q.
Proof.
  intros Hp Hq. unfold gpio_write_pin. destruct level.
  - rewrite Z.lor_spec, testbit_m by assumption.
    destruct (pin =? q); [apply orb_true_r | apply orb_false_r].
  - rewrite Z.land_spec, Z.lnot_spec, testbit_m by assumption.
    destruct (pin =? q); [apply andb_false_r | apply andb_true_r].
Qed.

(** What one call can do to a button. *)
Lemma emulate_gotek_button_cases (keys keycode : Z) (active : bool)
    (now pin : Z) (button : gotek_button) (odr : Z) :
  emulate_gotek_button keys keycode active now pin button odr = (button, odr)
  \/ (pressed button = false /\ active = true /\
      Z.land keys keycode <> 0 /\
      emulate_gotek_button keys keycode active now pin button odr =
        (mkGotekButton true now, gpio_write_pin pin LOW odr))
  \/ (pressed button = true /\
      (active = false \/ Z.land keys keycode = 0) /\
      time_diff (press_time button) now > time_ms 200 /\
      emulate_gotek_button keys keycode active now pin button odr =
        (mkGotekButton false (press_time button),
         gpio_write_pin pin HIGH odr)).
Proof.
  unfold emulate_gotek_button.
  destruct (Z.eqb_spec (Z.land keys keycode) 0) as [Ek|Ek];
    destruct active; destruct (pressed button) eqn:Ep;
    cbn [negb andb xorb];
    try (left; reflexivity);
    try (destruct (Z.gtb_spec (time_diff (press_time button) now)
                     (time_ms 200));
         [right; right; repeat split; auto; lia | left; reflexivity]).
  right. left. repeat split; assumption.
Qed.

(** The output pin of a button follows the button: if it is low exactly
    while the button is pressed, it remains so after a call, and a call
    touches no other pin of the port. *)
Theorem emulate_gotek_button_pin (keys keycode : Z) (active : bool)
    (now pin : Z) (button : gotek_button) (odr : Z) :
  0 <= pin ->
  (Z.testbit odr pin = negb (pressed button) ->
   Z.testbit
     (snd (emulate_gotek_button keys keycode active now pin button odr)) pin =
   negb
     (pressed
        (fst (emulate_gotek_button keys keycode active now pin button odr))))
  /\
  (forall q : Z, 0 <= q -> q <> pin ->
   Z.testbit
     (snd (emulate_gotek_button keys keycode active now pin button odr)) q =
   Z.testbit odr q).
Proof.
  intros Hp.
  assert (Hw : forall (level : bool) (q : Z), 0 <= q -> q <> pin ->
               Z.testbit (gpio_write_pin pin level odr) q = Z.testbit odr q).
  { intros level q Hq Hne. rewrite gpio_write_pin_bits by lia.
    destruct (Z.eqb_spec pin q); [lia | reflexivity]. }
  assert (Hs : forall level : bool,
               Z.testbit (gpio_write_pin pin level odr) pin = level).
  { intros level. rewrite gpio_write_pin_bits, Z.eqb_refl by lia.
    reflexivity. }
  destruct (emulate_gotek_button_cases keys keycode active now pin button odr)
    as [E | [(_ & _ & _ & E) | (_ & _ & _ & E)]];
    rewrite E; cbn [fst snd pressed].
  - split; [intros H; exact H | intros; reflexivity].
  - split; [intros _; apply Hs | apply Hw].
  - split; [intros _; apply Hs | apply Hw].
Qed.

(** A press lasts at least 200 ms: once a button is pressed, it stays
    pressed, with its pin low, through every call whose time reading is
    within 200 ms of the press, whatever the keys and the activity flag;
    and whenever a button is released, its key is up (or the emulation
    inactive) and more than 200 ms have passed since the press. *)
Theorem gotek_press_lasts_200ms :
  forall (keycode pin : Z) (l : list (Z * bool * Z))
         (button : gotek_button) (odr : Z),
  0 <= pin ->
  pressed button = true ->
  Z.testbit odr pin = false ->
  Forall (fun x => time_diff (press_time button) (snd x) <= time_ms 200) l ->
  fst (emulate_gotek_button_run keycode pin l (button, odr)) = button /\
  Z.testbit (snd (emulate_gotek_button_run keycode pin l (button, odr))) pin =
    false /\
  (forall (keys : Z) (active : bool) (now : Z),
     pressed
       (fst (emulate_gotek_button keys keycode active now pin button odr)) =
       false ->
     (active = false \/ Z.land keys keycode = 0) /\
     time_diff (press_time button) now > time_ms 200 /\
     Z.testbit
       (snd (emulate_gotek_button keys keycode active now pin button odr))
       pin = true).
Proof.
  intros keycode pin l button odr Hp Hb Ho Hall. split; [|split].
  - revert odr Ho. induction l as [|x l IH]; intros odr Ho; [reflexivity|].
    inversion Hall as [|y l' Hx Hall']; subst.
    unfold emulate_gotek_button_run in *. cbn [fold_left fst snd].
    destruct (emulate_gotek_button_cases (fst (fst x)) keycode (snd (fst x))
                (snd x) pin button odr)
      as [E | [(E0 & _) | (_ & _ & E0 & _)]];
      [| congruence | lia].
    rewrite E. now apply IH.
  - revert odr Ho. induction l as [|x l IH]; intros odr Ho; [exact Ho|].
    inversion Hall as [|y l' Hx Hall']; subst.
    unfold emulate_gotek_button_run in *. cbn [fold_left fst snd].
    destruct (emulate_gotek_button_cases (fst (fst x)) keycode (snd (fst x))
                (snd x) pin button odr)
      as [E | [(E0 & _) | (_ & _ & E0 & _)]];
      [| congruence | lia].
    rewrite E. now apply IH.
  - intros keys active now Hrel.
    destruct (emulate_gotek_button_cases keys keycode active now pin
                button odr)
      as [E | [(E0 & _) | (_ & Hk & Ht & E)]];
      [rewrite E in Hrel; cbn in Hrel; congruence | congruence |].
    rewrite E. cbn [snd]. split; [exact Hk|]. split; [exact Ht|].
    rewrite gpio_write_pin_bits, Z.eqb_refl by lia. reflexivity.
Qed.

(** With the emulation inactive a call presses nothing. *)
Lemma emulate_gotek_button_inactive (keys keycode now pin : Z)
    (button : gotek_button) (odr : Z) :
  pressed (fst (emulate_gotek_button keys keycode false now pin button odr)) =
    true ->
  fst (emulate_gotek_button keys keycode false now pin button odr) = button.
Proof.
  destruct (emulate_gotek_button_cases keys keycode false now pin button odr)
    as [E | [(_ & E0 & _) | (_ & _ & _ & E)]]; rewrite ?E; cbn [fst];
    [reflexivity | discriminate | discriminate].
Qed.

(** While the configuration menu is open, and after it has closed as
    long as a key is still held, the emulation is inactive: over any
    number of such rounds no Gotek button is newly pressed (a button that
    ends pressed was pressed before, at the same time), and the emulation
    stays inactive; one round with the menu open makes it inactive. *)
Theorem gotek_buttons_blocked_by_menu :
  forall (l : list gotek_round) (g : gotek),
  gotek_active g = false ->
  Forall (fun x => fst (fst x) = true \/ snd (fst x) <> 0) l ->
  gotek_active (emulate_gotek_rounds l g) = false /\
  (pressed (gl (emulate_gotek_rounds l g)) = true ->
   gl (emulate_gotek_rounds l g) = gl g) /\
  (pressed (gr (emulate_gotek_rounds l g)) = true ->
   gr (emulate_gotek_rounds l g) = gr g) /\
  (pressed (gs (emulate_gotek_rounds l g)) = true ->
   gs (emulate_gotek_rounds l g) = gs g) /\
  (forall (keys now1 now2 now3 : Z) (g0 : gotek),
     gotek_active (emulate_gotek_buttons true keys now1 now2 now3 g0) =
       false).
Proof.
  intros l. induction l as [|x l IH]; intros g Ha Hall.
  - cbn. repeat split; try reflexivity; exact Ha.
  - inversion Hall as [|y l' Hx Hall']; subst.
    destruct x as [[ca keys] [[n1 n2] n3]]. cbn [fst snd] in Hx.
    change (emulate_gotek_rounds (((ca, keys), ((n1, n2), n3)) :: l) g)
      with (emulate_gotek_rounds l (emulate_gotek_buttons ca keys n1 n2 n3 g)).
    set (g1 := emulate_gotek_buttons ca keys n1 n2 n3 g).
    assert (Ea : (if ca then false
                  else if negb (gotek_active g) && (keys =? 0) then true
                       else gotek_active g) = false).
    { rewrite Ha. destruct ca; [reflexivity|].
      destruct Hx as [Hx|Hx]; [discriminate|].
      destruct (Z.eqb_spec keys 0); [contradiction | reflexivity]. }
    assert (Ha1 : gotek_active g1 = false) by exact Ea.
    destruct (IH g1 Ha1 Hall') as (I1 & I2 & I3 & I4 & I5).
    split; [exact I1|].
    assert (H1 : forall (ok : pressed (gl g1) = true), gl g1 = gl g).
    { unfold g1, emulate_gotek_buttons. cbn [gl]. rewrite Ea.
      apply emulate_gotek_button_inactive. }
    assert (H2 : forall (ok : pressed (gr g1) = true), gr g1 = gr g).
    { unfold g1, emulate_gotek_buttons. cbn [gr]. rewrite Ea.
      apply emulate_gotek_button_inactive. }
    assert (H3 : forall (ok : pressed (gs g1) = true), gs g1 = gs g).
    { unfold g1, emulate_gotek_buttons. cbn [gs]. rewrite Ea.
      apply emulate_gotek_button_inactive. }
    split; [|split; [|split; [|exact I5]]].
    + intros Hp. rewrite (I2 Hp) in *. apply H1. rewrite <- (I2 Hp). exact Hp.
    + intros Hp. rewrite (I3 Hp) in *. apply H2. rewrite <- (I3 Hp). exact Hp.
    + intros Hp. rewrite (I4 Hp) in *. apply H3. rewrite <- (I4 Hp). exact Hp.
Qed.

(** * The button timer *)

Lemma button_timer_run_enc (l : list (Z * Z)) :
  forall (bs : button_timer_state) (r : Z * encoder),
  enc bs = snd r ->
  enc (button_timer_run false l bs) =
  snd (fold_left (fun r x => get_buttons (fst x) (snd x) (snd r)) l r).
Proof.
  induction l as [|x l IH]; intros bs r E; cbn [fold_left]; [exact E|].
  unfold button_timer_run. cbn [fold_left].
  apply IH. cbn [button_timer_fn enc snd]. now rewrite E.
Qed.

Lemma button_timer_run_deadline (i2c : bool) (l : list (Z * Z)) :
  forall bs : button_timer_state,
  deadline (button_timer_run i2c l bs) =
  deadline bs + Z.of_nat (length l) * time_ms 5.
Proof.
  induction l as [|x l IH]; intros bs; [cbn; lia|].
  unfold button_timer_run in *. cbn [fold_left length].
  rewrite IH. cbn [button_timer_fn deadline]. lia.
Qed.

Lemma uint8_lor_keeps (a g b : Z) :
  Z.land 255 b = b -> Z.land g b = b -> Z.land (uint8 (Z.lor a g)) b = b.
Proof.
  intros E255 Eg. rewrite uint8_land, <- Z.land_assoc, E255.
  rewrite Z.land_lor_distr_l, Eg.
  apply Z.bits_inj'. intros n Hn. rewrite Z.lor_spec, Z.land_spec.
  destruct (Z.testbit a n), (Z.testbit b n); reflexivity.
Qed.

(** The select switch is latched after 80 ms: when the timer has fired 16
    times reading the select pin low (and the custom I2C protocol is not
    in use), B_SELECT is set in [buttons], and the deadline of the timer
    has advanced by exactly 16 periods of 5 ms. *)
Theorem button_timer_latches_select :
  forall (l : list (Z * Z)) (bs : button_timer_state),
  length l = 16%nat ->
  Forall (fun x => fst x = 0) l ->
  0 < B_SELECT < 2 ^ 8 ->
  Z.land B_SELECT 3 = 0 ->
  Z.land (buttons (button_timer_run false l bs)) B_SELECT = B_SELECT /\
  deadline (button_timer_run false l bs) = deadline bs + time_ms 80.
Proof.
  intros l bs Hlen Hall Hsel Hdisj. split.
  - assert (Hall01 : Forall (fun x => fst x = 0 \/ fst x = 1) l)
      by (eapply Forall_impl; [|exact Hall]; intros; now left).
    pose proof (button_timer_run_enc l bs (0, enc bs) eq_refl) as Ee.
    fold (get_buttons_run l (enc bs)) in Ee.
    pose proof (sixteen_samples_fill l (enc bs) Hlen Hall01) as Eb.
    destruct (samples_fold_bounds l 0 Hall01) as (_ & Hz); [lia|].
    fold (samples_value l) in Hz.
    assert (E0 : samples_value l = 0) by (apply Hz; now split).
    rewrite <- Ee, E0 in Eb.
    destruct (exists_last (l := l)) as (l0 & x & El).
    { intros ->. discriminate. }
    rewrite El in *. unfold button_timer_run in *.
    rewrite fold_left_app in *. cbn [fold_left] in *.
    set (bs0 := fold_left _ l0 bs) in *.
    cbn [button_timer_fn enc buttons fst snd] in *.
    pose proof (get_buttons_select (fst x) (snd x) (enc bs0) Hsel Hdisj) as Hg.
    rewrite Eb in Hg. cbn [Z.eqb] in Hg.
    assert (E255 : Z.land 255 B_SELECT = B_SELECT).
    { rewrite Z.land_comm, <- uint8_land. unfold uint8.
      apply Z.mod_small. lia. }
    apply uint8_lor_keeps; [exact E255|].
    apply uint8_lor_keeps; [exact E255 | exact Hg].
  - rewrite button_timer_run_deadline, Hlen. unfold time_ms.
    change (Z.of_nat 16) with 16. lia.
Qed.

Lemma uint8_lor_twice (a b : Z) :
  uint8 (Z.lor (uint8 (Z.lor a b)) b) = uint8 (Z.lor a b).
Proof.
  rewrite !uint8_land. apply Z.bits_inj'. intros n Hn.
  rewrite !Z.land_spec, !Z.lor_spec, !Z.land_spec, !Z.lor_spec.
  destruct (Z.testbit a n), (Z.testbit b n), (Z.testbit 255 n); reflexivity.
Qed.

(** With the custom I2C protocol, where the encoder pins serve as the
    jumper, the timer never reads them: however often it fires and
    whatever the pins read, it only latches B_PROCESSED, leaves the
    encoder state alone, and keeps its period of 5 ms. *)
Theorem button_timer_i2c_ignores_pins :
  forall (l : list (Z * Z)) (bs : button_timer_state),
  l <> [] ->
  enc (button_timer_run true l bs) = enc bs /\
  buttons (button_timer_run true l bs) =
    uint8 (Z.lor (buttons bs) (uint8 B_PROCESSED)) /\
  deadline (button_timer_run true l bs) =
    deadline bs + Z.of_nat (length l) * time_ms 5.
Proof.
  intros l bs Hne. split; [|split; [|apply button_timer_run_deadline]].
  - clear Hne. revert bs. induction l as [|x l IH]; intros bs; [reflexivity|].
    unfold button_timer_run in *. cbn [fold_left]. now rewrite IH.
  - destruct l as [|x l]; [contradiction|]. clear Hne.
    unfold button_timer_run. cbn [fold_left].
    set (bs1 := button_timer_fn true (fst x) (snd x) bs).
    assert (E1 : buttons bs1 = uint8 (Z.lor (buttons bs) (uint8 B_PROCESSED)))
      by reflexivity.
    rewrite <- E1.
    assert (Hfix : buttons bs1 =
                   uint8 (Z.lor (buttons bs1) (uint8 B_PROCESSED)))
      by (rewrite E1; symmetry; apply uint8_lor_twice).
    clearbody bs1. clear E1. revert bs1 Hfix.
    induction l as [|y l IH]; intros bs1 Hfix; [reflexivity|].
    cbn [fold_left]. rewrite IH.
    + cbn [button_timer_fn buttons fst]. now rewrite <- Hfix.
    + cbn [button_timer_fn buttons fst]. rewrite <- Hfix. exact Hfix.
Qed.

(** * The rasterizer *)

Lemma row_lines_bit (d : display) (row : Z) :
  0 <= row ->
  row_lines d row = 8 + 8 * (if Z.testbit (heights d) row then 1 else 0).
Proof.
  intros Hr. unfold row_lines. rewrite land_bit_test by exact Hr.
  destruct (Z.testbit (heights d) row); reflexivity.
Qed.

Lemma row_lines_cases (d : display) (row : Z) :
  row_lines d row = 8 \/ row_lines d row = 16.
Proof.
  unfold row_lines. destruct (_ =? 0); [left | right]; reflexivity.
Qed.

Lemma rows_height_nonneg (n : nat) :
  forall (row : Z) (d : display), 0 <= rows_height n row d.
Proof.
  induction n as [|n IH]; intros row d; cbn [rows_height]; [lia|].
  specialize (IH (row + 1) d).
  destruct (row_lines_cases d row); lia.
Qed.

Lemma rows_height_double (n : nat) :
  forall (row : Z) (d : display),
  0 <= row ->
  rows_height n row d =
  10 * Z.of_nat n + 8 * double_rows n row (heights d).
Proof.
  induction n as [|n IH]; intros row d Hr; cbn [rows_height double_rows];
    [reflexivity|].
  rewrite IH, row_lines_bit by lia.
  rewrite Nat2Z.inj_succ. lia.
Qed.

Lemma text_row_hit (n : nat) (row y : Z) (d : display) :
  0 <= y < row_lines d row -> text_row (S n) row y d = Some (row, y).
Proof.
  intros Hy. cbn [text_row].
  destruct (Z.ltb_spec y 0); [lia|].
  destruct (Z.ltb_spec y (row_lines d row)); [reflexivity | lia].
Qed.

Lemma text_row_step (n : nat) (row y : Z) (d : display) :
  row_lines d row <= y ->
  text_row (S n) row y d =
  text_row n (row + 1) (y - (row_lines d row + 2)) d.
Proof.
  intros Hy. cbn [text_row].
  destruct (row_lines_cases d row).
  destruct (Z.ltb_spec y 0); [lia|].
  destruct (Z.ltb_spec y (row_lines d row)); [lia | reflexivity].
  destruct (Z.ltb_spec y 0); [lia|].
  destruct (Z.ltb_spec y (row_lines d row)); [lia | reflexivity].
Qed.

Lemma text_row_negative (n : nat) (row y : Z) (d : display) :
  y < 0 -> text_row n row y d = None.
Proof.
  intros Hy. destruct n as [|n]; cbn [text_row]; [reflexivity|].
  destruct (Z.ltb_spec y 0); [reflexivity | lia].
Qed.

(** A line inside a text row is found, with the row it belongs to. *)
Lemma text_row_inside (m : nat) :
  forall (n : nat) (row k : Z) (d : display),
  (m < n)%nat ->
  0 <= k < row_lines d (row + Z.of_nat m) ->
  text_row n row (rows_height m row d + k) d = Some (row + Z.of_nat m, k).
Proof.
  induction m as [|m IH]; intros n row k d Hn Hk;
    (destruct n as [|n]; [lia|]); cbn [rows_height].
  - cbn [Z.of_nat] in *. rewrite Z.add_0_r in *. cbn [Z.add].
    now apply text_row_hit.
  - pose proof (rows_height_nonneg m (row + 1) d) as Hp.
    rewrite text_row_step by lia.
    replace (row_lines d row + 2 + rows_height m (row + 1) d + k -
             (row_lines d row + 2))
      with (rows_height m (row + 1) d + k) by lia.
    replace (row + Z.of_nat (S m)) with (row + 1 + Z.of_nat m) in * by lia.
    apply IH; [lia | exact Hk].
Qed.

(** The two lines below a text row are blank. *)
Lemma text_row_gap (m : nat) :
  forall (n : nat) (row k : Z) (d : display),
  (m < n)%nat ->
  row_lines d (row + Z.of_nat m) <= k < row_lines d (row + Z.of_nat m) + 2 ->
  text_row n row (rows_height m row d + k) d = None.
Proof.
  induction m as [|m IH]; intros n row k d Hn Hk;
    (destruct n as [|n]; [lia|]); cbn [rows_height].
  - cbn [Z.of_nat] in *. rewrite Z.add_0_r in *. cbn [Z.add].
    rewrite text_row_step by lia. apply text_row_negative. lia.
  - pose proof (rows_height_nonneg m (row + 1) d) as Hp.
    assert (Hk0 : 0 <= k)
      by (destruct (row_lines_cases d (row + Z.of_nat (S m))); lia).
    destruct (row_lines_cases d row) as [E|E];
      (rewrite text_row_step by lia);
      replace (row_lines d row + 2 + rows_height m (row + 1) d + k -
               (row_lines d row + 2))
        with (rows_height m (row + 1) d + k) by lia;
      replace (row + Z.of_nat (S m)) with (row + 1 + Z.of_nat m) in * by lia;
      (apply IH; [lia | exact Hk]).
Qed.

(** The lines below the last text row are blank. *)
Lemma text_row_below (n : nat) :
  forall (row y : Z) (d : display),
  rows_height n row d - 2 <= y -> text_row n row y d = None.
Proof.
  induction n as [|n IH]; intros row y d Hy; cbn [rows_height] in *;
    [reflexivity|].
  pose proof (rows_height_nonneg n (row + 1) d) as Hp.
  destruct (Z.ltb_spec y 0); [now apply text_row_negative|].
  rewrite text_row_step by lia.
  apply IH. lia.
Qed.

(** A line that is found lies inside its row. *)
Lemma text_row_range (n : nat) :
  forall (row y r k : Z) (d : display),
  text_row n row y d = Some (r, k) -> 0 <= k < row_lines d r.
Proof.
  induction n as [|n IH]; intros row y r k d H; cbn [text_row] in H;
    [discriminate|].
  destruct (Z.ltb_spec y 0); [discriminate|].
  destruct (Z.ltb_spec y (row_lines d row)).
  - inversion H; subst. lia.
  - eapply IH. exact H.
Qed.

Lemma glyph_index_range (c y : Z) :
  0 <= c < 2 ^ 8 -> 0 <= y < 8 -> 0 <= glyph_index c y < 768.
Proof.
  intros Hc Hy. unfold glyph_index.
  rewrite Z.shiftl_mul_pow2 by lia. change (2 ^ 3) with 8.
  destruct (Z.ltb_spec c 32); cbn [orb].
  - change (uint8 (32 - 32)) with 0. lia.
  - destruct (Z.gtb_spec c 127).
    + change (uint8 (32 - 32)) with 0. lia.
    + unfold uint8. rewrite Z.mod_small by lia. lia.
Qed.

Lemma render_cols_ext (font1 font2 : Z -> Z) (t : list Z) (y : Z) :
  (forall i : Z, 0 <= i < 768 -> font1 i = font2 i) ->
  0 <= y < 8 ->
  forall (n : nat) (x : Z) (dl : list Z),
  render_cols font1 n x t y dl = render_cols font2 n x t y dl.
Proof.
  intros Hf Hy. induction n as [|n IH]; intros x dl; cbn [render_cols];
    [reflexivity|].
  rewrite Hf, IH; [reflexivity|].
  apply glyph_index_range; [|exact Hy].
  unfold uint8. apply Z.mod_pos_bound. lia.
Qed.

(** The pixel line of the font that a line of a text row shows: each line
    of a double-height row is shown twice. *)
Lemma glyph_line_range (d : display) (r k : Z) :
  0 <= k < row_lines d r ->
  0 <= (if Z.land (heights d) (Z.shiftl 1 r) =? 0 then k else Z.quot k 2) < 8.
Proof.
  unfold row_lines. destruct (_ =? 0); intros Hk; [lia|].
  rewrite Z.quot_div_nonneg by lia.
  split; [apply Z.div_pos; lia | apply Z.div_lt_upper_bound; lia].
Qed.

(** render_line reads the font within its 96 characters of 8 lines only:
    for every line, display and text (also with text bytes outside the
    printable range, which are drawn as spaces), two fonts that agree on
    the indices 0 to 767 give the same row. *)
Theorem render_line_reads_font_in_bounds :
  forall (font1 font2 : Z -> Z) (y : Z) (d : display) (text : list (list Z)),
  (forall i : Z, 0 <= i < 768 -> font1 i = font2 i) ->
  render_line font1 y d text = render_line font2 y d text.
Proof.
  intros font1 font2 y d text Hf. unfold render_line.
  destruct (text_row (Z.to_nat (rows d)) 0 (y - 2) d) as [[r k]|] eqn:E;
    [|reflexivity].
  apply render_cols_ext; [exact Hf|].
  apply glyph_line_range. eapply text_row_range. exact E.
Qed.

(** render_line lays the text out as the main loop sizes the box: the
    requested height is two blank lines, and for each row its 8 or 16
    pixel lines and two blank lines.  The lines above the first row, below
    each row and below the last row are left blank; line [k] of row [m]
    shows pixel line [k] of the characters of that row, or [k / 2] when
    the row has double height. *)
Theorem render_line_layout :
  forall (font : Z -> Z) (d : display) (text : list (list Z)),
  display_wf d ->
  requested_height d = 2 + rows_height (Z.to_nat (rows d)) 0 d /\
  (forall y : Z,
     y < 2 \/ requested_height d - 2 <= y ->
     render_line font y d text =
     repeat 0 (Z.to_nat display_dat_row_words)) /\
  (forall (m : nat) (k : Z),
     (m < Z.to_nat (rows d))%nat ->
     (0 <= k < row_lines d (Z.of_nat m) ->
      render_line font (2 + rows_height m 0 d + k) d text =
      render_cols font (Z.to_nat (cols d)) 0 (nth m text [])
        (if Z.testbit (heights d) (Z.of_nat m) then k / 2 else k)
        (repeat 0 (Z.to_nat display_dat_row_words))) /\
     (row_lines d (Z.of_nat m) <= k < row_lines d (Z.of_nat m) + 2 ->
      render_line font (2 + rows_height m 0 d + k) d text =
      repeat 0 (Z.to_nat display_dat_row_words))).
Proof.
  intros font d text Hd. unfold display_wf in Hd.
  assert (Hreq : requested_height d =
                 2 + rows_height (Z.to_nat (rows d)) 0 d).
  { unfold requested_height. rewrite rows_height_double by lia.
    rewrite Z2Nat.id by lia. lia. }
  split; [exact Hreq|]. split.
  - intros y Hy. unfold render_line.
    replace (text_row (Z.to_nat (rows d)) 0 (y - 2) d) with (@None (Z * Z));
      [reflexivity|].
    symmetry. destruct Hy as [Hy|Hy].
    + apply text_row_negative. lia.
    + apply text_row_below. lia.
  - intros m k Hm. split; intros Hk; unfold render_line.
    + replace (2 + rows_height m 0 d + k - 2)
        with (rows_height m 0 d + k) by lia.
      rewrite text_row_inside by (cbn [Z.add]; assumption).
      cbn [Z.add]. rewrite Nat2Z.id.
      rewrite land_bit_test by lia.
      destruct (Z.testbit (heights d) (Z.of_nat m)); cbn [negb];
        [|reflexivity].
      rewrite Z.quot_div_nonneg by lia. reflexivity.
    + replace (2 + rows_height m 0 d + k - 2)
        with (rows_height m 0 d + k) by lia.
      rewrite text_row_gap by (cbn [Z.add]; assumption). reflexivity.
Qed.

Lemma uint16_lor (a b : Z) :
  uint16 a = a -> uint16 b = b -> uint16 (Z.lor a b) = Z.lor a b.
Proof.
  intros Ha Hb. unfold uint16 in *.
  rewrite <- !Z.land_ones in * by lia.
  rewrite Z.land_lor_distr_l, Ha, Hb. reflexivity.
Qed.

Lemma or_at_length (i : nat) (v : Z) (dl : list Z) :
  length (or_at i v dl) = length dl.
Proof.
  revert i. induction dl as [|w dl IH]; intros [|i]; cbn [or_at length];
    try reflexivity. now rewrite IH.
Qed.

Lemma or_at_nth (v : Z) (dl : list Z) :
  forall i w : nat,
  nth w (or_at i v dl) 0 =
  if (w =? i)%nat && (i <? length dl)%nat
  then uint16 (Z.lor (nth w dl 0) v) else nth w dl 0.
Proof.
  induction dl as [|a dl IH]; intros [|i] [|w]; cbn [or_at nth length];
    try reflexivity.
  - cbn. now rewrite andb_false_r.
  - rewrite IH. reflexivity.
Qed.

Lemma or_at_words (i : nat) (v : Z) (dl : list Z) :
  uint16 v = v ->
  Forall (fun w => uint16 w = w) dl ->
  Forall (fun w => uint16 w = w) (or_at i v dl).
Proof.
  intros Hv. revert i.
  induction dl as [|a dl IH]; intros [|i] Hall; cbn [or_at];
    try constructor; inversion Hall; subst; try assumption.
  - unfold uint16. apply Z.mod_mod. lia.
  - now apply IH.
Qed.

(** The word a column adds to its pair of columns. *)
Lemma column_word (f x : Z) :
  0 <= f < 2 ^ 8 ->
  uint16 (Z.shiftl (uint16 f) (if Z.land x 1 =? 0 then 8 else 0)) =
  Z.shiftl (uint16 f) (if Z.land x 1 =? 0 then 8 else 0) /\
  uint16 f = f.
Proof.
  intros Hf.
  assert (E : uint16 f = f) by (unfold uint16; apply Z.mod_small; lia).
  rewrite E. split; [|reflexivity].
  destruct (Z.land x 1 =? 0).
  - rewrite Z.shiftl_mul_pow2 by lia. unfold uint16.
    apply Z.mod_small. lia.
  - rewrite Z.shiftl_0_r. exact E.
Qed.

Lemma column_parity (x : Z) :
  0 <= x ->
  (x = 2 * (x / 2) /\ (Z.land x 1 =? 0) = true) \/
  (x = 2 * (x / 2) + 1 /\ (Z.land x 1 =? 0) = false).
Proof.
  intros Hx.
  assert (E : Z.land x 1 = x mod 2)
    by (change 1 with (Z.ones 1); now rewrite Z.land_ones by lia).
  rewrite E.
  assert (Hd : x = 2 * (x / 2) + x mod 2) by (apply Z.div_mod; lia).
  assert (Hm : 0 <= x mod 2 < 2) by (apply Z.mod_pos_bound; lia).
  destruct (Z.eqb_spec (x mod 2) 0); [left | right]; split;
    try reflexivity; lia.
Qed.

(** The columns [x] to [x + n - 1] are added to the words of their
    pairs: the even column in the high byte, the odd one in the low
    byte. *)
Lemma render_cols_words (font : Z -> Z) (t : list Z) (y : Z) :
  (forall i : Z, 0 <= font i < 2 ^ 8) ->
  forall (n : nat) (x : Z) (dl : list Z) (w : nat),
  0 <= x ->
  x + Z.of_nat n <= 2 * Z.of_nat (length dl) ->
  Forall (fun a => uint16 a = a) dl ->
  (w < length dl)%nat ->
  nth w (render_cols font n x t y dl) 0 =
  Z.lor (nth w dl 0)
    (Z.lor
       (if (x <=? 2 * Z.of_nat w) && (2 * Z.of_nat w <? x + Z.of_nat n)
        then Z.shiftl (glyph font t y (2 * Z.of_nat w)) 8 else 0)
       (if (x <=? 2 * Z.of_nat w + 1) &&
           (2 * Z.of_nat w + 1 <? x + Z.of_nat n)
        then glyph font t y (2 * Z.of_nat w + 1) else 0)).
Proof.
  intros Hf. induction n as [|n IH]; intros x dl w Hx Hn Hall Hw;
    cbn [render_cols].
  - destruct (Z.leb_spec x (2 * Z.of_nat w));
      destruct (Z.ltb_spec (2 * Z.of_nat w) (x + Z.of_nat 0));
      destruct (Z.leb_spec x (2 * Z.of_nat w + 1));
      destruct (Z.ltb_spec (2 * Z.of_nat w + 1) (x + Z.of_nat 0));
      cbn [andb]; try lia; now rewrite !Z.lor_0_r.
  - set (f := font (glyph_index (uint8 (nth (Z.to_nat x) t 0)) y)).
    destruct (column_word f x (Hf _)) as (Ev & Ef).
    set (v := Z.shiftl (uint16 f) (if Z.land x 1 =? 0 then 8 else 0)) in *.
    rewrite IH;
      [ | lia | rewrite or_at_length; lia | now apply or_at_words
        | rewrite or_at_length; exact Hw ].
    rewrite or_at_nth.
    assert (Hx2 : 0 <= x / 2) by (apply Z.div_pos; lia).
    assert (Hi : (Z.to_nat (x / 2) <? length dl)%nat = true).
    { apply Nat.ltb_lt. apply Nat2Z.inj_lt. rewrite Z2Nat.id by exact Hx2.
      apply Z.div_lt_upper_bound; lia. }
    rewrite Hi, andb_true_r.
    assert (Ea : uint16 (nth w dl 0) = nth w dl 0).
    { rewrite Forall_forall in Hall. apply Hall. now apply nth_In. }
    assert (Eg : f = glyph font t y x) by reflexivity.
    rewrite Nat2Z.inj_succ.
    destruct (Nat.eqb_spec w (Z.to_nat (x / 2))) as [Ew|Ew].
    + assert (Ew' : Z.of_nat w = x / 2) by lia.
      rewrite uint16_lor by assumption.
      destruct (column_parity x Hx) as [(Ex & Ep) | (Ex & Ep)];
        unfold v; rewrite Ep, Ef, Eg;
        destruct (Z.leb_spec (x + 1) (2 * Z.of_nat w));
        destruct (Z.ltb_spec (2 * Z.of_nat w) (x + 1 + Z.of_nat n));
        destruct (Z.leb_spec (x + 1) (2 * Z.of_nat w + 1));
        destruct (Z.ltb_spec (2 * Z.of_nat w + 1) (x + 1 + Z.of_nat n));
        destruct (Z.leb_spec x (2 * Z.of_nat w));
        destruct (Z.ltb_spec (2 * Z.of_nat w) (x + Z.succ (Z.of_nat n)));
        destruct (Z.leb_spec x (2 * Z.of_nat w + 1));
        destruct (Z.ltb_spec (2 * Z.of_nat w + 1)
                    (x + Z.succ (Z.of_nat n)));
        cbn [andb]; try lia;
        first [ replace (2 * Z.of_nat w) with x by lia
              | replace (2 * Z.of_nat w + 1) with x by lia ];
        rewrite ?Z.shiftl_0_r, ?Z.lor_0_l, ?Z.lor_0_r, ?Z.lor_assoc;
        reflexivity.
    + assert (Ew' : Z.of_nat w <> x / 2) by lia.
      assert (Hd : x = 2 * (x / 2) \/ x = 2 * (x / 2) + 1)
        by (destruct (column_parity x Hx) as [(E & _) | (E & _)]; lia).
      destruct (Z.leb_spec (x + 1) (2 * Z.of_nat w));
        destruct (Z.ltb_spec (2 * Z.of_nat w) (x + 1 + Z.of_nat n));
        destruct (Z.leb_spec (x + 1) (2 * Z.of_nat w + 1));
        destruct (Z.ltb_spec (2 * Z.of_nat w + 1) (x + 1 + Z.of_nat n));
        destruct (Z.leb_spec x (2 * Z.of_nat w));
        destruct (Z.ltb_spec (2 * Z.of_nat w) (x + Z.succ (Z.of_nat n)));
        destruct (Z.leb_spec x (2 * Z.of_nat w + 1));
        destruct (Z.ltb_spec (2 * Z.of_nat w + 1)
                    (x + Z.succ (Z.of_nat n)));
        cbn [andb]; try lia; reflexivity.
Qed.

(** The columns are packed two to a word, most significant byte first:
    for a font of bytes and a line of at most 42 columns that the text of
    the row covers, word [w] of the rendered row holds the font byte of
    column [2 w] in its high byte and that of column [2 w + 1] in its low
    byte, a column beyond the last one counting as 0. *)
Theorem render_cols_packs_columns :
  forall (font : Z -> Z) (t : list Z) (y : Z) (n w : nat),
  (forall i : Z, 0 <= font i < 2 ^ 8) ->
  (n <= 42)%nat ->
  (n <= length t)%nat ->
  (w < 21)%nat ->
  nth w (render_cols font n 0 t y (repeat 0 21)) 0 =
  Z.lor
    (if 2 * Z.of_nat w <? Z.of_nat n
     then Z.shiftl (glyph font t y (2 * Z.of_nat w)) 8 else 0)
    (if 2 * Z.of_nat w + 1 <? Z.of_nat n
     then glyph font t y (2 * Z.of_nat w + 1) else 0).
Proof.
  intros font t y n w Hf Hn _ Hw.
  rewrite render_cols_words;
    [ | exact Hf | lia | rewrite repeat_length; lia
      | apply Forall_forall; intros a Ha; apply repeat_spec in Ha; now subst
      | rewrite repeat_length; exact Hw ].
  rewrite nth_repeat, Z.lor_0_l.
  replace (0 <=? 2 * Z.of_nat w) with true by (symmetry; apply Z.leb_le; lia).
  replace (0 <=? 2 * Z.of_nat w + 1) with true
    by (symmetry; apply Z.leb_le; lia).
  reflexivity.
Qed.

End Firmware.

(** * The model at work

    The theorems above applied to the STM32F103 constants and to concrete
    configurations, states and requests. *)

#[export] Existing Instance stm32.
#[export] Existing Instance stm32_osd.
#[export] Existing Instance stm32_buttons.

(** The scenario of C1 with the pulses at ticks 1000 and 2000 and twelve
    falling edges one line (576 ticks) apart. *)
Lemma C1_scenario_witness :
  0 < TIME_MHZ /\
  hline (example_state (-1) 10) = HLINE_EOF /\
  frame (example_state (-1) 10) = 0 /\
  display_height (example_state (-1) 10) = 10 /\
  hline
    (run scenario_config
       (csync_edges (map (fun k => (3000 + 576 * Z.of_nat k, 0)) (seq 0 12)))
       (run scenario_config
          (pulse scenario_config 2000 (time_us 4))
          (run scenario_config
             (pulse scenario_config 1000 (time_us 15))
             (example_state (-1) 10)))) = HLINE_EOF /\
  frame
    (run scenario_config
       (csync_edges (map (fun k => (3000 + 576 * Z.of_nat k, 0)) (seq 0 12)))
       (run scenario_config
          (pulse scenario_config 2000 (time_us 4))
          (run scenario_config
             (pulse scenario_config 1000 (time_us 15))
             (example_state (-1) 10)))) = 1.
Proof.
  split; [reflexivity|]. split; [reflexivity|]. split; [reflexivity|].
  split; [reflexivity|].
  pose proof (C1_end_to_end_scenario
       (example_state (-1) 10) 1000 2000
       (map (fun k => (3000 + 576 * Z.of_nat k, 0)) (seq 0 12))
       eq_refl eq_refl eq_refl eq_refl eq_refl) as (_ & _ & _ & H1 & H2 & _).
  split; [exact H1 | exact H2].
Defined.

(** Heights 10 at [v_off = 3]: twelve edges after the start of the frame
    end it and signal it once. *)
Lemma C2_cycle_witness :
  config_wf scenario_config /\
  hline (example_state 1 10) = HLINE_SOF /\
  0 < display_height (example_state 1 10) <= MAX_DISPLAY_HEIGHT /\
  sint32_range (frame (example_state 1 10) + 1) /\
  hline (run scenario_config (csync_edges (repeat (0, 0) 12))
           (example_state 1 10)) = HLINE_EOF /\
  frame (run scenario_config (csync_edges (repeat (0, 0) 12))
           (example_state 1 10)) = frame (example_state 1 10) + 1.
Proof.
  assert (Hc : config_wf scenario_config)
    by (unfold config_wf, uint16_range; cbn; lia).
  assert (Hd : 0 < display_height (example_state 1 10) <= MAX_DISPLAY_HEIGHT)
    by (unfold MAX_DISPLAY_HEIGHT; cbn; lia).
  assert (Hf : sint32_range (frame (example_state 1 10) + 1))
    by (unfold sint32_range; cbn; lia).
  split; [exact Hc|]. split; [reflexivity|]. split; [exact Hd|].
  split; [exact Hf|].
  exact (proj2 (proj2
    (C2_frame_cycle_length
       scenario_config (repeat (0, 0) 12) (example_state 1 10)
       Hc eq_refl Hd Hf)) eq_refl).
Defined.

(** Height 10 at [v_off = 3]: ten edges after the start of the frame leave
    the machine on active line 11, with no frame signalled. *)
Lemma C2_ten_edges_counterexample :
  hline (example_state 1 10) = HLINE_SOF /\
  display_height (example_state 1 10) = 10 /\
  length (repeat (0, 0) 10) = 10%nat /\
  hline (run scenario_config (csync_edges (repeat (0, 0) 10))
           (example_state 1 10)) = 11 /\
  hline (run scenario_config (csync_edges (repeat (0, 0) 10))
           (example_state 1 10)) <> HLINE_EOF /\
  frame (run scenario_config (csync_edges (repeat (0, 0) 10))
           (example_state 1 10)) = 0.
Proof.
  repeat split; try reflexivity.
  vm_compute. discriminate.
Qed.

(** Height 0: a long pulse, a short pulse, a vertical-sync event and two
    more edges never leave EndOfFrame and VerticalBlank. *)
Lemma C3_zero_height_witness :
  display_height (example_state (-1) 0) = 0 /\
  hline (example_state (-1) 0) <= 0 /\
  Forall (fun s' => hline s' <= 0)
    (trace scenario_config
       (pulse scenario_config 1000 135 ++ pulse scenario_config 2000 36 ++
        [Vsync; Csync 3000 0; Csync 3036 1])
       (example_state (-1) 0)).
Proof.
  assert (Hl : hline (example_state (-1) 0) <= 0) by (cbn; lia).
  split; [reflexivity|]. split; [exact Hl|].
  exact (C3_zero_height_never_active scenario_config
           (pulse scenario_config 1000 135 ++ pulse scenario_config 2000 36 ++
            [Vsync; Csync 3000 0; Csync 3036 1])
           (example_state (-1) 0) eq_refl Hl).
Defined.

(** Height 0, VerticalBlank, a pulse that started at tick 100 and ends at
    tick 136 (4 microseconds): the frame is signalled. *)
Lemma C4_short_pulse_witness :
  display_height (example_state 0 0) = 0 /\
  hline (example_state 0 0) = HLINE_VBL /\
  1 <> polarity scenario_config /\
  time_diff (p (example_state 0 0)) 136 <= time_us 10 /\
  hline (IRQ_csync scenario_config 136 1 (example_state 0 0)) =
    HLINE_EOF /\
  tim1_smcr (IRQ_csync scenario_config 136 1 (example_state 0 0)) = 0 /\
  frame (IRQ_csync scenario_config 136 1 (example_state 0 0)) =
    sint32 (frame (example_state 0 0) + 1).
Proof.
  assert (Hp : 1 <> polarity scenario_config) by (cbn; lia).
  assert (Hw : time_diff (p (example_state 0 0)) 136 <=
               time_us 10) by (vm_compute; discriminate).
  split; [reflexivity|]. split; [reflexivity|]. split; [exact Hp|].
  split; [exact Hw|].
  pose proof (C4_zero_height_short_pulse_signals_frame
                scenario_config 136 1 (example_state 0 0)
                eq_refl eq_refl Hp Hw) as (H1 & H2 & H3 & _).
  split; [exact H1|]. split; [exact H2 | exact H3].
Defined.

(** EndOfFrame, a pulse that started at tick 100 and ends at tick 235 (15
    microseconds): classifying its end twice is classifying it once. *)
Lemma C5_long_pulse_witness :
  hline (example_state (-1) 10) <= 0 /\
  1 <> polarity scenario_config /\
  time_diff (p (example_state (-1) 10)) 235 > time_us 10 /\
  hline (IRQ_csync scenario_config 235 1 (example_state (-1) 10)) =
    HLINE_VBL /\
  IRQ_csync scenario_config 235 1
    (IRQ_csync scenario_config 235 1 (example_state (-1) 10)) =
  IRQ_csync scenario_config 235 1 (example_state (-1) 10).
Proof.
  assert (Hl : hline (example_state (-1) 10) <= 0) by (cbn; lia).
  assert (Hp : 1 <> polarity scenario_config) by (cbn; lia).
  assert (Hw : time_diff (p (example_state (-1) 10)) 235 >
               time_us 10) by reflexivity.
  split; [exact Hl|]. split; [exact Hp|]. split; [exact Hw|].
  pose proof (C5_long_pulse_idempotent
                scenario_config 235 1 (example_state (-1) 10) Hl Hp Hw)
    as (H1 & _ & H3 & _).
  split; [exact H1 | exact H3].
Defined.

(** Four rows, two of double height: 58 lines are asked for and 52 are
    granted. *)
Lemma C7_tall_display_witness :
  display_wf tall_display /\
  requested_height tall_display = 58 /\
  next_height tall_display =
    Z.min (requested_height tall_display) MAX_DISPLAY_HEIGHT /\
  next_height tall_display = 52.
Proof.
  assert (Hd : display_wf tall_display) by (unfold display_wf; cbn; lia).
  split; [exact Hd|]. split; [reflexivity|].
  split; [|reflexivity].
  exact (proj1 (C7_height_is_clamped
                  scenario_config tall_display 0
                  (mkMainloop (mkCpu (example_state (-1) 10) false []) 0
                     false [])
                  [] (example_state 1 52) Hd)).
Defined.


(** The sync stops on active line 7; the check at tick 900001 (just over
    100 ms after the last frame) forces EndOfFrame and stamps the time read
    next, tick 900005. *)
Lemma C6_stalled_frame_witness :
  time_diff (frame_time stalled_mainloop) 900001 >
    time_ms 100 /\
  hline (hw (core stalled_mainloop)) = 7 /\
  tim1_smcr
    (hw (core (sync_check scenario_config 900001 900005 [] [] []
                 stalled_mainloop))) = 0 /\
  hline
    (hw (core (sync_check scenario_config 900001 900005 [] [] []
                 stalled_mainloop))) = HLINE_EOF /\
  frame_time
    (sync_check scenario_config 900001 900005 [] [] []
       stalled_mainloop) = 900005.
Proof.
  assert (Hw : time_diff (frame_time stalled_mainloop) 900001 >
               time_ms 100) by reflexivity.
  split; [exact Hw|]. split; [reflexivity|].
  pose proof (proj2 (proj2
    (C6_sync_loss_recovery
       scenario_config 900001 900005 [] [] [] stalled_mainloop)) Hw)
    as (_ & _ & _ & _ & _ & _ & Hq & Ht & _).
  destruct (Hq eq_refl eq_refl eq_refl eq_refl) as (H1 & H2).
  split; [exact H1|]. split; [exact H2 | exact Ht].
Defined.

(** set_polarity and the handlers at work: active-high sync, a pulse of
    15 microseconds and one of 4 microseconds. *)
Lemma start_of_frame_witness :
  (polarity (mkConfig 1 2 3) = 0 \/ polarity (mkConfig 1 2 3) = 1) /\
  hline (example_state (-1) 10) <= 0 /\
  display_height (example_state (-1) 10) <> 0 /\
  135 > time_us 10 /\
  36 <= time_us 10 /\
  hline (run (mkConfig 1 2 3)
           (pulse (mkConfig 1 2 3) 1000 135 ++ pulse (mkConfig 1 2 3) 2000 36)
           (example_state (-1) 10)) = HLINE_SOF /\
  start_edge_only (mkConfig 1 2 3)
    (run (mkConfig 1 2 3) (Vsync :: pulse (mkConfig 1 2 3) 2000 36)
       (example_state (-1) 10)).
Proof.
  assert (H0 : polarity (mkConfig 1 2 3) = 0 \/ polarity (mkConfig 1 2 3) = 1)
    by (right; reflexivity).
  assert (H1 : hline (example_state (-1) 10) <= 0) by (cbn; lia).
  assert (H2 : display_height (example_state (-1) 10) <> 0) by (cbn; lia).
  assert (H3 : 135 > time_us 10) by reflexivity.
  assert (H4 : 36 <= time_us 10) by (vm_compute; discriminate).
  split; [exact H0|]. split; [exact H1|]. split; [exact H2|].
  split; [exact H3|]. split; [exact H4|].
  pose proof (start_of_frame_both_polarities (mkConfig 1 2 3)
                1000 135 2000 36 (example_state (-1) 10)
                H0 H1 H2 H3 H4) as ((E1 & _) & (_ & _ & E2)).
  split; [exact E1 | exact E2].
Defined.

(** A frame of the scenario line by line, with a vertical sync after it. *)
Lemma trigger_disabled_witness :
  config_wf scenario_config /\
  state_wf (sync (example_osd (-1) 10)) /\
  (hline (sync (example_osd (-1) 10)) <= 0 ->
   tim1_smcr (sync (example_osd (-1) 10)) = 0) /\
  Forall (fun o' => hline (sync o') <= 0 -> tim1_smcr (sync o') = 0)
    (scan_trace scenario_config 40
       ([Scan_line 1000 0; Scan_line 1135 1;
         Scan_line 2000 0; Scan_line 2036 1] ++
        repeat (Scan_line 0 0) 12 ++ [Scan_vsync])
       (example_osd (-1) 10)).
Proof.
  assert (H1 : config_wf scenario_config)
    by (unfold config_wf, uint16_range; cbn; lia).
  assert (H2 : state_wf (sync (example_osd (-1) 10)))
    by (unfold state_wf, hline_ok, uint16_range; cbn; lia).
  assert (H3 : hline (sync (example_osd (-1) 10)) <= 0 ->
               tim1_smcr (sync (example_osd (-1) 10)) = 0)
    by (intros _; reflexivity).
  split; [exact H1|]. split; [exact H2|]. split; [exact H3|].
  exact (proj1 (trigger_disabled_outside_frame scenario_config 40 _ _
                  H1 H2 H3)).
Defined.

Lemma hline_within_box_witness :
  config_wf scenario_config /\
  uint16_range (display_height (example_state 1 10)) /\
  -1 <= hline (example_state 1 10) <=
    frame_edges scenario_config (display_height (example_state 1 10)) /\
  Forall (fun s' =>
            -1 <= hline s' <=
              frame_edges scenario_config
                (display_height (example_state 1 10)) /\
            (v_off scenario_config <= hline s' -> 1 < hline s' ->
             hline s' - v_off scenario_config <
             display_height (example_state 1 10)))
    (trace scenario_config (csync_edges (repeat (0, 0) 12))
       (example_state 1 10)).
Proof.
  assert (H1 : config_wf scenario_config)
    by (unfold config_wf, uint16_range; cbn; lia).
  assert (H2 : uint16_range (display_height (example_state 1 10)))
    by (unfold uint16_range; cbn; lia).
  assert (H3 : -1 <= hline (example_state 1 10) <=
               frame_edges scenario_config
                 (display_height (example_state 1 10)))
    by (unfold frame_edges; cbn; lia).
  split; [exact H1|]. split; [exact H2|]. split; [exact H3|].
  exact (hline_stays_within_box scenario_config _ _ H1 H2 H3).
Defined.

Lemma slave_timers_witness :
  3 <= h_off (mkConfig 0 42 50) <= 3276 /\
  0 <= sysclk_us 1 <= 20 * h_off (mkConfig 0 42 50) /\
  tim2_arr (slave_arr_update (mkConfig 0 42 50) (example_state 0 10)) = 839 /\
  tim3_arr (slave_arr_update (mkConfig 0 42 50) (example_state 0 10)) = 791 /\
  tim2_ccr1 (slave_arr_update (mkConfig 0 42 50) (example_state 0 10)) = 768.
Proof.
  assert (H1 : 3 <= h_off (mkConfig 0 42 50) <= 3276) by (cbn; lia).
  assert (H2 : 0 <= sysclk_us 1 <= 20 * h_off (mkConfig 0 42 50))
    by (vm_compute; split; discriminate).
  split; [exact H1|]. split; [exact H2|].
  pose proof (slave_timers_in_order (mkConfig 0 42 50) (example_state 0 10)
                H1 H2) as (E1 & E2 & E3 & _).
  split; [exact E1|]. split; [exact E2 | exact E3].
Defined.

Lemma commit_display_compare_witness :
  0 <= cols tall_display <= 1022 /\
  0 <= sysclk_us 1 <= 80 /\
  on tall_display <> 0 /\
  tim1_ccr3
    (hw (commit_display tall_display (mkCpu (example_state (-1) 10) false [])))
    = 64 * cols tall_display + 80.
Proof.
  assert (H1 : 0 <= cols tall_display <= 1022) by (cbn; lia).
  assert (H2 : 0 <= sysclk_us 1 <= 80) by (vm_compute; split; discriminate).
  assert (H3 : on tall_display <> 0) by (cbn; lia).
  split; [exact H1|]. split; [exact H2|]. split; [exact H3|].
  exact (proj1 (proj1 (commit_display_compare tall_display
                         (mkCpu (example_state (-1) 10) false []) H1 H2)
                  H3)).
Defined.

(** The main loop at work: a round that finds the sync lost, then a round
    that meets a whole frame before its wait and requests at every other
    place. *)
Lemma main_loop_geometry_witness :
  config_wf scenario_config /\
  geometry_ok (hw (core stalled_mainloop)) /\
  geometry_ok
    (hw (core (main_loop scenario_config [quiet_round; busy_round]
                 stalled_mainloop))).
Proof.
  assert (H1 : config_wf scenario_config)
    by (unfold config_wf, uint16_range; cbn; lia).
  assert (H2 : geometry_ok (hw (core stalled_mainloop)))
    by (unfold geometry_ok, hline_ok, MAX_DISPLAY_HEIGHT; cbn; lia).
  split; [exact H1|]. split; [exact H2|].
  exact (main_loop_keeps_geometry scenario_config _ _ H1 H2).
Defined.

Lemma main_loop_log_witness :
  log_state (lost_sync stalled_mainloop) (console stalled_mainloop) /\
  log_state
    (lost_sync (main_loop scenario_config [quiet_round; busy_round]
                  stalled_mainloop))
    (console (main_loop scenario_config [quiet_round; busy_round]
                stalled_mainloop)).
Proof.
  assert (H1 : log_state (lost_sync stalled_mainloop)
                 (console stalled_mainloop)) by constructor.
  split; [exact H1|].
  exact (main_loop_log_alternates scenario_config _ _ H1).
Defined.

(** The frame met by the second round while its wait has nothing to wait
    for is taken and found: the log reads "Sync lost", "Sync found", and
    the height of the tall display is committed, clamped to 52. *)
Example busy_round_finds_frame :
  console (main_loop scenario_config [quiet_round; busy_round]
             stalled_mainloop) = [Sync_lost; Sync_found] /\
  lost_sync (main_loop scenario_config [quiet_round; busy_round]
               stalled_mainloop) = false /\
  display_height
    (hw (core (main_loop scenario_config [quiet_round; busy_round]
                 stalled_mainloop))) = 52.
Proof. vm_compute. repeat split. Qed.

(** The overlay box at work: [v_off = 3], height 10. *)
Lemma overlay_rows_witness :
  config_wf scenario_config /\
  2 <= v_off scenario_config /\
  0 < display_height (sync (example_osd 1 10)) <= MAX_DISPLAY_HEIGHT /\
  hline (sync (example_osd 1 10)) = HLINE_SOF /\
  tim1_smcr (sync (example_osd 1 10)) = 0 /\
  Z.lor TIM_SMCR_MSM (Z.lor (TIM_SMCR_TS 5) (TIM_SMCR_SMS 4)) <> 0 /\
  0 <= display_dat /\
  display_dat_row 52 < 2 ^ 32 /\
  Z.of_nat (length (repeat (0, 0) 12)) =
    frame_edges scenario_config (display_height (sync (example_osd 1 10))) /\
  fst (scanlines scenario_config 40 (repeat (0, 0) 12) (example_osd 1 10)) =
    repeat None (Z.to_nat (v_off scenario_config - 2)) ++
    map (fun j => Some (display_dat_row j))
      (seq 0 (Z.to_nat (display_height (sync (example_osd 1 10))))) ++
    [None].
Proof.
  assert (H1 : config_wf scenario_config)
    by (unfold config_wf, uint16_range; cbn; lia).
  assert (H2 : 2 <= v_off scenario_config) by (cbn; lia).
  assert (H3 : 0 < display_height (sync (example_osd 1 10)) <=
               MAX_DISPLAY_HEIGHT)
    by (unfold MAX_DISPLAY_HEIGHT; cbn; lia).
  assert (H6 : Z.lor TIM_SMCR_MSM (Z.lor (TIM_SMCR_TS 5) (TIM_SMCR_SMS 4))
               <> 0) by (vm_compute; discriminate).
  assert (H7 : 0 <= display_dat) by (vm_compute; discriminate).
  assert (H8 : display_dat_row 52 < 2 ^ 32) by reflexivity.
  split; [exact H1|]. split; [exact H2|]. split; [exact H3|].
  split; [reflexivity|]. split; [reflexivity|]. split; [exact H6|].
  split; [exact H7|]. split; [exact H8|]. split; [reflexivity|].
  exact (proj1 (overlay_reads_rows_in_order scenario_config 40
                  (repeat (0, 0) 12) (example_osd 1 10)
                  H1 H2 H3 eq_refl eq_refl H6 H7 H8 eq_refl)).
Defined.

(** The buttons at work. *)
Lemma sixteen_low_is_bits : Forall (fun x : Z * Z => fst x = 0 \/ fst x = 1)
                              sixteen_low.
Proof.
  apply Forall_forall. intros x Hx. apply repeat_spec in Hx. subst.
  left. reflexivity.
Defined.

Lemma sixteen_low_is_low : Forall (fun x : Z * Z => fst x = 0) sixteen_low.
Proof.
  apply Forall_forall. intros x Hx. apply repeat_spec in Hx. subst.
  reflexivity.
Defined.

Lemma select_debounce_witness :
  length sixteen_low = 16%nat /\
  0 < B_SELECT < 2 ^ 8 /\
  Z.land B_SELECT 3 = 0 /\
  Z.land (fst (get_buttons_run sixteen_low idle_encoder)) B_SELECT =
    B_SELECT.
Proof.
  assert (H3 : 0 < B_SELECT < 2 ^ 8) by (vm_compute; split; reflexivity).
  split; [reflexivity|]. split; [exact H3|]. split; [reflexivity|].
  exact (proj1 (select_needs_sixteen_low_samples sixteen_low idle_encoder
                  eq_refl sixteen_low_is_bits H3 eq_refl)
           sixteen_low_is_low).
Defined.

Lemma rotary_step_witness :
  0 < B_SELECT < 2 ^ 8 /\
  Z.land B_SELECT 3 = 0 /\
  rotary (mkEncoder 0 1) mod 4 = 1 /\
  0 mod 4 = 0 /\
  Z.land (fst (get_buttons 1 0 (mkEncoder 0 1))) 3 = 1.
Proof.
  assert (H1 : 0 < B_SELECT < 2 ^ 8) by (vm_compute; split; reflexivity).
  split; [exact H1|]. split; [reflexivity|]. split; [reflexivity|].
  split; [reflexivity|].
  exact (proj2 (proj1 (rotary_reports_detent_steps 1 0 (mkEncoder 0 1)
                         H1 eq_refl))
           (conj eq_refl eq_refl)).
Defined.

Lemma button_timer_select_witness :
  length sixteen_low = 16%nat /\
  0 < B_SELECT < 2 ^ 8 /\
  Z.land B_SELECT 3 = 0 /\
  Z.land
    (buttons (button_timer_run false sixteen_low
                (mkButtonTimer idle_encoder 0 1000)))
    B_SELECT = B_SELECT /\
  deadline (button_timer_run false sixteen_low
              (mkButtonTimer idle_encoder 0 1000)) = 1000 + time_ms 80.
Proof.
  assert (H3 : 0 < B_SELECT < 2 ^ 8) by (vm_compute; split; reflexivity).
  split; [reflexivity|]. split; [exact H3|]. split; [reflexivity|].
  exact (button_timer_latches_select sixteen_low
           (mkButtonTimer idle_encoder 0 1000)
           eq_refl sixteen_low_is_low H3 eq_refl).
Defined.

Lemma button_timer_i2c_witness :
  [(0, 3); (0, 0)] <> [] /\
  enc (button_timer_run true [(0, 3); (0, 0)]
         (mkButtonTimer idle_encoder 0 1000)) = idle_encoder /\
  buttons (button_timer_run true [(0, 3); (0, 0)]
             (mkButtonTimer idle_encoder 0 1000)) =
    uint8 (Z.lor 0 (uint8 B_PROCESSED)).
Proof.
  assert (H1 : [(0, 3); (0, 0)] <> @nil (Z * Z)) by discriminate.
  split; [exact H1|].
  pose proof (button_timer_i2c_ignores_pins [(0, 3); (0, 0)]
                (mkButtonTimer idle_encoder 0 1000) H1) as (E1 & E2 & _).
  split; [exact E1 | exact E2].
Defined.

(** A Gotek button pressed at tick 900, its pin 3 low, 100 ticks later. *)
Lemma gotek_press_witness :
  0 <= 3 /\
  pressed (mkGotekButton true 900) = true /\
  Z.testbit 48 3 = false /\
  Forall (fun x : Z * bool * Z =>
            time_diff (press_time (mkGotekButton true 900)) (snd x) <=
            time_ms 200)
    [(0, true, 1000)] /\
  fst (emulate_gotek_button_run B_LEFT 3 [(0, true, 1000)]
         (mkGotekButton true 900, 48)) = mkGotekButton true 900.
Proof.
  assert (H1 : 0 <= 3) by lia.
  assert (H4 : Forall (fun x : Z * bool * Z =>
                         time_diff (press_time (mkGotekButton true 900))
                           (snd x) <= time_ms 200)
                 [(0, true, 1000)]).
  { constructor; [|constructor]. vm_compute. discriminate. }
  split; [exact H1|]. split; [reflexivity|]. split; [reflexivity|].
  split; [exact H4|].
  exact (proj1 (gotek_press_lasts_200ms B_LEFT 3 [(0, true, 1000)]
                  (mkGotekButton true 900) 48 H1 eq_refl eq_refl H4)).
Defined.

Lemma gotek_pin_witness :
  0 <= 3 /\
  Z.testbit 56 3 = negb (pressed (mkGotekButton false 0)) /\
  Z.testbit
    (snd (emulate_gotek_button 1 B_LEFT true 1000 3
            (mkGotekButton false 0) 56)) 3 =
  negb
    (pressed
       (fst (emulate_gotek_button 1 B_LEFT true 1000 3
               (mkGotekButton false 0) 56))).
Proof.
  assert (H1 : 0 <= 3) by lia.
  split; [exact H1|]. split; [reflexivity|].
  exact (proj1 (emulate_gotek_button_pin 1 B_LEFT true 1000 3
                  (mkGotekButton false 0) 56 H1) eq_refl).
Defined.

Lemma gotek_menu_witness :
  gotek_active
    (mkGotek false (mkGotekButton false 0) (mkGotekButton false 0)
       (mkGotekButton false 0) 56) = false /\
  Forall (fun x : gotek_round => fst (fst x) = true \/ snd (fst x) <> 0)
    [(true, 1, (0, 0, 0)); (false, 1, (5, 5, 5))] /\
  gotek_active
    (emulate_gotek_rounds [(true, 1, (0, 0, 0)); (false, 1, (5, 5, 5))]
       (mkGotek false (mkGotekButton false 0) (mkGotekButton false 0)
          (mkGotekButton false 0) 56)) = false.
Proof.
  assert (H2 : Forall (fun x : gotek_round =>
                         fst (fst x) = true \/ snd (fst x) <> 0)
                 [(true, 1, (0, 0, 0)); (false, 1, (5, 5, 5))]).
  { constructor; [left; reflexivity|]. constructor; [|constructor].
    right. cbn. discriminate. }
  split; [reflexivity|]. split; [exact H2|].
  exact (proj1 (gotek_buttons_blocked_by_menu
                  [(true, 1, (0, 0, 0)); (false, 1, (5, 5, 5))]
                  (mkGotek false (mkGotekButton false 0)
                     (mkGotekButton false 0) (mkGotekButton false 0) 56)
                  eq_refl H2)).
Defined.

(** The rasterizer at work. *)
Lemma font_agreement :
  forall i : Z, 0 <= i < 768 -> index_font i = other_font i.
Proof.
  intros i Hi. unfold index_font, other_font.
  destruct (Z.ltb_spec i 768); [reflexivity | lia].
Defined.

Lemma render_line_font_witness :
  (forall i : Z, 0 <= i < 768 -> index_font i = other_font i) /\
  render_line index_font 5 tall_display [hi_text] =
  render_line other_font 5 tall_display [hi_text].
Proof.
  split; [exact font_agreement|].
  exact (render_line_reads_font_in_bounds index_font other_font 5
           tall_display [hi_text] font_agreement).
Defined.

Lemma render_line_layout_witness :
  display_wf tall_display /\
  requested_height tall_display =
    2 + rows_height (Z.to_nat (rows tall_display)) 0 tall_display.
Proof.
  assert (H1 : display_wf tall_display) by (unfold display_wf; cbn; lia).
  split; [exact H1|].
  exact (proj1 (render_line_layout index_font tall_display [hi_text] H1)).
Defined.

Lemma index_font_bytes : forall i : Z, 0 <= index_font i < 2 ^ 8.
Proof. intros i. unfold index_font. apply Z.mod_pos_bound. lia. Defined.

Lemma render_cols_packing_witness :
  (forall i : Z, 0 <= index_font i < 2 ^ 8) /\
  (2 <= 42)%nat /\
  (2 <= length hi_text)%nat /\
  (0 < 21)%nat /\
  nth 0 (render_cols index_font 2 0 hi_text 0 (repeat 0 21)) 0 =
  Z.lor
    (if 2 * Z.of_nat 0 <? Z.of_nat 2
     then Z.shiftl (glyph index_font hi_text 0 (2 * Z.of_nat 0)) 8 else 0)
    (if 2 * Z.of_nat 0 + 1 <? Z.of_nat 2
     then glyph index_font hi_text 0 (2 * Z.of_nat 0 + 1) else 0).
Proof.
  assert (H2 : (2 <= 42)%nat) by lia.
  assert (H3 : (2 <= length hi_text)%nat) by (cbn; lia).
  assert (H4 : (0 < 21)%nat) by lia.
  split; [exact index_font_bytes|]. split; [exact H2|]. split; [exact H3|].
  split; [exact H4|].
  exact (render_cols_packs_columns index_font hi_text 0 2 0
           index_font_bytes H2 H3 H4).
Defined.
